(** * Zone database lifecycle and AXFR-IN timers of knot/server/zones.c

    A shallow embedding of [src/knot/server/zones.c]: the SOA timer
    extractor, the AXFR-IN poll and expire handlers, the timer update, the ACL
    builder, the zone loader, the reconciler loop and the pruning of the old
    database.  Zone objects live in a store addressed by pointers, so that the
    old database, the new database and the timer events can share one object.
    C integers are [Z] with the wrap-around written out.

    The functions of zones.c are translated statement by statement.  What
    they call in dnslib, common/ and the system is not part of these sources:
    it is either a field of the record [externals], about which nothing is
    assumed, or a definition marked "Modelled from the spec".  A function
    returns [None] where the C code has undefined behaviour (a pointer to no
    object, a zone without apex SOA).  Log and debug output is left out, and
    the allocation of events and of the new database is taken to succeed. *)

From Stdlib Require Import ZArith Lia List.
From stdpp Require Import gmap strings list fin_maps.

Open Scope Z_scope.

(** ** Machine integers *)

(** [uint32_t]: the value kept after an unsigned 32-bit operation. *)
Definition uint32 (x : Z) : Z := x mod 2 ^ 32.

(** Conversion of an [int] to [size_t] (64-bit), as the comparison
    [ret == buflen] of the poll handler performs it. *)
Definition to_size_t (x : Z) : Z := x mod 2 ^ 64.

(** ** Error codes (knot/other/error.h) *)

Inductive knot_error : Set :=
  | KNOT_EOK
  | KNOT_ERROR
  | KNOT_EINVAL
  | KNOT_ENOMEM
  | KNOT_EZONEINVAL.

Global Instance knot_error_eq_dec : EqDecision knot_error.
Proof. solve_decision. Defined.

(** ** Domain names, RDATA, RRsets and nodes (dnslib) *)

(** A domain name in canonical form. *)
Abbreviation dnslib_dname_t := string.

(** The numeric items of an SOA RDATA, in seconds. *)
Record dnslib_rdata_t : Set := mk_rdata {
  soa_serial : Z;
  soa_refresh : Z;
  soa_retry : Z;
  soa_expire : Z;
  soa_minimum : Z
}.

Record dnslib_rrset_t : Set := mk_rrset {
  rr_type : Z;
  rr_rdata : list dnslib_rdata_t
}.

Record dnslib_node_t : Set := mk_node {
  owner : dnslib_dname_t;
  rrsets : list dnslib_rrset_t
}.

Definition DNSLIB_RRTYPE_SOA : Z := 6.

(** Modelled from the spec: [dnslib_node_rrset] (dnslib/node.h is absent)
    locates the first RRset of the requested type on the node. *)
Definition dnslib_node_rrset (node : dnslib_node_t) (type : Z)
  : option dnslib_rrset_t :=
  List.find (fun rrs => rr_type rrs =? type) (rrsets node).

(** Modelled from the spec: [dnslib_rrset_rdata] (dnslib/rrset.h is absent)
    reads the first RDATA of the RRset. *)
Definition dnslib_rrset_rdata (rrs : dnslib_rrset_t) : option dnslib_rdata_t :=
  head (rr_rdata rrs).

(** Modelled from the spec: the SOA field selectors (dnslib/rdata.h is
    absent) return the 32-bit REFRESH, RETRY and EXPIRE items. *)
Definition dnslib_rdata_soa_refresh (rd : dnslib_rdata_t) : Z :=
  uint32 (soa_refresh rd).
Definition dnslib_rdata_soa_retry (rd : dnslib_rdata_t) : Z :=
  uint32 (soa_retry rd).
Definition dnslib_rdata_soa_expire (rd : dnslib_rdata_t) : Z :=
  uint32 (soa_expire rd).

(** ** Addresses, interfaces and ACLs *)

(** [sockaddr_t]: [sa_ptr] is the pointer to the stored address, [None] when
    it is null (no address set). *)
Record sockaddr_t : Set := mk_sockaddr {
  sa_family : Z;
  sa_ptr : option (string * Z);
  sa_len : Z
}.

Global Instance sockaddr_eq_dec : EqDecision sockaddr_t.
Proof. solve_decision. Defined.

(** Modelled from the spec: [sockaddr_init (addr, -1)] (common/sockaddr.h is
    absent) leaves the address unset. *)
Definition sockaddr_init_unset : sockaddr_t :=
  {| sa_family := -1; sa_ptr := None; sa_len := 0 |}.

(** An interface of the server: family and descriptor of its UDP socket
    ([type[UDP_ID]] and [fd[UDP_ID]]). *)
Record iface_t : Set := mk_iface {
  if_type_udp : Z;
  if_fd_udp : Z
}.

Inductive acl_rule_t : Set := ACL_DENY | ACL_ACCEPT.

Global Instance acl_rule_eq_dec : EqDecision acl_rule_t.
Proof. solve_decision. Defined.

Record acl_t : Set := mk_acl {
  acl_default : acl_rule_t;
  acl_rules : list (sockaddr_t * acl_rule_t)
}.

Global Instance acl_eq_dec : EqDecision acl_t.
Proof. solve_decision. Defined.

(** Modelled from the spec: [acl_new (default, name)] (common/acl.h is
    absent) gives an ACL with the default action and no rule. *)
Definition acl_new (default : acl_rule_t) : acl_t :=
  {| acl_default := default; acl_rules := [] |}.

(** Modelled from the spec: [acl_create] (common/acl.h is absent) appends
    the rule (address, action). *)
Definition acl_create (a : acl_t) (addr : sockaddr_t) (rule : acl_rule_t)
  : acl_t :=
  {| acl_default := acl_default a; acl_rules := acl_rules a ++ [(addr, rule)] |}.

(** ** Zones *)

(** Pointers to zone objects and to event records. *)
Abbreviation zone_ptr := positive.
Abbreviation event_ptr := positive.

(** The four ACL slots of a zone; a slot is [None] when its pointer is
    null. *)
Record zone_acl_t : Set := mk_zone_acl {
  acl_xfr_in : option acl_t;
  acl_xfr_out : option acl_t;
  acl_notify_in : option acl_t;
  acl_notify_out : option acl_t
}.

(** [zone->xfr_in]: master address, reference to the server's interface
    table ([true] once it is set), the POLL event ([timer]), the EXPIRE event
    ([expire]) and the ID of the awaited SOA response. *)
Record xfr_in_t : Set := mk_xfr_in {
  master : sockaddr_t;
  ifaces : bool;
  timer : option event_ptr;
  expire : option event_ptr;
  next_id : Z
}.

Record dnslib_zone_t : Set := mk_zone {
  apex : dnslib_node_t;
  version : Z;
  acl : zone_acl_t;
  xfr_in : xfr_in_t
}.

Definition dnslib_zone_apex (zone : dnslib_zone_t) : dnslib_node_t := apex zone.
Definition dnslib_node_owner (node : dnslib_node_t) : dnslib_dname_t := owner node.
Definition dnslib_zone_version (zone : dnslib_zone_t) : Z := version zone.
Definition dnslib_zone_set_version (zone : dnslib_zone_t) (v : Z) : dnslib_zone_t :=
  {| apex := apex zone; version := v; acl := acl zone; xfr_in := xfr_in zone |}.

(** ** SOA timer extractor *)

(** [zones_soa_timer]: the selected SOA item of the first RDATA of the apex
    SOA RRset, times 1000, in [uint32_t].  [None] stands for the undefined
    behaviour on a zone without apex SOA RDATA. *)
Definition zones_soa_timer (zone : dnslib_zone_t)
    (rr_func : dnslib_rdata_t -> Z) : option Z :=
  soa_rrs ← dnslib_node_rrset (dnslib_zone_apex zone) DNSLIB_RRTYPE_SOA;
  soa_rr ← dnslib_rrset_rdata soa_rrs;
  let ret := rr_func soa_rr in
  Some (uint32 (ret * 1000)).

Definition zones_soa_refresh (zone : dnslib_zone_t) : option Z :=
  zones_soa_timer zone dnslib_rdata_soa_refresh.

Definition zones_soa_retry (zone : dnslib_zone_t) : option Z :=
  zones_soa_timer zone dnslib_rdata_soa_retry.

Definition zones_soa_expire (zone : dnslib_zone_t) : option Z :=
  zones_soa_timer zone dnslib_rdata_soa_expire.

(** The first RDATA of the apex SOA RRset of the zone. *)
Definition zone_soa (zone : dnslib_zone_t) : option dnslib_rdata_t :=
  soa_rrs ← dnslib_node_rrset (dnslib_zone_apex zone) DNSLIB_RRTYPE_SOA;
  dnslib_rrset_rdata soa_rrs.

(** ** Configuration (knot/conf/conf.h) *)

Record conf_iface_t : Set := mk_conf_iface {
  cif_family : Z;
  cif_address : string;
  cif_port : Z
}.

Record conf_remote_t : Set := mk_conf_remote {
  remote : conf_iface_t
}.

Record conf_acl_t : Set := mk_conf_acl {
  conf_xfr_in : list conf_remote_t;
  conf_xfr_out : list conf_remote_t;
  conf_notify_in : list conf_remote_t;
  conf_notify_out : list conf_remote_t
}.

(** A configured zone: [name], source [file], compiled [db] (null when
    [None]) and the four lists of remotes. *)
Record conf_zone_t : Set := mk_conf_zone {
  name : string;
  file : string;
  db : option string;
  conf_acl : conf_acl_t
}.

(** The configuration: the list of zones and their number. *)
Record conf_t : Set := mk_conf {
  conf_zones : list conf_zone_t;
  zones_count : Z
}.

(** ** The compiled-zone reader and the other external collaborators *)

(** An opened compiled zone: its embedded source path, whether it is out of
    date, and the zone [dnslib_zload_load] decodes from it (null when
    [None]). *)
Record zloader_t : Set := mk_zloader {
  zl_source : string;
  zl_needs_update : bool;
  zl_zone : option dnslib_zone_t
}.

(** What zones.c calls in the libraries and the system, taken as it is:
    name conversion, address resolution, [stat], the compiled-zone reader,
    the SOA query writer and [sendto]. *)
Record externals : Type := mk_externals {
  (** [dnslib_dname_new_from_str]: null ([None]) when the name is refused. *)
  dnslib_dname_new_from_str : string -> option dnslib_dname_t;
  (** [sockaddr_set (&dst, family, address, port)]: return value and [dst]. *)
  sockaddr_set : Z -> string -> Z -> Z * sockaddr_t;
  (** [st_mtime] as [stat] reports it for a path. *)
  stat_mtime : string -> Z;
  (** [dnslib_zload_open]. *)
  dnslib_zload_open : string -> option zloader_t;
  (** Size of the query buffer. *)
  SOCKET_MTU_SZ : Z;
  (** [xfrin_create_soa_query (dname, qbuf, &buflen)]: return value and the
      octets written to [qbuf], whose number is the new [buflen]. *)
  xfrin_create_soa_query : dnslib_dname_t -> Z -> Z * list Z;
  (** [sendto (sock, qbuf, buflen, 0, master->ptr, master->len)]. *)
  sendto : Z -> list Z -> sockaddr_t -> Z
}.

(** ** The event scheduler (common/evsched.h) *)

Inductive event_cb : Set := CB_AXFRIN_POLL | CB_AXFRIN_EXPIRE.

Global Instance event_cb_eq_dec : EqDecision event_cb.
Proof. solve_decision. Defined.

(** An event record: its callback and its [data] pointer, here the zone. *)
Record event_t : Set := mk_event {
  cb : event_cb;
  data : zone_ptr
}.

Global Instance event_eq_dec : EqDecision event_t.
Proof. solve_decision. Defined.

(** The scheduler: the allocated event records, the queue of scheduled
    events with their timeouts in milliseconds, and the next fresh event
    pointer. *)
Record evsched_t : Type := mk_evsched {
  ev_records : gmap event_ptr event_t;
  ev_queue : list (event_ptr * Z);
  ev_next : event_ptr
}.

(** Modelled from the spec: [schedule (sched, event, ms)] (common/evsched.h
    is absent) puts the event on the queue. *)
Definition evsched_schedule (s : evsched_t) (e : event_ptr) (dt : Z) : evsched_t :=
  {| ev_records := ev_records s;
     ev_queue := ev_queue s ++ [(e, dt)];
     ev_next := ev_next s |}.

(** Modelled from the spec: [schedule_cb (sched, fn, data, ms)] allocates an
    event record for the callback and schedules it. *)
Definition evsched_schedule_cb (s : evsched_t) (fn : event_cb) (d : zone_ptr)
    (dt : Z) : event_ptr * evsched_t :=
  let e := ev_next s in
  (e, evsched_schedule
        {| ev_records := <[e := mk_event fn d]> (ev_records s);
           ev_queue := ev_queue s;
           ev_next := Pos.succ e |} e dt).

(** Modelled from the spec: [cancel (sched, event)] takes the event off the
    queue. *)
Definition evsched_cancel (s : evsched_t) (e : event_ptr) : evsched_t :=
  {| ev_records := ev_records s;
     ev_queue := List.filter (fun x => negb (Pos.eqb (fst x) e)) (ev_queue s);
     ev_next := ev_next s |}.

(** Modelled from the spec: [event_free (sched, event)] releases the event
    record. *)
Definition evsched_event_free (s : evsched_t) (e : event_ptr) : evsched_t :=
  {| ev_records := delete e (ev_records s);
     ev_queue := ev_queue s;
     ev_next := ev_next s |}.

(** The queue entries that are events of callback [fn] on zone [zone]: the
    timers of that kind live for the zone. *)
Definition live_timers (s : evsched_t) (fn : event_cb) (zone : zone_ptr)
  : list (event_ptr * Z) :=
  List.filter
    (fun x => bool_decide (ev_records s !! fst x = Some (mk_event fn zone)))
    (ev_queue s).

(** ** The store *)

(** Zone objects by pointer, the next fresh zone pointer, the server's
    scheduler and interface table ([ns->server->sched],
    [ns->server->ifaces]), and for each coming [acl_new] whether the
    allocation fails (none fails once the list is used up). *)
Record world : Type := mk_world {
  zones : gmap zone_ptr dnslib_zone_t;
  zone_next : zone_ptr;
  sched : evsched_t;
  srv_ifaces : list iface_t;
  acl_new_fails : list bool
}.

Definition set_zones (w : world) (zs : gmap zone_ptr dnslib_zone_t) : world :=
  {| zones := zs; zone_next := zone_next w; sched := sched w;
     srv_ifaces := srv_ifaces w; acl_new_fails := acl_new_fails w |}.

Definition set_sched (w : world) (s : evsched_t) : world :=
  {| zones := zones w; zone_next := zone_next w; sched := s;
     srv_ifaces := srv_ifaces w; acl_new_fails := acl_new_fails w |}.

Definition set_acl_new_fails (w : world) (l : list bool) : world :=
  {| zones := zones w; zone_next := zone_next w; sched := sched w;
     srv_ifaces := srv_ifaces w; acl_new_fails := l |}.

(** Store to the zone object at [p]. *)
Definition store_zone (w : world) (p : zone_ptr) (z : dnslib_zone_t) : world :=
  set_zones w (<[p := z]> (zones w)).

Definition set_xfr_in (z : dnslib_zone_t) (x : xfr_in_t) : dnslib_zone_t :=
  {| apex := apex z; version := version z; acl := acl z; xfr_in := x |}.

Definition set_acl (z : dnslib_zone_t) (a : zone_acl_t) : dnslib_zone_t :=
  {| apex := apex z; version := version z; acl := a; xfr_in := xfr_in z |}.

(** The zone databases: domain name to zone pointer. *)
Abbreviation dnslib_zonedb_t := (gmap dnslib_dname_t zone_ptr).

(** The name server: [zone_db] is [None] when the pointer is null. *)
Record ns_nameserver_t : Type := mk_ns {
  zone_db : option dnslib_zonedb_t
}.

(** Modelled from the spec: [dnslib_zonedb_find_zone] (dnslib/zonedb.h is
    absent) looks the name up; null ([None]) when it is absent. *)
Definition dnslib_zonedb_find_zone (zdb : dnslib_zonedb_t)
    (zone_name : dnslib_dname_t) : option zone_ptr :=
  zdb !! zone_name.

(** Modelled from the spec: [dnslib_zonedb_add_zone] (dnslib/zonedb.h is
    absent) inserts the zone under the owner of its apex; keys are unique,
    so the insertion fails (non-zero) when the name is already there.  [z]
    is the zone object [zone] points to. *)
Definition dnslib_zonedb_add_zone (zdb : dnslib_zonedb_t) (zone : zone_ptr)
    (z : dnslib_zone_t) : Z * dnslib_zonedb_t :=
  let key := dnslib_node_owner (dnslib_zone_apex z) in
  match zdb !! key with
  | Some _ => (-1, zdb)
  | None => (0, <[key := zone]> zdb)
  end.

(** Modelled from the spec: [dnslib_zonedb_remove_zone (db, name, 0)]
    (dnslib/zonedb.h is absent) removes the name without freeing the
    zone. *)
Definition dnslib_zonedb_remove_zone (zdb : dnslib_zonedb_t)
    (zone_name : dnslib_dname_t) : dnslib_zonedb_t :=
  delete zone_name zdb.

(** Modelled from the spec: [dnslib_zone_deep_free] (dnslib/zone.h is
    absent) destroys the zone object. *)
Definition dnslib_zone_deep_free (zone : zone_ptr) (w : world) : world :=
  set_zones w (delete zone (zones w)).

(** Modelled from the spec: [dnslib_wire_get_id] (dnslib/wire.h is absent)
    reads the 16-bit message ID, the first two octets of the message in
    network order. *)
Definition dnslib_wire_get_id (qbuf : list Z) : Z :=
  nth 0 qbuf 0 * 256 + nth 1 qbuf 0.

Section Zones.

Context (E : externals).

(** ** AXFR-IN expire event handler *)

(** Cancelling and freeing an event the zone refers to, as both handlers and
    the timer update do under [if (zone->xfr_in.<event>)]. *)
Definition cancel_and_free (s : evsched_t) (ev : option event_ptr) : evsched_t :=
  match ev with
  | Some t => evsched_event_free (evsched_cancel s t) t
  | None => s
  end.

(** [zones_axfrin_expire (e)], with the scheduler [e->caller] being the
    server's.  [None] stands for an event or zone pointer to no object. *)
Definition zones_axfrin_expire (e : event_ptr) (w : world) : option (Z * world) :=
  ev ← ev_records (sched w) !! e;
  let zone := data ev in
  z ← zones w !! zone;
  (* Cancel pending timers. *)
  let s1 := cancel_and_free (sched w) (timer (xfr_in z)) in
  (* Delete self. *)
  let s2 := evsched_event_free s1 e in
  let x := {| master := master (xfr_in z); ifaces := ifaces (xfr_in z);
              timer := None; expire := None; next_id := -1 |} in
  Some (0, set_sched (store_zone w zone (set_xfr_in z x)) s2).

(** ** AXFR-IN poll event handler *)

(** The walk over the interface list: the descriptor of the first interface
    whose UDP socket has the family, -1 when there is none. *)
Definition find_iface_sock (l : list iface_t) (family : Z) : Z :=
  match List.find (fun i => if_type_udp i =? family) l with
  | Some i => if_fd_udp i
  | None => -1
  end.

(** The block under [if (ret == KNOT_EOK && zone->xfr_in.ifaces)]: the value
    of [ret] and of [zone->xfr_in.next_id] after it. *)
Definition axfrin_send_query (w : world) (z : dnslib_zone_t) (qbuf : list Z)
    : Z * Z :=
  let buflen := Z.of_nat (length qbuf) in
  let m := master (xfr_in z) in
  (* Find suitable interface. *)
  let sock := find_iface_sock (srv_ifaces w) (sa_family m) in
  (* Send query. *)
  let ret := if -1 <? sock then sendto E sock qbuf m else -1 in
  (* Store ID of the awaited response. *)
  if to_size_t ret =? buflen
  then (ret, dnslib_wire_get_id qbuf)
  else (ret, next_id (xfr_in z)).

(** [zones_axfrin_poll (e)]: the returned [ret] and the store after the
    handler.  [None] stands for an event or zone pointer to no object and
    for a zone without apex SOA RDATA. *)
Definition zones_axfrin_poll (e : event_ptr) (w : world) : option (Z * world) :=
  ev ← ev_records (sched w) !! e;
  let zone := data ev in
  z ← zones w !! zone;
  (* Get zone dname. *)
  let dname := dnslib_node_owner (dnslib_zone_apex z) in
  (* Create query. *)
  let '(ret0, qbuf) := xfrin_create_soa_query E dname (SOCKET_MTU_SZ E) in
  let '(ret, nid) :=
    if (ret0 =? 0) && ifaces (xfr_in z)
    then axfrin_send_query w z qbuf
    else (ret0, next_id (xfr_in z)) in
  (* Schedule EXPIRE timer on first attempt. *)
  '(exp, s1) ←
    match expire (xfr_in z) with
    | None =>
        expire_tmr ← zones_soa_expire z;
        let '(x, s) :=
          evsched_schedule_cb (sched w) CB_AXFRIN_EXPIRE zone expire_tmr in
        Some (Some x, s)
    | Some x => Some (Some x, sched w)
    end;
  (* Reschedule as RETRY timer. *)
  retry_tmr ← zones_soa_retry z;
  let s2 := evsched_schedule s1 e retry_tmr in
  let x := {| master := master (xfr_in z); ifaces := ifaces (xfr_in z);
              timer := timer (xfr_in z); expire := exp; next_id := nid |} in
  Some (ret, set_sched (store_zone w zone (set_xfr_in z x)) s2).

(** ** Timer update *)

(** [zones_timers_update (zone, sch)] with the server's scheduler. *)
Definition zones_timers_update (zone : zone_ptr) (w : world) : option world :=
  z ← zones w !! zone;
  (* Check AXFR-IN master server. *)
  match sa_ptr (master (xfr_in z)) with
  | None => Some w
  | Some _ =>
      (* Schedule REFRESH timer. *)
      refresh_tmr ← zones_soa_refresh z;
      let '(t, s1) :=
        evsched_schedule_cb (sched w) CB_AXFRIN_POLL zone refresh_tmr in
      (* Cancel EXPIRE timer. *)
      let s2 := cancel_and_free s1 (expire (xfr_in z)) in
      let x := {| master := master (xfr_in z); ifaces := ifaces (xfr_in z);
                  timer := Some t; expire := None;
                  next_id := next_id (xfr_in z) |} in
      Some (set_sched (store_zone w zone (set_xfr_in z x)) s2)
  end.

(** ** ACL builder *)

(** The body of the walk over the list of remotes: the rule is loaded when
    [sockaddr_set] returns a positive value. *)
Definition acl_load_rule (a : acl_t) (r : conf_remote_t) : acl_t :=
  let cfg_if := remote r in
  let '(ret, addr) :=
    sockaddr_set E (cif_family cfg_if) (cif_address cfg_if) (cif_port cfg_if) in
  if 0 <? ret then acl_create a addr ACL_ACCEPT else a.

(** [acl_new (ACL_DENY, 0)] in a store where the coming allocations fail as
    [fails] tells: the new ACL (null when [None]) and the rest of [fails]. *)
Definition acl_new_alloc (default : acl_rule_t) (fails : list bool)
    : option acl_t * list bool :=
  match fails with
  | true :: rest => (None, rest)
  | false :: rest => (Some (acl_new default), rest)
  | [] => (Some (acl_new default), [])
  end.

(** [zones_set_acl (acl, acl_list)]: the return value, the slot [*acl] after
    the call and the allocation outcomes left.  [acl] is [None] for a null
    slot pointer, [acl_list] is [None] for a null list. *)
Definition zones_set_acl (acl : option (option acl_t))
    (acl_list : option (list conf_remote_t)) (fails : list bool)
    : knot_error * option (option acl_t) * list bool :=
  match acl, acl_list with
  | Some _, Some rules =>
      (* Truncate old ACL, create new ACL. *)
      match acl_new_alloc ACL_DENY fails with
      | (None, fails') => (KNOT_ENOMEM, Some None, fails')
      | (Some a, fails') =>
          (* Load ACL rules. *)
          (KNOT_EOK, Some (Some (fold_left acl_load_rule rules a)), fails')
      end
  | _, _ => (KNOT_EINVAL, acl, fails)
  end.

(** ** Zone loader *)

(** Whether the loader logs that the database is not up-to-date; the load
    goes on either way. *)
Definition zone_db_outdated (source : string) (zl : zloader_t) : bool :=
  negb (String.eqb source (zl_source zl)) || zl_needs_update zl.

(** [zones_load_zone (zonedb, zone_name, source, filename)]: the return
    value, the database and the store after the call.  [filename] is [None]
    when null.  The decoded zone is a new object of the store. *)
Definition zones_load_zone (zonedb : dnslib_zonedb_t) (zone_name : string)
    (source : string) (filename : option string) (w : world)
    : knot_error * dnslib_zonedb_t * world :=
  match filename with
  | Some fname =>
      match dnslib_zload_open E fname with
      | None => (KNOT_EZONEINVAL, zonedb, w)
      | Some zl =>
          match zl_zone zl with
          | Some z0 =>
              let zone := zone_next w in
              (* save the timestamp from the zone db file *)
              let z := dnslib_zone_set_version z0 (stat_mtime E fname) in
              let w1 :=
                {| zones := <[zone := z]> (zones w);
                   zone_next := Pos.succ zone;
                   sched := sched w; srv_ifaces := srv_ifaces w;
                   acl_new_fails := acl_new_fails w |} in
              let '(ret, zonedb') := dnslib_zonedb_add_zone zonedb zone z in
              if ret =? 0
              then (KNOT_EOK, zonedb', w1)
              else (KNOT_EZONEINVAL, zonedb, dnslib_zone_deep_free zone w1)
          | None => (KNOT_EZONEINVAL, zonedb, w)
          end
      end
  | None => (KNOT_EINVAL, zonedb, w)
  end.

(** ** Reconciler *)

(** The lookup in the old database and the choice between reload and
    carry-over: the zone found (null when [None]) and [reload]. *)
Definition zones_reload_decision (db_old : dnslib_zonedb_t)
    (zone_name : dnslib_dname_t) (z : conf_zone_t) (w : world)
    : option (option zone_ptr * bool) :=
  match dnslib_zonedb_find_zone db_old zone_name with
  | Some zone =>
      zo ← zones w !! zone;
      Some (Some zone, bool_decide (dnslib_zone_version zo < stat_mtime E (file z)))
  | None => Some (None, true)
  end.

(** The branch [if (reload) ... else ...]: the zone pointer, the count of
    inserted zones, the new database and the store after it. *)
Definition zones_obtain_zone (z : conf_zone_t) (zone_name : dnslib_dname_t)
    (zone : option zone_ptr) (reload : bool) (db_new : dnslib_zonedb_t)
    (inserted : Z) (w : world)
    : option (option zone_ptr * Z * dnslib_zonedb_t * world) :=
  if reload then
    let '(ret, db_new', w') := zones_load_zone db_new (name z) (file z) (db z) w in
    if bool_decide (ret = KNOT_EOK)
    then (* Find the new zone *)
         Some (dnslib_zonedb_find_zone db_new' zone_name, inserted + 1, db_new', w')
    else Some (zone, inserted, db_new', w')
  else
    (* just insert the zone into the new zone db *)
    p ← zone;
    zo ← zones w !! p;
    let '(ret, db_new') := dnslib_zonedb_add_zone db_new p zo in
    if ret =? 0
    then Some (zone, inserted + 1, db_new', w)
    else Some (zone, inserted, db_new', w).

(** One call [zones_set_acl (&zone->acl.<slot>, &z->acl.<list>)] of the
    reconciler: the slot after it and the allocation outcomes left. *)
Definition rebuild_slot (slot : option acl_t) (rules : list conf_remote_t)
    (fails : list bool) : option acl_t * list bool :=
  let '(_, r, fails') := zones_set_acl (Some slot) (Some rules) fails in
  (default slot r, fails').

(** The three calls of [zones_set_acl] under "Update ACLs". *)
Definition zones_update_acls (zone : zone_ptr) (z : conf_zone_t) (w : world)
    : option world :=
  zo ← zones w !! zone;
  let a := acl zo in
  let c := conf_acl z in
  let '(xo, f1) := rebuild_slot (acl_xfr_out a) (conf_xfr_out c) (acl_new_fails w) in
  let '(ni, f2) := rebuild_slot (acl_notify_in a) (conf_notify_in c) f1 in
  let '(no, f3) := rebuild_slot (acl_notify_out a) (conf_notify_out c) f2 in
  let a' := {| acl_xfr_in := acl_xfr_in a; acl_xfr_out := xo;
               acl_notify_in := ni; acl_notify_out := no |} in
  Some (set_acl_new_fails (store_zone w zone (set_acl zo a')) f3).

(** "Update available interfaces" and "Update master server address". *)
Definition zones_update_master (zone : zone_ptr) (z : conf_zone_t) (w : world)
    : option world :=
  zo ← zones w !! zone;
  let m :=
    match conf_xfr_in (conf_acl z) with
    | [] => sockaddr_init_unset
    | r :: _ =>
        let cfg_if := remote r in
        snd (sockaddr_set E (cif_family cfg_if) (cif_address cfg_if)
               (cif_port cfg_if))
    end in
  let x := {| master := m; ifaces := true; timer := timer (xfr_in zo);
              expire := expire (xfr_in zo); next_id := next_id (xfr_in zo) |} in
  Some (store_zone w zone (set_xfr_in zo x)).

(** The block under [if (zone)]: ACLs, interfaces, master, timers. *)
Definition zones_update_zone (zone : zone_ptr) (z : conf_zone_t) (w : world)
    : option world :=
  w1 ← zones_update_acls zone z w;
  w2 ← zones_update_master zone z w1;
  zones_timers_update zone w2.

(** The body of the loop of [zones_insert_zones] once the zone name is
    converted. *)
Definition zones_insert_zone (z : conf_zone_t) (zone_name : dnslib_dname_t)
    (db_old db_new : dnslib_zonedb_t) (inserted : Z) (w : world)
    : option (Z * dnslib_zonedb_t * world) :=
  '(zone0, reload) ← zones_reload_decision db_old zone_name z w;
  '(zone, inserted', db_new', w') ←
    zones_obtain_zone z zone_name zone0 reload db_new inserted w;
  match zone with
  | Some p => w'' ← zones_update_zone p z w'; Some (inserted', db_new', w'')
  | None => Some (inserted', db_new', w')
  end.

(** [zones_insert_zones (ns, zone_conf, db_old, db_new)], started with
    [inserted]: the number of inserted zones, the new database and the store.
    The loop stops at the first name that does not convert. *)
Fixpoint zones_insert_zones (zone_conf : list conf_zone_t)
    (db_old db_new : dnslib_zonedb_t) (inserted : Z) (w : world)
    : option (Z * dnslib_zonedb_t * world) :=
  match zone_conf with
  | [] => Some (inserted, db_new, w)
  | z :: rest =>
      match dnslib_dname_new_from_str E (name z) with
      | None => Some (inserted, db_new, w)
      | Some zone_name =>
          '(inserted', db_new', w') ←
            zones_insert_zone z zone_name db_old db_new inserted w;
          zones_insert_zones rest db_old db_new' inserted' w'
      end
  end.

(** [zones_remove_zones (zone_conf, db_old)]: the return value and the old
    database after the call. *)
Fixpoint zones_remove_zones (zone_conf : list conf_zone_t)
    (db_old : dnslib_zonedb_t) : knot_error * dnslib_zonedb_t :=
  match zone_conf with
  | [] => (KNOT_EOK, db_old)
  | z :: rest =>
      match dnslib_dname_new_from_str E (name z) with
      | None => (KNOT_ERROR, db_old)
      | Some zone_name =>
          (* remove the zone from the old zone db, but do not delete it *)
          zones_remove_zones rest (dnslib_zonedb_remove_zone db_old zone_name)
      end
  end.

(** [zones_update_db_from_config (conf, ns, db_old)]: the return value, the
    name server and [*db_old] after the call, and the store.  [conf] and
    [ns] are [None] when null; the allocation of the new database is taken
    to succeed. *)
Definition zones_update_db_from_config (conf : option conf_t)
    (ns : option ns_nameserver_t) (db_old : option dnslib_zonedb_t) (w : world)
    : option (knot_error * option ns_nameserver_t * option dnslib_zonedb_t * world) :=
  match conf, ns with
  | Some c, Some n =>
      (* Grab a pointer to the old database *)
      match zone_db n with
      | None => Some (KNOT_ERROR, ns, None, w)
      | Some old =>
          (* Insert all required zones to the new zone DB. *)
          '(_, db_new, w') ← zones_insert_zones (conf_zones c) old ∅ 0 w;
          (* Switch the databases. *)
          let n' := {| zone_db := Some db_new |} in
          (* Remove all zones present in the new DB from the old DB. *)
          let '(ret, old') := zones_remove_zones (conf_zones c) old in
          Some (ret, Some n', Some old', w')
      end
  | _, _ => Some (KNOT_EINVAL, ns, db_old, w)
  end.

(** ** Firing of an event *)

(** Modelled from the spec: the scheduler thread (common/evsched.h is
    absent) takes a scheduled event off the queue and runs its callback on
    it.  [None] also when the event is not scheduled. *)
Fixpoint queue_take (q : list (event_ptr * Z)) (e : event_ptr)
    : list (event_ptr * Z) :=
  match q with
  | [] => []
  | x :: q' => if Pos.eqb (fst x) e then q' else x :: queue_take q' e
  end.

Definition evsched_dequeue (s : evsched_t) (e : event_ptr) : evsched_t :=
  {| ev_records := ev_records s;
     ev_queue := queue_take (ev_queue s) e;
     ev_next := ev_next s |}.

Definition event_fire (e : event_ptr) (w : world) : option (Z * world) :=
  if existsb (fun x => Pos.eqb (fst x) e) (ev_queue (sched w)) then
    ev ← ev_records (sched w) !! e;
    let w1 := set_sched w (evsched_dequeue (sched w) e) in
    match cb ev with
    | CB_AXFRIN_POLL => zones_axfrin_poll e w1
    | CB_AXFRIN_EXPIRE => zones_axfrin_expire e w1
    end
  else None.

End Zones.

(** * The specification's statements and concrete inputs *)

(** The extractor as the specification words it: every 32-bit REFRESH, RETRY
    and EXPIRE value comes back multiplied by 1000. *)
Definition soa_timers_exact : Prop :=
  forall (zone : dnslib_zone_t) (rd : dnslib_rdata_t),
    zone_soa zone = Some rd ->
    0 <= soa_refresh rd < 2 ^ 32 ->
    0 <= soa_retry rd < 2 ^ 32 ->
    0 <= soa_expire rd < 2 ^ 32 ->
    zones_soa_refresh zone = Some (1000 * soa_refresh rd) /\
    zones_soa_retry zone = Some (1000 * soa_retry rd) /\
    zones_soa_expire zone = Some (1000 * soa_expire rd).

(** A zone as the loader hands it over: no ACL, no master, no timer. *)
Definition zone_acl_null : zone_acl_t :=
  {| acl_xfr_in := None; acl_xfr_out := None;
     acl_notify_in := None; acl_notify_out := None |}.

Definition xfr_in_null : xfr_in_t :=
  {| master := sockaddr_init_unset; ifaces := false;
     timer := None; expire := None; next_id := -1 |}.

Definition zone_of_soa (nm : dnslib_dname_t) (rd : dnslib_rdata_t) : dnslib_zone_t :=
  {| apex := {| owner := nm;
                rrsets := [ {| rr_type := DNSLIB_RRTYPE_SOA; rr_rdata := [rd] |} ] |};
     version := 0; acl := zone_acl_null; xfr_in := xfr_in_null |}.

(** The SOA of tests/ns.c: REFRESH 86400, RETRY 7200, EXPIRE 691200. *)
Definition soa_test : dnslib_rdata_t :=
  {| soa_serial := 2011111011; soa_refresh := 86400; soa_retry := 7200;
     soa_expire := 691200; soa_minimum := 3600 |}.

(** An SOA whose REFRESH, in milliseconds, does not fit 32 bits. *)
Definition soa_wide : dnslib_rdata_t :=
  {| soa_serial := 1; soa_refresh := 4294968; soa_retry := 7200;
     soa_expire := 691200; soa_minimum := 3600 |}.

(** ** ACL builder *)

(** Whether the address of a configured remote resolves, and the address
    [sockaddr_set] gives for it. *)
Definition remote_resolves (E : externals) (r : conf_remote_t) : bool :=
  0 <? fst (sockaddr_set E (cif_family (remote r)) (cif_address (remote r))
              (cif_port (remote r))).

Definition remote_addr (E : externals) (r : conf_remote_t) : sockaddr_t :=
  snd (sockaddr_set E (cif_family (remote r)) (cif_address (remote r))
         (cif_port (remote r))).

(** The ACL the builder is to install for a list of remotes: default DENY
    and one ACCEPT rule for each remote that resolves, in the order of the
    list. *)
Definition acl_of_remotes (E : externals) (rules : list conf_remote_t) : acl_t :=
  {| acl_default := ACL_DENY;
     acl_rules :=
       List.map (fun r => (remote_addr E r, ACL_ACCEPT))
         (List.filter (remote_resolves E) rules) |}.

(** Externals for the examples: a name converts unless it is empty; an
    address resolves when its family is AF_INET (2); every file has mtime
    1000 but "/z/new.zone" (2000); "/z/ex.db" holds the zone "example.com."
    with the SOA of tests/ns.c, "/z/bad.db" opens but does not decode; the
    query is twelve octets with ID 0xac77 and the master is unreachable. *)
Definition ext_demo : externals :=
  {| dnslib_dname_new_from_str :=
       fun s => if String.eqb s "" then None else Some s;
     sockaddr_set :=
       fun family address port =>
         if family =? 2
         then (1, {| sa_family := 2; sa_ptr := Some (address, port); sa_len := 16 |})
         else (-1, sockaddr_init_unset);
     stat_mtime := fun path => if String.eqb path "/z/new.zone" then 2000 else 1000;
     dnslib_zload_open :=
       fun path =>
         if String.eqb path "/z/ex.db"
         then Some {| zl_source := "/z/ex.zone"; zl_needs_update := false;
                      zl_zone := Some (zone_of_soa "example.com." soa_test) |}
         else if String.eqb path "/z/bad.db"
         then Some {| zl_source := "/z/bad.zone"; zl_needs_update := false;
                      zl_zone := None |}
         else None;
     SOCKET_MTU_SZ := 8192;
     xfrin_create_soa_query :=
       fun _ _ => (0, [172; 119; 1; 0; 0; 1; 0; 0; 0; 0; 0; 0]);
     sendto := fun _ _ _ => -1 |}.

Definition remote_v4 (address : string) : conf_remote_t :=
  {| remote := {| cif_family := 2; cif_address := address; cif_port := 53 |} |}.

Definition remote_bad (address : string) : conf_remote_t :=
  {| remote := {| cif_family := 99; cif_address := address; cif_port := 53 |} |}.

(** An empty store with one IPv4 interface on descriptor 7. *)
Definition world_empty : world :=
  {| zones := ∅; zone_next := 1%positive;
     sched := {| ev_records := ∅; ev_queue := []; ev_next := 1%positive |};
     srv_ifaces := [ {| if_type_udp := 2; if_fd_udp := 7 |} ];
     acl_new_fails := [] |}.

(** ** Zone loader *)

(** The loader as the specification words it: INVALID_PARAM exactly for a
    null path; ZONE_INVALID when the file does not open; deep-free and
    ZONE_INVALID when the insertion of the decoded zone fails; otherwise OK
    with the version stamped. *)
Definition load_zone_as_stated : Prop :=
  forall (E : externals) (zonedb : dnslib_zonedb_t) (zone_name source : string)
         (filename : option string) (w : world),
    let '(ret, zonedb', w') := zones_load_zone E zonedb zone_name source filename w in
    (ret = KNOT_EINVAL <-> filename = None) /\
    (forall f, filename = Some f -> dnslib_zload_open E f = None ->
       ret = KNOT_EZONEINVAL) /\
    (forall f zl z0, filename = Some f -> dnslib_zload_open E f = Some zl ->
       zl_zone zl = Some z0 ->
       is_Some (zonedb !! dnslib_node_owner (dnslib_zone_apex z0)) ->
       ret = KNOT_EZONEINVAL /\ zones w' !! zone_next w = None) /\
    (forall f zl, filename = Some f -> dnslib_zload_open E f = Some zl ->
       ~ (exists z0, zl_zone zl = Some z0 /\
            is_Some (zonedb !! dnslib_node_owner (dnslib_zone_apex z0))) ->
       ret = KNOT_EOK /\
       exists z, zones w' !! zone_next w = Some z /\
                 dnslib_zone_version z = stat_mtime E f).

(** ** Pruning of the old database *)

(** The domain names the configuration names. *)
Definition configured (E : externals) (zone_conf : list conf_zone_t)
    (k : dnslib_dname_t) : Prop :=
  exists z, In z zone_conf /\ dnslib_dname_new_from_str E (name z) = Some k.

(** The pruning as the specification words it: whatever the configuration
    and the old database, exactly the zones whose name is not configured
    remain. *)
Definition remove_zones_as_stated : Prop :=
  forall (E : externals) (zone_conf : list conf_zone_t) (db_old : dnslib_zonedb_t)
         (k : dnslib_dname_t) (p : zone_ptr),
    snd (zones_remove_zones E zone_conf db_old) !! k = Some p <->
    db_old !! k = Some p /\ ~ configured E zone_conf k.

(** The domain names of the entries before the first one whose name does not
    convert. *)
Fixpoint converted_prefix (E : externals) (zone_conf : list conf_zone_t)
    : list dnslib_dname_t :=
  match zone_conf with
  | [] => []
  | z :: rest =>
      match dnslib_dname_new_from_str E (name z) with
      | None => []
      | Some k => k :: converted_prefix E rest
      end
  end.

Definition conf_acl_empty : conf_acl_t :=
  {| conf_xfr_in := []; conf_xfr_out := []; conf_notify_in := [];
     conf_notify_out := [] |}.

Definition conf_zone_plain (nm src : string) (compiled : option string) : conf_zone_t :=
  {| name := nm; file := src; db := compiled; conf_acl := conf_acl_empty |}.

(** ** Reloads and firings on a running server *)

(** The zone "example.com." served from "/z/ex.db", with the remotes of its
    transfer-in and transfer-out lists. *)
Definition conf_example (xfr_in_remotes xfr_out_remotes : list conf_remote_t)
    : conf_t :=
  {| conf_zones :=
       [ {| name := "example.com."; file := "/z/ex.zone"; db := Some "/z/ex.db"%string;
            conf_acl := {| conf_xfr_in := xfr_in_remotes;
                           conf_xfr_out := xfr_out_remotes;
                           conf_notify_in := []; conf_notify_out := [] |} |} ];
     zones_count := 1 |}.

(** "example.com." with the master 192.0.2.1, and without master. *)
Definition conf_master : conf_t :=
  conf_example [remote_v4 "192.0.2.1"] [remote_v4 "10.0.0.2"].

Definition conf_no_master : conf_t :=
  conf_example [] [remote_v4 "10.0.0.2"].

(** A running server: the name server and the store. *)
Definition server : Type := ns_nameserver_t * world.

Definition server_start : server := ({| zone_db := Some ∅ |}, world_empty).

(** A reload of the configuration through [zones_update_db_from_config]. *)
Definition reload (E : externals) (conf : conf_t) (srv : server) : option server :=
  '(_, ns', _, w') ←
    zones_update_db_from_config E (Some conf) (Some (fst srv)) None (snd srv);
  ns'' ← ns';
  Some (ns'', w').

(** The firing of a scheduled event on the server. *)
Definition fire (E : externals) (e : event_ptr) (srv : server) : option server :=
  '(_, w') ← event_fire E e (snd srv);
  Some (fst srv, w').

(** The zone object the server publishes under a name. *)
Definition published (srv : server) (k : dnslib_dname_t) : option zone_ptr :=
  zdb ← zone_db (fst srv); zdb !! k.

(** ** The poll handler's view of the network *)

(** The SOA query written for the zone: return value and octets. *)
Definition poll_query (E : externals) (z : dnslib_zone_t) : Z * list Z :=
  xfrin_create_soa_query E (dnslib_node_owner (dnslib_zone_apex z)) (SOCKET_MTU_SZ E).

(** The socket chosen for the master of the zone, -1 when no interface has
    the master's family. *)
Definition poll_sock (w : world) (z : dnslib_zone_t) : Z :=
  find_iface_sock (srv_ifaces w) (sa_family (master (xfr_in z))).

(** What [sendto] returns for the query on that socket. *)
Definition poll_sent (E : externals) (w : world) (z : dnslib_zone_t) : Z :=
  sendto E (poll_sock w z) (snd (poll_query E z)) (master (xfr_in z)).

(** The query was written, the zone knows the interfaces, an interface of
    the master's family was found and [sendto] transmitted the whole query
    buffer. *)
Definition query_sent_in_full (E : externals) (w : world) (z : dnslib_zone_t)
    : Prop :=
  fst (poll_query E z) = 0 /\ ifaces (xfr_in z) = true /\
  -1 < poll_sock w z /\
  poll_sent E w z = Z.of_nat (length (snd (poll_query E z))).

(** "example.com." with the master 192.0.2.1 and its POLL event 1, which has
    just been taken off the queue to be run; no EXPIRE event yet. *)
Definition master_v4 : sockaddr_t :=
  {| sa_family := 2; sa_ptr := Some ("192.0.2.1"%string, 53); sa_len := 16 |}.

Definition zone_polling (exp : option event_ptr) (nid : Z) : dnslib_zone_t :=
  set_xfr_in (zone_of_soa "example.com." soa_test)
    {| master := master_v4; ifaces := true; timer := Some 1%positive;
       expire := exp; next_id := nid |}.

Definition world_poll_first : world :=
  {| zones := {[ 1%positive := zone_polling None (-1) ]};
     zone_next := 2%positive;
     sched := {| ev_records := {[ 1%positive := mk_event CB_AXFRIN_POLL 1%positive ]};
                 ev_queue := []; ev_next := 2%positive |};
     srv_ifaces := [ {| if_type_udp := 2; if_fd_udp := 7 |} ];
     acl_new_fails := [] |}.

(** The same zone on a later firing: EXPIRE event 2 is armed and the ID
    4660 of an earlier query is awaited. *)
Definition world_poll_retry : world :=
  {| zones := {[ 1%positive := zone_polling (Some 2%positive) 4660 ]};
     zone_next := 2%positive;
     sched := {| ev_records := {[ 1%positive := mk_event CB_AXFRIN_POLL 1%positive;
                                  2%positive := mk_event CB_AXFRIN_EXPIRE 1%positive ]};
                 ev_queue := [(2%positive, 691200000)]; ev_next := 3%positive |};
     srv_ifaces := [ {| if_type_udp := 2; if_fd_udp := 7 |} ];
     acl_new_fails := [] |}.

(** Externals as [ext_demo] but with a master that takes the whole query. *)
Definition ext_reachable : externals :=
  {| dnslib_dname_new_from_str := dnslib_dname_new_from_str ext_demo;
     sockaddr_set := sockaddr_set ext_demo;
     stat_mtime := stat_mtime ext_demo;
     dnslib_zload_open := dnslib_zload_open ext_demo;
     SOCKET_MTU_SZ := SOCKET_MTU_SZ ext_demo;
     xfrin_create_soa_query := xfrin_create_soa_query ext_demo;
     sendto := fun _ qbuf _ => Z.of_nat (length qbuf) |}.

(** [ret] and [next_id] after the query block of the poll handler. *)
Definition poll_ret_nid (E : externals) (w : world) (z : dnslib_zone_t) : Z * Z :=
  if (fst (poll_query E z) =? 0) && ifaces (xfr_in z)
  then axfrin_send_query E w z (snd (poll_query E z))
  else (fst (poll_query E z), next_id (xfr_in z)).

(** EXPIRE event of the zone and scheduler after the "first attempt" block
    of the poll handler run on a zone at [zone] with SOA RDATA [rd]. *)
Definition poll_expire (w : world) (zone : zone_ptr) (z : dnslib_zone_t)
    (rd : dnslib_rdata_t) : option event_ptr * evsched_t :=
  match expire (xfr_in z) with
  | None =>
      (Some (ev_next (sched w)),
       snd (evsched_schedule_cb (sched w) CB_AXFRIN_EXPIRE zone
              (uint32 (dnslib_rdata_soa_expire rd * 1000))))
  | Some x => (Some x, sched w)
  end.

(** ** Reconciler *)

(** [w'] keeps the zone objects of [w]: every object allocated in [w] is
    still at its pointer, with the apex and version it had, and no pointer
    of [w] is handed out again. *)
Definition store_extends (w w' : world) : Prop :=
  (zone_next w <= zone_next w')%positive /\
  forall q zq, (q < zone_next w)%positive -> zones w !! q = Some zq ->
    exists zq', zones w' !! q = Some zq' /\
                apex zq' = apex zq /\ version zq' = version zq.

(** The four ACLs the specification expects on a zone reconciled against
    the configured zone [z]. *)
Definition acls_of_conf (E : externals) (z : conf_zone_t) : zone_acl_t :=
  {| acl_xfr_in := Some (acl_of_remotes E (conf_xfr_in (conf_acl z)));
     acl_xfr_out := Some (acl_of_remotes E (conf_xfr_out (conf_acl z)));
     acl_notify_in := Some (acl_of_remotes E (conf_notify_in (conf_acl z)));
     acl_notify_out := Some (acl_of_remotes E (conf_notify_out (conf_acl z))) |}.

(** The reconciler as the specification words it: whenever a zone object was
    obtained for a configured zone, all four ACLs of the object are the ones
    built from the configured lists (no allocation failing). *)
Definition acls_all_rebuilt_as_stated : Prop :=
  forall (E : externals) (z : conf_zone_t) (zone_name : dnslib_dname_t)
         (db_old db_new : dnslib_zonedb_t) (inserted : Z) (w : world)
         (zone0 : option zone_ptr) (reload : bool) (p : zone_ptr)
         (inserted' : Z) (db_new' : dnslib_zonedb_t) (w1 w' : world),
    acl_new_fails w = [] ->
    zones_reload_decision E db_old zone_name z w = Some (zone0, reload) ->
    zones_obtain_zone E z zone_name zone0 reload db_new inserted w
      = Some (Some p, inserted', db_new', w1) ->
    zones_insert_zone E z zone_name db_old db_new inserted w
      = Some (inserted', db_new', w') ->
    exists zf, zones w' !! p = Some zf /\ acl zf = acls_of_conf E z.

(** The configured zone "example.com." with master 192.0.2.1. *)
Definition conf_zone_master : conf_zone_t :=
  {| name := "example.com."; file := "/z/ex.zone"; db := Some "/z/ex.db"%string;
     conf_acl := {| conf_xfr_in := [remote_v4 "192.0.2.1"];
                    conf_xfr_out := [remote_v4 "10.0.0.2"];
                    conf_notify_in := []; conf_notify_out := [] |} |}.

(** The zone is stale with respect to the configured source file, as
    [zones_insert_zones] tests it. *)
Definition zone_stale (E : externals) (z : conf_zone_t) (zo : dnslib_zone_t) : Prop :=
  dnslib_zone_version zo < stat_mtime E (file z).

(** The reconciler as the specification words it: a configured zone that is
    in the old database and not stale is in the new database, under its
    name, as the very object of the old database. *)
Definition carry_over_as_stated : Prop :=
  forall (E : externals) (zone_conf : list conf_zone_t) (db_old : dnslib_zonedb_t)
         (w : world) (inserted : Z) (db_new : dnslib_zonedb_t) (w' : world)
         (z : conf_zone_t) (zone_name : dnslib_dname_t) (p : zone_ptr)
         (zo : dnslib_zone_t),
    zones_insert_zones E zone_conf db_old ∅ 0 w = Some (inserted, db_new, w') ->
    In z zone_conf ->
    dnslib_dname_new_from_str E (name z) = Some zone_name ->
    db_old !! zone_name = Some p ->
    zones w !! p = Some zo ->
    ~ zone_stale E z zo ->
    db_new !! zone_name = Some p.

(** A store holding "example.com." at version 1000, as a first load leaves
    it, and the database publishing it. *)
Definition world_served : world :=
  {| zones := {[ 1%positive :=
                   dnslib_zone_set_version (zone_of_soa "example.com." soa_test) 1000 ]};
     zone_next := 2%positive;
     sched := {| ev_records := ∅; ev_queue := []; ev_next := 1%positive |};
     srv_ifaces := [ {| if_type_udp := 2; if_fd_udp := 7 |} ];
     acl_new_fails := [] |}.

Definition db_served : dnslib_zonedb_t := {[ "example.com."%string := 1%positive ]}.

(** [w'] is [w] with the zone object at [p] changed from [zo] to [zo'],
    its apex and version kept; nothing else of the zone store moves. *)
Definition updates_zone_at (p : zone_ptr) (w w' : world)
    (zo zo' : dnslib_zone_t) : Prop :=
  zones w !! p = Some zo /\ zones w' !! p = Some zo' /\
  apex zo' = apex zo /\ version zo' = version zo /\
  (forall q, q <> p -> zones w' !! q = zones w !! q) /\
  zone_next w' = zone_next w.

(** "example.com." after its first reconciliation against
    [conf_zone_master]: three ACLs built, master set, POLL event 1 armed. *)
Definition zone_reconciled : dnslib_zone_t :=
  {| apex := apex (zone_of_soa "example.com." soa_test);
     version := 1000;
     acl := {| acl_xfr_in := None;
               acl_xfr_out := Some (acl_of_remotes ext_demo [remote_v4 "10.0.0.2"]);
               acl_notify_in := Some (acl_new ACL_DENY);
               acl_notify_out := Some (acl_new ACL_DENY) |};
     xfr_in := {| master := master_v4; ifaces := true; timer := Some 1%positive;
                  expire := None; next_id := -1 |} |}.

Definition world_reconciled : world :=
  {| zones := {[ 1%positive := zone_reconciled ]};
     zone_next := 2%positive;
     sched := {| ev_records := {[ 1%positive := mk_event CB_AXFRIN_POLL 1%positive ]};
                 ev_queue := [(1%positive, 86400000)]; ev_next := 2%positive |};
     srv_ifaces := [ {| if_type_udp := 2; if_fd_udp := 7 |} ];
     acl_new_fails := [] |}.

(** A configuration that names "example.com." twice: first with a source
    file newer than the loaded zone, then with the older one. *)
Definition conf_zones_twice : list conf_zone_t :=
  [ conf_zone_plain "example.com." "/z/new.zone" (Some "/z/ex.db"%string);
    conf_zone_plain "example.com." "/z/ex.zone" (Some "/z/ex.db"%string) ].

(** A configuration whose first name does not convert. *)
Definition conf_zones_bad_first : list conf_zone_t :=
  [ conf_zone_plain "" "/z/x.zone" None;
    conf_zone_plain "example.com." "/z/ex.zone" (Some "/z/ex.db"%string) ].

(** ** Well-formed databases *)

(** Every name of the database points to a zone object of the store that
    was allocated before [zone_next] and whose apex is owned by the name. *)
Definition db_wf (w : world) (zdb : dnslib_zonedb_t) : Prop :=
  forall k p, zdb !! k = Some p ->
    (p < zone_next w)%positive /\
    exists z, zones w !! p = Some z /\
              dnslib_node_owner (dnslib_zone_apex z) = k.

(** The configured zone is in the old database, with apex SOA, and is not
    stale: the reconciler is to carry it over. *)
Definition carried_over (E : externals) (db_old : dnslib_zonedb_t) (w : world)
    (z : conf_zone_t) : Prop :=
  exists k p zo,
    dnslib_dname_new_from_str E (name z) = Some k /\
    db_old !! k = Some p /\ zones w !! p = Some zo /\
    ~ zone_stale E z zo /\ is_Some (zone_soa zo).


(** A store with "example.com." and "old.org.", both at version 1000, and
    the database serving them. *)
Definition world_two : world :=
  {| zones := <[ 2%positive :=
                   dnslib_zone_set_version (zone_of_soa "old.org." soa_test) 1000 ]>
                (zones world_served);
     zone_next := 3%positive;
     sched := sched world_served;
     srv_ifaces := srv_ifaces world_served;
     acl_new_fails := [] |}.

Definition db_two : dnslib_zonedb_t :=
  <[ "old.org."%string := 2%positive ]> db_served.

(** ** Runs of the scheduler *)

(** A full transfer-in cycle on the zone at [p]: the timer update, the
    firing of the POLL event it arms and the firing of the EXPIRE event that
    POLL firing arms. *)
Definition refresh_cycle (E : externals) (p : zone_ptr) (w : world) : option world :=
  w1 ← zones_timers_update p w;
  '(_, w2) ← event_fire E (ev_next (sched w)) w1;
  '(_, w3) ← event_fire E (Pos.succ (ev_next (sched w))) w2;
  Some w3.

(** Event pointers are handed out in order: what is queued or allocated was
    handed out before [ev_next]. *)
Definition sched_fresh (s : evsched_t) : Prop :=
  (forall x, In x (ev_queue s) -> (fst x < ev_next s)%positive) /\
  (forall e ev, ev_records s !! e = Some ev -> (e < ev_next s)%positive).

(** The pointers of the scheduled events, in queue order. *)
Definition queue_ids (s : evsched_t) : list event_ptr := List.map fst (ev_queue s).

(** The compiled-zone reader hands over zones without timers. *)
Definition loader_fresh (E : externals) : Prop :=
  forall path zl z0,
    dnslib_zload_open E path = Some zl -> zl_zone zl = Some z0 ->
    timer (xfr_in z0) = None /\ expire (xfr_in z0) = None.

(** The timer bookkeeping of a store: event pointers are handed out in order
    and no event is queued twice; zone objects were allocated before
    [zone_next]; the EXPIRE reference of a zone is a queued EXPIRE event of
    that zone, every EXPIRE event record is the one its zone refers to, and
    the POLL reference of a zone is a POLL event record of that zone. *)
Definition timers_inv (w : world) : Prop :=
  sched_fresh (sched w) /\
  NoDup (queue_ids (sched w)) /\
  (forall p z, zones w !! p = Some z -> (p < zone_next w)%positive) /\
  (forall p z x, zones w !! p = Some z -> expire (xfr_in z) = Some x ->
     ev_records (sched w) !! x = Some (mk_event CB_AXFRIN_EXPIRE p) /\
     x ∈ queue_ids (sched w)) /\
  (forall e p, ev_records (sched w) !! e = Some (mk_event CB_AXFRIN_EXPIRE p) ->
     exists z, zones w !! p = Some z /\ expire (xfr_in z) = Some e) /\
  (forall p z t, zones w !! p = Some z -> timer (xfr_in z) = Some t ->
     ev_records (sched w) !! t = Some (mk_event CB_AXFRIN_POLL p)).

(** One step of a running server: a reload of some configuration, or the
    firing of a scheduled event. *)
Inductive server_step (E : externals) : server -> server -> Prop :=
  | step_reload (conf : conf_t) (srv srv' : server) :
      reload E conf srv = Some srv' -> server_step E srv srv'
  | step_fire (e : event_ptr) (srv srv' : server) :
      fire E e srv = Some srv' -> server_step E srv srv'.

(** The servers reached from [srv] by any number of steps. *)
Inductive server_reaches (E : externals) (srv : server) : server -> Prop :=
  | reaches_here : server_reaches E srv srv
  | reaches_step (srv1 srv2 : server) :
      server_reaches E srv srv1 -> server_step E srv1 srv2 ->
      server_reaches E srv srv2.

(** * Properties *)

(** One step through a bind of the option monad whose first computation is a
    value. *)
Ltac bind_step := cbn [mbind option_bind].

(** ** SOA timer extractor *)

Lemma uint32_small (x : Z) : 0 <= x < 2 ^ 32 -> uint32 x = x.
Proof. intros H. unfold uint32. apply Z.mod_small. exact H. Qed.

Lemma zones_soa_timer_eq (zone : dnslib_zone_t) (rd : dnslib_rdata_t)
    (rr_func : dnslib_rdata_t -> Z) :
  zone_soa zone = Some rd ->
  zones_soa_timer zone rr_func = Some (uint32 (rr_func rd * 1000)).
Proof.
  unfold zone_soa, zones_soa_timer. intros H.
  destruct (dnslib_node_rrset (dnslib_zone_apex zone) DNSLIB_RRTYPE_SOA)
    as [soa_rrs|]; simpl in *; [|discriminate].
  rewrite H. reflexivity.
Qed.

Lemma zones_soa_timer_total (zone : dnslib_zone_t)
    (rr_func : dnslib_rdata_t -> Z) :
  is_Some (zone_soa zone) -> is_Some (zones_soa_timer zone rr_func).
Proof.
  intros [rd H]. rewrite (zones_soa_timer_eq zone rd rr_func H). eauto.
Qed.

Example zones_soa_test_values :
  zones_soa_refresh (zone_of_soa "." soa_test) = Some 86400000 /\
  zones_soa_retry (zone_of_soa "." soa_test) = Some 7200000 /\
  zones_soa_expire (zone_of_soa "." soa_test) = Some 691200000.
Proof. repeat split; reflexivity. Qed.

(** C4, as stated, fails: REFRESH = 4294968 seconds is a 32-bit value, and
    the extractor returns 704 for it, not 4294968000. *)
Lemma soa_timers_exact_fails : ~ soa_timers_exact.
Proof.
  intros H.
  destruct (H (zone_of_soa "." soa_wide) soa_wide) as (Hr & _ & _);
    [reflexivity | simpl; lia ..|].
  vm_compute in Hr. discriminate Hr.
Qed.

(** C4, amended: on a zone whose apex SOA RDATA carries REFRESH=R, RETRY=r,
    EXPIRE=E, all 32-bit, the extractor returns 1000*R, 1000*r and 1000*E
    reduced modulo 2^32; each is the exact product as soon as the field is at
    most 4294967. *)
Theorem zones_soa_timers_ms (zone : dnslib_zone_t) (rd : dnslib_rdata_t) :
  zone_soa zone = Some rd ->
  0 <= soa_refresh rd < 2 ^ 32 ->
  0 <= soa_retry rd < 2 ^ 32 ->
  0 <= soa_expire rd < 2 ^ 32 ->
  zones_soa_refresh zone = Some ((1000 * soa_refresh rd) mod 2 ^ 32) /\
  zones_soa_retry zone = Some ((1000 * soa_retry rd) mod 2 ^ 32) /\
  zones_soa_expire zone = Some ((1000 * soa_expire rd) mod 2 ^ 32) /\
  (soa_refresh rd <= 4294967 -> zones_soa_refresh zone = Some (1000 * soa_refresh rd)) /\
  (soa_retry rd <= 4294967 -> zones_soa_retry zone = Some (1000 * soa_retry rd)) /\
  (soa_expire rd <= 4294967 -> zones_soa_expire zone = Some (1000 * soa_expire rd)).
Proof.
  intros Hsoa HR Hr HE.
  unfold zones_soa_refresh, zones_soa_retry, zones_soa_expire.
  rewrite !(zones_soa_timer_eq zone rd) by exact Hsoa.
  unfold dnslib_rdata_soa_refresh, dnslib_rdata_soa_retry, dnslib_rdata_soa_expire.
  rewrite (uint32_small (soa_refresh rd)), (uint32_small (soa_retry rd)),
    (uint32_small (soa_expire rd)) by assumption.
  unfold uint32.
  rewrite !(Z.mul_comm _ 1000).
  repeat split; try reflexivity; intros Hle;
    (rewrite Z.mod_small; [reflexivity | lia]).
Qed.

(** The extractor on the wide SOA: REFRESH wraps to 704, RETRY is exact. *)
Lemma zones_soa_timers_ms_witness :
  zones_soa_refresh (zone_of_soa "." soa_wide) = Some 704 /\
  zones_soa_retry (zone_of_soa "." soa_wide) = Some 7200000.
Proof.
  destruct (zones_soa_timers_ms (zone_of_soa "." soa_wide) soa_wide)
    as (Hr & _ & _ & _ & Hy & _);
    [reflexivity | simpl; lia ..|].
  split; [exact Hr | apply Hy; simpl; lia].
Defined.

(** ** ACL builder *)

Section AclBuilder.

Context (E : externals).

Lemma acl_load_rule_eq (a : acl_t) (r : conf_remote_t) :
  acl_load_rule E a r =
    if remote_resolves E r then acl_create a (remote_addr E r) ACL_ACCEPT else a.
Proof.
  unfold acl_load_rule, remote_resolves, remote_addr.
  destruct (sockaddr_set E _ _ _) as [ret addr]. reflexivity.
Qed.

(** The walk over the remotes keeps the default action and appends one
    ACCEPT rule per remote that resolves. *)
Lemma acl_load_rules (rules : list conf_remote_t) (a : acl_t) :
  fold_left (acl_load_rule E) rules a =
    {| acl_default := acl_default a;
       acl_rules := acl_rules a ++ acl_rules (acl_of_remotes E rules) |}.
Proof.
  revert a. induction rules as [|r rules IH]; intros a; simpl.
  - rewrite app_nil_r. destruct a; reflexivity.
  - rewrite IH, acl_load_rule_eq.
    destruct (remote_resolves E r); simpl; [|reflexivity].
    rewrite <- app_assoc. reflexivity.
Qed.

(** C8: the ACL builder returns INVALID_PARAM and leaves the slot as it is
    when the slot pointer or the list is null; it returns OUT_OF_MEMORY when
    the allocation of the new ACL fails; otherwise it returns OK and the slot
    holds a new ACL with default DENY whose rules are the ACCEPT rules of
    exactly the remotes that resolve, the others being skipped. *)
Theorem zones_set_acl_spec (acl : option (option acl_t))
    (acl_list : option (list conf_remote_t)) (fails : list bool) :
  (acl = None \/ acl_list = None ->
     zones_set_acl E acl acl_list fails = (KNOT_EINVAL, acl, fails)) /\
  (forall slot rules, acl = Some slot -> acl_list = Some rules ->
     (head fails = Some true ->
        zones_set_acl E acl acl_list fails = (KNOT_ENOMEM, Some None, tail fails)) /\
     (head fails <> Some true ->
        zones_set_acl E acl acl_list fails =
          (KNOT_EOK, Some (Some (acl_of_remotes E rules)), tail fails) /\
        acl_default (acl_of_remotes E rules) = ACL_DENY /\
        forall addr rule,
          In (addr, rule) (acl_rules (acl_of_remotes E rules)) <->
          rule = ACL_ACCEPT /\
          exists r, In r rules /\ remote_resolves E r = true /\
                    remote_addr E r = addr)).
Proof.
  split.
  - intros [-> | ->]; [reflexivity | destruct acl; reflexivity].
  - intros slot rules -> ->. split.
    + intros Hf. destruct fails as [|[] rest]; try discriminate. reflexivity.
    + intros Hf. split; [|split].
      * unfold zones_set_acl.
        assert (acl_new_alloc ACL_DENY fails = (Some (acl_new ACL_DENY), tail fails))
          as -> by (destruct fails as [|[] rest];
                    [reflexivity | exfalso; apply Hf; reflexivity | reflexivity]).
        rewrite acl_load_rules. reflexivity.
      * reflexivity.
      * intros addr rule. simpl. rewrite in_map_iff. split.
        -- intros (r & Heq & Hin). apply filter_In in Hin as [Hin Hres].
           inversion Heq; subst. eauto.
        -- intros (-> & r & Hin & Hres & <-). exists r. split; [reflexivity|].
           apply filter_In. auto.
Qed.

End AclBuilder.

(** The builder on a null slot pointer, on a failing allocation, and on three
    remotes of which the second does not resolve. *)
Lemma zones_set_acl_spec_witness :
  zones_set_acl ext_demo None (Some []) [] = (KNOT_EINVAL, None, []) /\
  zones_set_acl ext_demo (Some None) (Some [remote_v4 "10.0.0.2"]) [true]
    = (KNOT_ENOMEM, Some None, []) /\
  zones_set_acl ext_demo (Some None)
      (Some [remote_v4 "10.0.0.2"; remote_bad "nowhere"; remote_v4 "10.0.0.3"]) []
    = (KNOT_EOK,
       Some (Some (acl_of_remotes ext_demo
         [remote_v4 "10.0.0.2"; remote_bad "nowhere"; remote_v4 "10.0.0.3"])), []).
Proof.
  split; [|split].
  - apply (proj1 (zones_set_acl_spec ext_demo None (Some []) [])).
    left. reflexivity.
  - apply (proj2 (zones_set_acl_spec ext_demo (Some None)
                    (Some [remote_v4 "10.0.0.2"]) [true])
             None [remote_v4 "10.0.0.2"]); reflexivity.
  - apply (proj2 (zones_set_acl_spec ext_demo (Some None)
             (Some [remote_v4 "10.0.0.2"; remote_bad "nowhere"; remote_v4 "10.0.0.3"])
             []) None
             [remote_v4 "10.0.0.2"; remote_bad "nowhere"; remote_v4 "10.0.0.3"]);
      [reflexivity | reflexivity | simpl; discriminate].
Defined.

Example acl_of_remotes_demo :
  acl_rules (acl_of_remotes ext_demo
     [remote_v4 "10.0.0.2"; remote_bad "nowhere"; remote_v4 "10.0.0.3"]) =
  [ ({| sa_family := 2; sa_ptr := Some ("10.0.0.2"%string, 53); sa_len := 16 |}, ACL_ACCEPT);
    ({| sa_family := 2; sa_ptr := Some ("10.0.0.3"%string, 53); sa_len := 16 |}, ACL_ACCEPT) ].
Proof. reflexivity. Qed.

(** ** Zone loader *)

Example zones_load_zone_fresh :
  let '(ret, zonedb, w) :=
    zones_load_zone ext_demo ∅ "example.com." "/z/ex.zone" (Some "/z/ex.db"%string)
      world_empty in
  ret = KNOT_EOK /\ zonedb !! "example.com."%string = Some 1%positive /\
  (dnslib_zone_version <$> zones w !! 1%positive) = Some 1000.
Proof. vm_compute. repeat split; reflexivity. Qed.

(** C7, as stated, fails: "/z/bad.db" opens and no insertion fails, yet the
    zone does not decode and the loader returns ZONE_INVALID, not OK. *)
Lemma load_zone_as_stated_fails : ~ load_zone_as_stated.
Proof.
  intros H.
  specialize (H ext_demo ∅ "bad."%string "/z/bad.zone"%string
                (Some "/z/bad.db"%string) world_empty).
  simpl in H. destruct H as (_ & _ & _ & H).
  destruct (H "/z/bad.db"%string
              {| zl_source := "/z/bad.zone"; zl_needs_update := false;
                 zl_zone := None |}) as [Hret _];
    [reflexivity | reflexivity | | discriminate Hret].
  intros (z0 & Hz0 & _). discriminate Hz0.
Qed.

Section Loader.

Context (E : externals).

(** C7, amended: the loader fails with INVALID_PARAM exactly when the
    compiled path is null; with a path it fails with ZONE_INVALID, database
    and store untouched, when the file does not open or the zone does not
    decode; when the insertion of the decoded zone fails it frees the zone
    and fails with ZONE_INVALID, the database untouched; otherwise it returns
    OK, the database maps the zone's name to the new object and the object
    carries the compiled file's mtime as version. *)
Theorem zones_load_zone_spec (zonedb : dnslib_zonedb_t) (zone_name source : string)
    (filename : option string) (w : world) :
  (fst (fst (zones_load_zone E zonedb zone_name source filename w)) = KNOT_EINVAL
     <-> filename = None) /\
  (forall f, filename = Some f -> dnslib_zload_open E f = None ->
     zones_load_zone E zonedb zone_name source filename w
       = (KNOT_EZONEINVAL, zonedb, w)) /\
  (forall f zl, filename = Some f -> dnslib_zload_open E f = Some zl ->
     zl_zone zl = None ->
     zones_load_zone E zonedb zone_name source filename w
       = (KNOT_EZONEINVAL, zonedb, w)) /\
  (forall f zl z0, filename = Some f -> dnslib_zload_open E f = Some zl ->
     zl_zone zl = Some z0 ->
     let key := dnslib_node_owner (dnslib_zone_apex z0) in
     let '(ret, zonedb', w') := zones_load_zone E zonedb zone_name source filename w in
     (forall q, q <> zone_next w -> zones w' !! q = zones w !! q) /\
     (is_Some (zonedb !! key) ->
        ret = KNOT_EZONEINVAL /\ zonedb' = zonedb /\
        zones w' !! zone_next w = None) /\
     (zonedb !! key = None ->
        ret = KNOT_EOK /\ zonedb' = <[key := zone_next w]> zonedb /\
        zones w' !! zone_next w
          = Some (dnslib_zone_set_version z0 (stat_mtime E f)))).
Proof.
  split; [|split; [|split]].
  - unfold zones_load_zone. destruct filename as [f|]; [|split; reflexivity].
    split; [|discriminate].
    destruct (dnslib_zload_open E f) as [zl|]; [|discriminate].
    destruct (zl_zone zl) as [z0|]; [|discriminate].
    destruct (dnslib_zonedb_add_zone _ _ _) as [ret zonedb'].
    destruct (ret =? 0); discriminate.
  - intros f -> Hopen. simpl. rewrite Hopen. reflexivity.
  - intros f zl -> Hopen Hload. simpl. rewrite Hopen, Hload. reflexivity.
  - intros f zl z0 -> Hopen Hload key. subst key.
    unfold zones_load_zone. rewrite Hopen, Hload.
    unfold dnslib_zonedb_add_zone, dnslib_zone_apex, dnslib_node_owner.
    change (apex (dnslib_zone_set_version z0 (stat_mtime E f))) with (apex z0).
    destruct (zonedb !! owner (apex z0)) as [p|] eqn:Hkey;
      cbn -[dnslib_zone_set_version].
    + split; [|split].
      * intros q Hq. rewrite lookup_delete_ne, lookup_insert_ne by congruence.
        reflexivity.
      * intros _. rewrite lookup_delete_eq. auto.
      * discriminate.
    + split; [|split].
      * intros q Hq. rewrite lookup_insert_ne by congruence. reflexivity.
      * intros [p Hp]. discriminate Hp.
      * intros _. rewrite lookup_insert_eq. auto.
Qed.

End Loader.

(** The loader on a compiled file that does not decode and on one that does
    not open. *)
Lemma zones_load_zone_spec_witness :
  zones_load_zone ext_demo ∅ "bad." "/z/bad.zone" (Some "/z/bad.db"%string) world_empty
    = (KNOT_EZONEINVAL, ∅, world_empty) /\
  zones_load_zone ext_demo ∅ "none." "/z/none.zone" (Some "/z/none.db"%string) world_empty
    = (KNOT_EZONEINVAL, ∅, world_empty).
Proof.
  split.
  - apply (proj1 (proj2 (proj2 (zones_load_zone_spec ext_demo ∅ "bad."
             "/z/bad.zone" (Some "/z/bad.db"%string) world_empty)))
             "/z/bad.db"%string
             {| zl_source := "/z/bad.zone"; zl_needs_update := false;
                zl_zone := None |}); reflexivity.
  - apply (proj1 (proj2 (zones_load_zone_spec ext_demo ∅ "none."
             "/z/none.zone" (Some "/z/none.db"%string) world_empty))
             "/z/none.db"%string); reflexivity.
Defined.

(** ** Pruning of the old database *)

(** C6, as stated, fails: the empty name does not convert, the pruning stops
    there with ERROR and "example.com.", configured after it, stays in the
    old database. *)
Lemma remove_zones_as_stated_fails : ~ remove_zones_as_stated.
Proof.
  intros H.
  pose (zone_conf := [conf_zone_plain "" "/z/x.zone" None;
                      conf_zone_plain "example.com." "/z/ex.zone" None]).
  pose (db_old := ({[ "example.com."%string := 1%positive ]} : dnslib_zonedb_t)).
  destruct (proj1 (H ext_demo zone_conf db_old "example.com."%string 1%positive))
    as [_ Hn]; [reflexivity|].
  apply Hn. exists (conf_zone_plain "example.com." "/z/ex.zone" None).
  split; [right; left; reflexivity | reflexivity].
Qed.

Section Pruning.

Context (E : externals).

Lemma zones_remove_zones_lookup (zone_conf : list conf_zone_t)
    (db_old : dnslib_zonedb_t) (k : dnslib_dname_t) :
  snd (zones_remove_zones E zone_conf db_old) !! k =
    if decide (k ∈ converted_prefix E zone_conf) then None else db_old !! k.
Proof.
  revert db_old. induction zone_conf as [|z rest IH]; intros db_old;
    cbn [zones_remove_zones converted_prefix].
  - rewrite decide_False by (intros H; inversion H). reflexivity.
  - destruct (dnslib_dname_new_from_str E (name z)) as [zn|].
    + rewrite IH. unfold dnslib_zonedb_remove_zone.
      destruct (decide (zn = k)) as [->|Hne].
      * rewrite lookup_delete_eq.
        rewrite (decide_True (P := k ∈ k :: _)) by (apply elem_of_cons; auto).
        destruct (decide _); reflexivity.
      * rewrite lookup_delete_ne by exact Hne.
        destruct (decide (k ∈ converted_prefix E rest)) as [Hin|Hin].
        -- rewrite decide_True by (apply elem_of_cons; auto). reflexivity.
        -- rewrite decide_False; [reflexivity|].
           rewrite elem_of_cons. intros [->|?]; auto.
    + rewrite decide_False by (intros H; inversion H). reflexivity.
Qed.

Lemma zones_remove_zones_ok (zone_conf : list conf_zone_t)
    (db_old : dnslib_zonedb_t) :
  fst (zones_remove_zones E zone_conf db_old) = KNOT_EOK <->
  Forall (fun z => is_Some (dnslib_dname_new_from_str E (name z))) zone_conf.
Proof.
  revert db_old. induction zone_conf as [|z rest IH]; intros db_old; simpl.
  - split; [intros _; constructor | reflexivity].
  - destruct (dnslib_dname_new_from_str E (name z)) as [zn|] eqn:Hz; simpl.
    + rewrite IH. split.
      * intros HF. constructor; [rewrite Hz; eauto | exact HF].
      * intros HF. inversion HF; assumption.
    + split; [discriminate|].
      intros HF. inversion HF as [|? ? [x Hx] ?]. congruence.
Qed.

Lemma converted_prefix_all (zone_conf : list conf_zone_t) (k : dnslib_dname_t) :
  Forall (fun z => is_Some (dnslib_dname_new_from_str E (name z))) zone_conf ->
  k ∈ converted_prefix E zone_conf <-> configured E zone_conf k.
Proof.
  unfold configured. induction zone_conf as [|z rest IH]; intros HF; simpl.
  - split; [intros H; inversion H | intros (z & [] & _)].
  - inversion HF as [|? ? [zn Hzn] HF']; subst. rewrite Hzn.
    rewrite elem_of_cons, (IH HF'). split.
    + intros [<- | (z' & Hin & Hz')]; eauto.
    + intros (z' & [<- | Hin] & Hz'); [left; congruence | right; eauto].
Qed.

(** C6, amended: remove_zones returns OK exactly when every configured name
    converts to a domain name, and then the old database contains exactly
    the zones whose name is not configured; in every case the names removed
    are those of the entries before the first name that does not convert,
    and no zone object is touched. *)
Theorem zones_remove_zones_spec (zone_conf : list conf_zone_t)
    (db_old : dnslib_zonedb_t) :
  (fst (zones_remove_zones E zone_conf db_old) = KNOT_EOK <->
     Forall (fun z => is_Some (dnslib_dname_new_from_str E (name z))) zone_conf) /\
  (fst (zones_remove_zones E zone_conf db_old) = KNOT_EOK \/
   fst (zones_remove_zones E zone_conf db_old) = KNOT_ERROR) /\
  (forall k, snd (zones_remove_zones E zone_conf db_old) !! k =
     if decide (k ∈ converted_prefix E zone_conf) then None else db_old !! k) /\
  (fst (zones_remove_zones E zone_conf db_old) = KNOT_EOK ->
     forall k p, snd (zones_remove_zones E zone_conf db_old) !! k = Some p <->
       db_old !! k = Some p /\ ~ configured E zone_conf k).
Proof.
  split; [apply zones_remove_zones_ok|]. split; [|split].
  - revert db_old. induction zone_conf as [|z rest IH]; intros db_old; simpl.
    + left; reflexivity.
    + destruct (dnslib_dname_new_from_str E (name z)); [apply IH | right; reflexivity].
  - apply zones_remove_zones_lookup.
  - intros Hok k p. apply zones_remove_zones_ok in Hok.
    rewrite zones_remove_zones_lookup.
    pose proof (converted_prefix_all zone_conf k Hok) as Hc.
    case_decide as Hin.
    + split; [discriminate|]. intros [_ Hn]. exfalso. apply Hn, Hc, Hin.
    + split; [|tauto]. intros Hk. split; [exact Hk|]. intros Hcf.
      apply Hin, Hc, Hcf.
Qed.

End Pruning.

(** Pruning with one configured zone keeps the unconfigured "old.org.". *)
Lemma zones_remove_zones_spec_witness :
  let zone_conf := [conf_zone_plain "example.com." "/z/ex.zone" None] in
  let db_old : dnslib_zonedb_t :=
    {[ "example.com."%string := 1%positive; "old.org."%string := 2%positive ]} in
  snd (zones_remove_zones ext_demo zone_conf db_old) !! "old.org."%string
    = Some 2%positive.
Proof.
  intros zone_conf db_old.
  apply (proj2 (proj2 (proj2 (zones_remove_zones_spec ext_demo zone_conf db_old)))).
  - reflexivity.
  - split; [reflexivity|].
    intros (z & [<- | []] & Hz). discriminate Hz.
Defined.
(** ** AXFR-IN poll event handler *)

Section Poll.

Context (E : externals).
Context (e : event_ptr) (w : world) (ev : event_t) (z : dnslib_zone_t)
        (rd : dnslib_rdata_t).
Hypothesis Hev : ev_records (sched w) !! e = Some ev.
Hypothesis Hz : zones w !! data ev = Some z.
Hypothesis Hsoa : zone_soa z = Some rd.

Lemma zones_axfrin_poll_eq :
  zones_axfrin_poll E e w =
    Some (fst (poll_ret_nid E w z),
          set_sched
            (store_zone w (data ev)
               (set_xfr_in z
                  {| master := master (xfr_in z); ifaces := ifaces (xfr_in z);
                     timer := timer (xfr_in z);
                     expire := fst (poll_expire w (data ev) z rd);
                     next_id := snd (poll_ret_nid E w z) |}))
            (evsched_schedule (snd (poll_expire w (data ev) z rd)) e
               (uint32 (dnslib_rdata_soa_retry rd * 1000)))).
Proof.
  unfold zones_axfrin_poll, poll_ret_nid, poll_expire, poll_query.
  rewrite Hev. bind_step. rewrite Hz. bind_step.
  destruct (xfrin_create_soa_query E _ _) as [ret0 qbuf]. cbn [fst snd].
  destruct (if (ret0 =? 0) && ifaces (xfr_in z) then _ else _) as [ret nid].
  unfold zones_soa_expire, zones_soa_retry.
  rewrite !(zones_soa_timer_eq z rd) by exact Hsoa.
  destruct (expire (xfr_in z)) as [x|]; reflexivity.
Qed.

(** C9: a firing of the POLL event [e] of a zone with apex SOA returns, and
    it arms a new EXPIRE event for EXPIRE-from-SOA milliseconds exactly when
    the zone has no EXPIRE event; in every case, whatever the interfaces and
    the outcome of the send, the same event [e] is scheduled again for
    RETRY-from-SOA milliseconds. *)
Theorem zones_axfrin_poll_timers :
  exists ret w' z' expire_tmr retry_tmr,
    zones_axfrin_poll E e w = Some (ret, w') /\
    zones w' !! data ev = Some z' /\
    zones_soa_expire z = Some expire_tmr /\
    zones_soa_retry z = Some retry_tmr /\
    match expire (xfr_in z) with
    | None =>
        expire (xfr_in z') = Some (ev_next (sched w)) /\
        ev_records (sched w') =
          <[ev_next (sched w) := mk_event CB_AXFRIN_EXPIRE (data ev)]>
            (ev_records (sched w)) /\
        ev_queue (sched w') =
          ev_queue (sched w) ++ [(ev_next (sched w), expire_tmr); (e, retry_tmr)]
    | Some x =>
        expire (xfr_in z') = Some x /\
        ev_records (sched w') = ev_records (sched w) /\
        ev_queue (sched w') = ev_queue (sched w) ++ [(e, retry_tmr)]
    end.
Proof.
  eexists _, _, _, _, _. split; [apply zones_axfrin_poll_eq|].
  split; [apply lookup_insert_eq|].
  unfold zones_soa_expire, zones_soa_retry.
  rewrite !(zones_soa_timer_eq z rd) by exact Hsoa.
  split; [reflexivity|]. split; [reflexivity|].
  unfold poll_expire. destruct (expire (xfr_in z)) as [x|]; cbn.
  - auto.
  - rewrite <- app_assoc. auto.
Qed.

Lemma to_size_t_eq (ret buflen : Z) :
  -1 <= ret <= buflen -> 0 <= buflen < 2 ^ 31 ->
  (to_size_t ret =? buflen) = true <-> ret = buflen.
Proof.
  intros Hret Hlen. unfold to_size_t. rewrite Z.eqb_eq.
  change (2 ^ 31) with 2147483648 in Hlen.
  change (2 ^ 64) with 18446744073709551616.
  destruct (Z.eq_dec ret (-1)) as [->|Hne].
  - change (-1 mod 18446744073709551616) with 18446744073709551615. lia.
  - rewrite Z.mod_small by lia. reflexivity.
Qed.

Hypothesis Hbuf : Z.of_nat (length (snd (poll_query E z))) <= SOCKET_MTU_SZ E.
Hypothesis Hmtu : SOCKET_MTU_SZ E < 2 ^ 31.
Hypothesis Hsent :
  -1 <= poll_sent E w z <= Z.of_nat (length (snd (poll_query E z))).

Lemma poll_next_id_full :
  query_sent_in_full E w z ->
  snd (poll_ret_nid E w z) = dnslib_wire_get_id (snd (poll_query E z)).
Proof.
  intros (Hq & Hif & Hsock & Hfull).
  unfold poll_ret_nid. rewrite Hq, Hif. cbn [Z.eqb andb].
  unfold axfrin_send_query. fold (poll_sock w z).
  apply Z.ltb_lt in Hsock as Hs. rewrite Hs. fold (poll_sent E w z).
  assert ((to_size_t (poll_sent E w z) =? Z.of_nat (length (snd (poll_query E z)))) = true)
    as -> by (apply to_size_t_eq; lia).
  reflexivity.
Qed.

Lemma poll_next_id_kept :
  ~ query_sent_in_full E w z ->
  snd (poll_ret_nid E w z) = next_id (xfr_in z).
Proof.
  intros Hn. unfold poll_ret_nid.
  destruct ((fst (poll_query E z) =? 0) && ifaces (xfr_in z)) eqn:Hc;
    [|reflexivity].
  apply andb_prop in Hc as [Hq%Z.eqb_eq Hif].
  unfold axfrin_send_query. fold (poll_sock w z).
  destruct (-1 <? poll_sock w z) eqn:Hs.
  - fold (poll_sent E w z).
    destruct (to_size_t (poll_sent E w z) =? _) eqn:Ht; [|reflexivity].
    exfalso. apply Hn. apply to_size_t_eq in Ht; [|lia..].
    apply Z.ltb_lt in Hs. repeat split; assumption.
  - change (to_size_t (-1)) with 18446744073709551615.
    destruct (18446744073709551615 =? _) eqn:Ht; [|reflexivity].
    apply Z.eqb_eq in Ht. change (2 ^ 31) with 2147483648 in Hmtu. lia.
Qed.

(** C10: on a POLL firing the handler stores the wire ID of the new query in
    [next_id] when, and only when, [sendto] transmitted the whole query
    buffer; when no interface of the master's family is found, or the send
    fails or is short, [next_id] keeps its value.  Master, interface
    reference and POLL event of the zone, its apex, version and ACLs, and
    every other zone are unchanged. *)
Theorem zones_axfrin_poll_next_id :
  exists ret w' z',
    zones_axfrin_poll E e w = Some (ret, w') /\
    zones w' !! data ev = Some z' /\
    (query_sent_in_full E w z ->
       next_id (xfr_in z') = dnslib_wire_get_id (snd (poll_query E z))) /\
    (~ query_sent_in_full E w z -> next_id (xfr_in z') = next_id (xfr_in z)) /\
    (poll_sock w z = -1 -> next_id (xfr_in z') = next_id (xfr_in z)) /\
    (poll_sent E w z <> Z.of_nat (length (snd (poll_query E z))) ->
       next_id (xfr_in z') = next_id (xfr_in z)) /\
    master (xfr_in z') = master (xfr_in z) /\
    ifaces (xfr_in z') = ifaces (xfr_in z) /\
    timer (xfr_in z') = timer (xfr_in z) /\
    apex z' = apex z /\ version z' = version z /\ acl z' = acl z /\
    (forall q, q <> data ev -> zones w' !! q = zones w !! q).
Proof.
  eexists _, _, _. split; [apply zones_axfrin_poll_eq|].
  split; [apply lookup_insert_eq|]. cbn [set_xfr_in xfr_in next_id].
  split; [apply poll_next_id_full|].
  split; [apply poll_next_id_kept|].
  split; [|split].
  - intros Hs. apply poll_next_id_kept. intros (_ & _ & Hlt & _). lia.
  - intros Hs. apply poll_next_id_kept. intros (_ & _ & _ & Heq). auto.
  - repeat split; try reflexivity.
    intros q Hq. cbn. rewrite lookup_insert_ne by congruence. reflexivity.
Qed.

End Poll.

(** The first firing on "example.com.": EXPIRE event 2 armed for 691200000 ms,
    POLL event 1 rescheduled for 7200000 ms. *)
Lemma zones_axfrin_poll_timers_witness :
  exists ret w',
    zones_axfrin_poll ext_demo 1%positive world_poll_first = Some (ret, w') /\
    ev_queue (sched w') = [(2%positive, 691200000); (1%positive, 7200000)].
Proof.
  destruct (zones_axfrin_poll_timers ext_demo 1%positive world_poll_first
              (mk_event CB_AXFRIN_POLL 1%positive) (zone_polling None (-1)) soa_test)
    as (ret & w' & z' & expire_tmr & retry_tmr & Hrun & _ & He & Hr & _ & _ & Hq);
    [reflexivity | reflexivity | reflexivity |].
  exists ret, w'. split; [exact Hrun|].
  injection He as <-. injection Hr as <-. exact Hq.
Defined.

(** A later firing: a master that takes the whole query makes [next_id] the
    ID 0xac77 of the query; an unreachable one leaves 4660 in place. *)
Lemma zones_axfrin_poll_next_id_witness :
  (exists ret w' z',
     zones_axfrin_poll ext_reachable 1%positive world_poll_retry = Some (ret, w') /\
     zones w' !! 1%positive = Some z' /\ next_id (xfr_in z') = 44151) /\
  (exists ret w' z',
     zones_axfrin_poll ext_demo 1%positive world_poll_retry = Some (ret, w') /\
     zones w' !! 1%positive = Some z' /\ next_id (xfr_in z') = 4660).
Proof.
  split.
  - destruct (zones_axfrin_poll_next_id ext_reachable 1%positive world_poll_retry
                (mk_event CB_AXFRIN_POLL 1%positive)
                (zone_polling (Some 2%positive) 4660) soa_test)
      as (ret & w' & z' & Hrun & Hz' & Hfull & _);
      [reflexivity | reflexivity | reflexivity | vm_compute; discriminate
      | reflexivity | vm_compute; split; discriminate |].
    exists ret, w', z'. split; [exact Hrun|]. split; [exact Hz'|].
    apply Hfull. repeat split.
  - destruct (zones_axfrin_poll_next_id ext_demo 1%positive world_poll_retry
                (mk_event CB_AXFRIN_POLL 1%positive)
                (zone_polling (Some 2%positive) 4660) soa_test)
      as (ret & w' & z' & Hrun & Hz' & _ & _ & _ & Hshort & _);
      [reflexivity | reflexivity | reflexivity | vm_compute; discriminate
      | reflexivity | vm_compute; split; discriminate |].
    exists ret, w', z'. split; [exact Hrun|]. split; [exact Hz'|].
    apply Hshort. vm_compute. discriminate.
Defined.

Example zones_axfrin_poll_retry_run :
  (snd <$> zones_axfrin_poll ext_reachable 1%positive world_poll_retry) ≫=
    (fun w' => Some (xfr_in <$> zones w' !! 1%positive, ev_queue (sched w')))
  = Some (Some {| master := master_v4; ifaces := true; timer := Some 1%positive;
                  expire := Some 2%positive; next_id := 44151 |},
          [(2%positive, 691200000); (1%positive, 7200000)]).
Proof. vm_compute. reflexivity. Qed.

(** ** Reconciler *)

Section Reconciler.

Context (E : externals).

Lemma store_extends_refl (w : world) : store_extends w w.
Proof. split; [lia | eauto]. Qed.

Lemma store_extends_trans (w1 w2 w3 : world) :
  store_extends w1 w2 -> store_extends w2 w3 -> store_extends w1 w3.
Proof.
  intros [Hn12 H12] [Hn23 H23]. split; [lia|].
  intros q zq Hq Hzq.
  destruct (H12 q zq Hq Hzq) as (z2 & Hz2 & Ha2 & Hv2).
  destruct (H23 q z2 ltac:(lia) Hz2) as (z3 & Hz3 & Ha3 & Hv3).
  exists z3. repeat split; congruence.
Qed.

Lemma updates_zone_at_extends (p : zone_ptr) (w w' : world)
    (zo zo' : dnslib_zone_t) :
  updates_zone_at p w w' zo zo' -> store_extends w w'.
Proof.
  intros (Hz & Hz' & Ha & Hv & Hframe & Hn). split; [lia|].
  intros q zq _ Hzq. destruct (decide (q = p)) as [->|Hne].
  - exists zo'. rewrite Hz in Hzq. injection Hzq as <-. auto.
  - exists zq. rewrite Hframe by exact Hne. auto.
Qed.

Lemma store_zone_updates (p : zone_ptr) (w : world) (zo zo' : dnslib_zone_t) :
  zones w !! p = Some zo -> apex zo' = apex zo -> version zo' = version zo ->
  updates_zone_at p w (store_zone w p zo') zo zo'.
Proof.
  intros Hz Ha Hv. unfold updates_zone_at, store_zone. cbn.
  rewrite lookup_insert_eq. repeat split; try assumption.
  intros q Hq. apply lookup_insert_ne. congruence.
Qed.

(** *** The three ACL rebuilds *)

Lemma rebuild_slot_set_acl (slot : option acl_t) (rules : list conf_remote_t)
    (fails : list bool) :
  exists ret,
    zones_set_acl E (Some slot) (Some rules) fails =
      (ret, Some (fst (rebuild_slot E slot rules fails)),
       snd (rebuild_slot E slot rules fails)).
Proof.
  unfold rebuild_slot, zones_set_acl.
  destruct (acl_new_alloc ACL_DENY fails) as [[a|] fails']; cbn; eauto.
Qed.

Lemma rebuild_slot_no_failure (slot : option acl_t) (rules : list conf_remote_t) :
  rebuild_slot E slot rules [] = (Some (acl_of_remotes E rules), []).
Proof.
  unfold rebuild_slot, zones_set_acl. cbn. rewrite acl_load_rules. reflexivity.
Qed.

Lemma zones_update_acls_spec (p : zone_ptr) (z : conf_zone_t) (w : world)
    (zo : dnslib_zone_t) :
  zones w !! p = Some zo ->
  exists wa za r1 r2 r3 f1 f2,
    zones_update_acls E p z w = Some wa /\
    updates_zone_at p w wa zo za /\
    xfr_in za = xfr_in zo /\
    sched wa = sched w /\ srv_ifaces wa = srv_ifaces w /\
    acl_xfr_in (acl za) = acl_xfr_in (acl zo) /\
    zones_set_acl E (Some (acl_xfr_out (acl zo)))
        (Some (conf_xfr_out (conf_acl z))) (acl_new_fails w)
      = (r1, Some (acl_xfr_out (acl za)), f1) /\
    zones_set_acl E (Some (acl_notify_in (acl zo)))
        (Some (conf_notify_in (conf_acl z))) f1
      = (r2, Some (acl_notify_in (acl za)), f2) /\
    zones_set_acl E (Some (acl_notify_out (acl zo)))
        (Some (conf_notify_out (conf_acl z))) f2
      = (r3, Some (acl_notify_out (acl za)), acl_new_fails wa).
Proof.
  intros Hz. unfold zones_update_acls. rewrite Hz. bind_step.
  destruct (rebuild_slot_set_acl (acl_xfr_out (acl zo))
              (conf_xfr_out (conf_acl z)) (acl_new_fails w)) as [r1 H1].
  destruct (rebuild_slot E (acl_xfr_out (acl zo)) _ _) as [xo f1].
  destruct (rebuild_slot_set_acl (acl_notify_in (acl zo))
              (conf_notify_in (conf_acl z)) f1) as [r2 H2].
  destruct (rebuild_slot E (acl_notify_in (acl zo)) _ _) as [ni f2].
  destruct (rebuild_slot_set_acl (acl_notify_out (acl zo))
              (conf_notify_out (conf_acl z)) f2) as [r3 H3].
  destruct (rebuild_slot E (acl_notify_out (acl zo)) _ _) as [no f3].
  eexists _, _, r1, r2, r3, f1, f2. split; [reflexivity|].
  split; [apply (store_zone_updates p w zo); [exact Hz | reflexivity..]|].
  cbn. auto 10.
Qed.

Lemma zones_update_master_spec (p : zone_ptr) (z : conf_zone_t) (w : world)
    (zo : dnslib_zone_t) :
  zones w !! p = Some zo ->
  exists wm zm,
    zones_update_master E p z w = Some wm /\
    updates_zone_at p w wm zo zm /\
    acl zm = acl zo /\ timer (xfr_in zm) = timer (xfr_in zo) /\
    expire (xfr_in zm) = expire (xfr_in zo) /\
    sched wm = sched w /\
    (conf_xfr_in (conf_acl z) = [] -> sa_ptr (master (xfr_in zm)) = None).
Proof.
  intros Hz. unfold zones_update_master. rewrite Hz. bind_step.
  eexists _, _. split; [reflexivity|].
  split; [apply (store_zone_updates p w zo); [exact Hz | reflexivity..]|].
  cbn. repeat split. intros ->. reflexivity.
Qed.

Lemma zones_timers_update_spec (p : zone_ptr) (w : world) (zo : dnslib_zone_t) :
  zones w !! p = Some zo -> is_Some (zone_soa zo) ->
  exists w' zo',
    zones_timers_update p w = Some w' /\
    updates_zone_at p w w' zo zo' /\
    acl zo' = acl zo /\ master (xfr_in zo') = master (xfr_in zo).
Proof.
  intros Hz [rd Hsoa]. unfold zones_timers_update. rewrite Hz.
  bind_step.
  destruct (sa_ptr (master (xfr_in zo))) as [a|] eqn:Hm.
  - unfold zones_soa_refresh. rewrite (zones_soa_timer_eq zo rd) by exact Hsoa.
    bind_step; cbn [evsched_schedule_cb].
    eexists _, _. split; [reflexivity|]. split.
    + unfold updates_zone_at. cbn. rewrite lookup_insert_eq.
      repeat split; try assumption; try reflexivity.
      intros q Hq. apply lookup_insert_ne. congruence.
    + split; reflexivity.
  - exists w, zo. split; [reflexivity|]. split; [|split; reflexivity].
    unfold updates_zone_at. auto 10.
Qed.

(** A zone without master keeps the scheduler as it is. *)
Lemma zones_timers_update_no_master (p : zone_ptr) (w : world)
    (zo : dnslib_zone_t) :
  zones w !! p = Some zo -> sa_ptr (master (xfr_in zo)) = None ->
  zones_timers_update p w = Some w.
Proof.
  intros Hz Hm. unfold zones_timers_update. rewrite Hz. cbn. rewrite Hm.
  reflexivity.
Qed.

(** C1, amended: for every configured zone for which the reconciler
    obtained a zone object with apex SOA, the three ACLs xfr_out, notify_in
    and notify_out of the object are rebuilt from the corresponding
    configured lists by the ACL builder, and the timers are updated after
    that, on a store where the zone already carries them; the xfr_in ACL is
    left as it was. *)
Theorem zones_update_zone_acls (z : conf_zone_t) (zone_name : dnslib_dname_t)
    (db_old db_new : dnslib_zonedb_t) (inserted : Z) (w : world)
    (zone0 : option zone_ptr) (reload : bool) (p : zone_ptr) (inserted' : Z)
    (db_new' : dnslib_zonedb_t) (w1 : world) (zo : dnslib_zone_t) :
  zones_reload_decision E db_old zone_name z w = Some (zone0, reload) ->
  zones_obtain_zone E z zone_name zone0 reload db_new inserted w
    = Some (Some p, inserted', db_new', w1) ->
  zones w1 !! p = Some zo ->
  is_Some (zone_soa zo) ->
  exists wa wm w' za zm zf r1 r2 r3 f1 f2,
    zones_update_acls E p z w1 = Some wa /\
    zones_update_master E p z wa = Some wm /\
    zones_timers_update p wm = Some w' /\
    zones_insert_zone E z zone_name db_old db_new inserted w
      = Some (inserted', db_new', w') /\
    zones wa !! p = Some za /\ zones wm !! p = Some zm /\
    zones w' !! p = Some zf /\
    acl zm = acl za /\ acl zf = acl za /\
    zones_set_acl E (Some (acl_xfr_out (acl zo)))
        (Some (conf_xfr_out (conf_acl z))) (acl_new_fails w1)
      = (r1, Some (acl_xfr_out (acl za)), f1) /\
    zones_set_acl E (Some (acl_notify_in (acl zo)))
        (Some (conf_notify_in (conf_acl z))) f1
      = (r2, Some (acl_notify_in (acl za)), f2) /\
    zones_set_acl E (Some (acl_notify_out (acl zo)))
        (Some (conf_notify_out (conf_acl z))) f2
      = (r3, Some (acl_notify_out (acl za)), acl_new_fails wa) /\
    acl_xfr_in (acl za) = acl_xfr_in (acl zo) /\
    (acl_new_fails w1 = [] ->
       acl_xfr_out (acl zf) = Some (acl_of_remotes E (conf_xfr_out (conf_acl z))) /\
       acl_notify_in (acl zf) = Some (acl_of_remotes E (conf_notify_in (conf_acl z))) /\
       acl_notify_out (acl zf) = Some (acl_of_remotes E (conf_notify_out (conf_acl z)))).
Proof.
  intros Hdec Hobt Hz Hsoa.
  destruct (zones_update_acls_spec p z w1 zo Hz)
    as (wa & za & r1 & r2 & r3 & f1 & f2 & Hacls & Hua & _ & _ & _ & Hin & H1 & H2 & H3).
  destruct Hua as (_ & Hza & Haa & _).
  destruct (zones_update_master_spec p z wa za Hza)
    as (wm & zm & Hmaster & (_ & Hzm & Ham & _) & Hacl_m & _).
  assert (is_Some (zone_soa zm)) as Hsoa_m.
  { unfold zone_soa, dnslib_zone_apex in *. rewrite Ham, Haa. exact Hsoa. }
  destruct (zones_timers_update_spec p wm zm Hzm Hsoa_m)
    as (w' & zf & Htimers & (_ & Hzf & _) & Hacl_f & _).
  exists wa, wm, w', za, zm, zf, r1, r2, r3, f1, f2.
  split_and!; try assumption; try congruence.
  - unfold zones_insert_zone. rewrite Hdec. bind_step.
    rewrite Hobt. bind_step.
    unfold zones_update_zone. rewrite Hacls. bind_step.
    rewrite Hmaster. bind_step. rewrite Htimers. reflexivity.
  - intros Hnf. rewrite Hacl_f, Hacl_m. rewrite Hnf in H1.
    unfold zones_set_acl in H1, H2, H3. cbn in H1.
    injection H1 as _ Hxo <-. cbn in H2. injection H2 as _ Hni <-.
    cbn in H3. injection H3 as _ Hno _.
    rewrite <- Hxo, <- Hni, <- Hno. rewrite !acl_load_rules. auto.
Qed.

End Reconciler.

(** C1, as stated, fails: "example.com." is configured with one master in its
    xfr_in list and is freshly loaded; after the reconciler has processed it
    the xfr_in ACL of the zone is still null, since zones_set_acl is called
    for xfr_out, notify_in and notify_out only. *)
Lemma acls_all_rebuilt_as_stated_fails : ~ acls_all_rebuilt_as_stated.
Proof.
  intros H.
  destruct (H ext_demo conf_zone_master "example.com."%string ∅ ∅ 0 world_empty
              None true 1%positive 1 db_served world_served world_reconciled)
    as (zf & Hzf & Hacl);
    [reflexivity | reflexivity | vm_compute; reflexivity
    | vm_compute; reflexivity |].
  vm_compute in Hzf. injection Hzf as <-. discriminate Hacl.
Qed.

(** The first reconciliation of "example.com.": xfr_out is built, xfr_in
    stays null. *)
Lemma zones_update_zone_acls_witness :
  exists w' zf,
    zones_insert_zone ext_demo conf_zone_master "example.com." ∅ ∅ 0 world_empty
      = Some (1, db_served, w') /\
    zones w' !! 1%positive = Some zf /\
    acl_xfr_out (acl zf) = Some (acl_of_remotes ext_demo [remote_v4 "10.0.0.2"]) /\
    acl_xfr_in (acl zf) = None.
Proof.
  destruct (zones_update_zone_acls ext_demo conf_zone_master "example.com."%string
              ∅ ∅ 0 world_empty None true 1%positive 1 db_served world_served
              (dnslib_zone_set_version (zone_of_soa "example.com." soa_test) 1000))
    as (wa & wm & w' & za & zm & zf & r1 & r2 & r3 & f1 & f2 & _ & _ & _ & Hrun
        & _ & _ & Hzf & _ & Hacl & _ & _ & _ & Hin & Hok);
    [reflexivity | vm_compute; reflexivity | reflexivity
    | exists soa_test; reflexivity |].
  exists w', zf. split; [exact Hrun|]. split; [exact Hzf|].
  split; [apply Hok; reflexivity|].
  rewrite Hacl. exact Hin.
Defined.

Section ReconcilerLoop.

Context (E : externals).

Lemma zones_update_acls_extends (p : zone_ptr) (z : conf_zone_t) (w w' : world) :
  zones_update_acls E p z w = Some w' -> store_extends w w'.
Proof.
  intros H. destruct (zones w !! p) as [zo|] eqn:Hz.
  - destruct (zones_update_acls_spec E p z w zo Hz)
      as (wa & za & ? & ? & ? & ? & ? & Hrun & Hup & _).
    rewrite Hrun in H. injection H as <-.
    exact (updates_zone_at_extends p w wa zo za Hup).
  - unfold zones_update_acls in H. rewrite Hz in H. discriminate H.
Qed.

Lemma zones_update_master_extends (p : zone_ptr) (z : conf_zone_t) (w w' : world) :
  zones_update_master E p z w = Some w' -> store_extends w w'.
Proof.
  intros H. destruct (zones w !! p) as [zo|] eqn:Hz.
  - destruct (zones_update_master_spec E p z w zo Hz)
      as (wm & zm & Hrun & Hup & _).
    rewrite Hrun in H. injection H as <-.
    exact (updates_zone_at_extends p w wm zo zm Hup).
  - unfold zones_update_master in H. rewrite Hz in H. discriminate H.
Qed.

Lemma zones_timers_update_extends (p : zone_ptr) (w w' : world) :
  zones_timers_update p w = Some w' -> store_extends w w'.
Proof.
  unfold zones_timers_update. destruct (zones w !! p) as [zo|] eqn:Hz;
    bind_step; [|discriminate].
  destruct (sa_ptr (master (xfr_in zo))).
  - destruct (zones_soa_refresh zo) as [tmr|]; bind_step;
      [|discriminate].
    cbn [evsched_schedule_cb]. intros [= <-].
    eapply (updates_zone_at_extends p w _ zo).
    unfold updates_zone_at. cbn. rewrite lookup_insert_eq.
    split_and!; try reflexivity; try assumption.
    intros q Hq. apply lookup_insert_ne. congruence.
  - intros [= <-]. apply store_extends_refl.
Qed.

Lemma zones_update_zone_extends (p : zone_ptr) (z : conf_zone_t) (w w' : world) :
  zones_update_zone E p z w = Some w' -> store_extends w w'.
Proof.
  unfold zones_update_zone.
  destruct (zones_update_acls E p z w) as [wa|] eqn:Ha;
    bind_step; [|discriminate].
  destruct (zones_update_master E p z wa) as [wm|] eqn:Hm;
    bind_step; [|discriminate].
  intros Ht.
  eapply store_extends_trans; [eapply zones_update_acls_extends; eassumption|].
  eapply store_extends_trans; [eapply zones_update_master_extends; eassumption|].
  eapply zones_timers_update_extends; eassumption.
Qed.

Lemma dnslib_zonedb_add_zone_subseteq (zdb : dnslib_zonedb_t) (p : zone_ptr)
    (zo : dnslib_zone_t) :
  zdb ⊆ snd (dnslib_zonedb_add_zone zdb p zo).
Proof.
  unfold dnslib_zonedb_add_zone.
  destruct (zdb !! dnslib_node_owner (dnslib_zone_apex zo)) eqn:Hk; cbn.
  - reflexivity.
  - apply insert_subseteq. exact Hk.
Qed.

Lemma zones_load_zone_extends (zonedb : dnslib_zonedb_t) (zone_name source : string)
    (filename : option string) (w : world) :
  let '(_, zonedb', w') := zones_load_zone E zonedb zone_name source filename w in
  zonedb ⊆ zonedb' /\ store_extends w w'.
Proof.
  unfold zones_load_zone.
  destruct filename as [f|]; [|split; [reflexivity | apply store_extends_refl]].
  destruct (dnslib_zload_open E f) as [zl|];
    [|split; [reflexivity | apply store_extends_refl]].
  destruct (zl_zone zl) as [z0|];
    [|split; [reflexivity | apply store_extends_refl]].
  pose proof (dnslib_zonedb_add_zone_subseteq zonedb (zone_next w)
                (dnslib_zone_set_version z0 (stat_mtime E f))) as Hsub.
  destruct (dnslib_zonedb_add_zone _ _ _) as [ret zonedb'].
  destruct (ret =? 0); (split; [first [exact Hsub | reflexivity]|]).
  - split; cbn; [lia|]. intros q zq Hq Hzq. exists zq.
    rewrite lookup_insert_ne by lia. auto.
  - split; cbn; [lia|]. intros q zq Hq Hzq. exists zq.
    rewrite lookup_delete_ne, lookup_insert_ne by lia. auto.
Qed.

Lemma zones_obtain_zone_extends (z : conf_zone_t) (zone_name : dnslib_dname_t)
    (zone0 : option zone_ptr) (reload : bool) (db_new : dnslib_zonedb_t)
    (inserted : Z) (w : world) (zone : option zone_ptr) (inserted' : Z)
    (db_new' : dnslib_zonedb_t) (w' : world) :
  zones_obtain_zone E z zone_name zone0 reload db_new inserted w
    = Some (zone, inserted', db_new', w') ->
  db_new ⊆ db_new' /\ store_extends w w'.
Proof.
  unfold zones_obtain_zone. destruct reload.
  - pose proof (zones_load_zone_extends db_new (name z) (file z) (db z) w) as Hl.
    destruct (zones_load_zone E db_new (name z) (file z) (db z) w)
      as [[ret d1] w1].
    destruct (bool_decide (ret = KNOT_EOK)); intros [= <- <- <- <-]; exact Hl.
  - destruct zone0 as [p|]; bind_step; [|discriminate].
    destruct (zones w !! p) as [zo|]; bind_step; [|discriminate].
    pose proof (dnslib_zonedb_add_zone_subseteq db_new p zo) as Hsub.
    destruct (dnslib_zonedb_add_zone db_new p zo) as [ret d1].
    destruct (ret =? 0); intros [= <- <- <- <-];
      (split; [exact Hsub | apply store_extends_refl]).
Qed.

Lemma zones_insert_zone_extends (z : conf_zone_t) (zone_name : dnslib_dname_t)
    (db_old db_new : dnslib_zonedb_t) (inserted : Z) (w : world) (inserted' : Z)
    (db_new' : dnslib_zonedb_t) (w' : world) :
  zones_insert_zone E z zone_name db_old db_new inserted w
    = Some (inserted', db_new', w') ->
  db_new ⊆ db_new' /\ store_extends w w'.
Proof.
  unfold zones_insert_zone.
  destruct (zones_reload_decision E db_old zone_name z w) as [[zone0 reload]|];
    bind_step; [|discriminate].
  destruct (zones_obtain_zone E z zone_name zone0 reload db_new inserted w)
    as [[[[zone i1] d1] w1]|] eqn:Hobt; bind_step; [|discriminate].
  apply zones_obtain_zone_extends in Hobt as [Hsub Hext].
  destruct zone as [p|].
  - destruct (zones_update_zone E p z w1) as [w2|] eqn:Hup;
      bind_step; [|discriminate].
    intros [= <- <- <-]. split; [exact Hsub|].
    eapply store_extends_trans; [exact Hext|].
    eapply zones_update_zone_extends; eassumption.
  - intros [= <- <- <-]. auto.
Qed.

(** What the loop has put into the new database stays there, and the zone
    objects of the store stay in place, to the end of the loop. *)
Lemma zones_insert_zones_extends (zone_conf : list conf_zone_t)
    (db_old db_new : dnslib_zonedb_t) (inserted : Z) (w : world) (inserted' : Z)
    (db_new' : dnslib_zonedb_t) (w' : world) :
  zones_insert_zones E zone_conf db_old db_new inserted w
    = Some (inserted', db_new', w') ->
  db_new ⊆ db_new' /\ store_extends w w'.
Proof.
  revert db_new inserted w.
  induction zone_conf as [|z rest IH]; intros db_new inserted w; cbn.
  - intros [= <- <- <-]. split; [reflexivity | apply store_extends_refl].
  - destruct (dnslib_dname_new_from_str E (name z)) as [zone_name|].
    + destruct (zones_insert_zone E z zone_name db_old db_new inserted w)
        as [[[i1 d1] w1]|] eqn:Hone; bind_step; [|discriminate].
      intros Hrest. apply zones_insert_zone_extends in Hone as [Hs1 He1].
      apply IH in Hrest as [Hs2 He2]. split.
      * etransitivity; eassumption.
      * eapply store_extends_trans; eassumption.
    + intros [= <- <- <-]. split; [reflexivity | apply store_extends_refl].
Qed.

End ReconcilerLoop.

(** C5, as stated, fails: the empty name before it stops the loop, and
    "example.com.", in the old database and not stale, is not carried over to
    the new database. *)
Lemma carry_over_as_stated_fails : ~ carry_over_as_stated.
Proof.
  intros H.
  pose proof (H ext_demo conf_zones_bad_first db_served world_served 0 ∅
                world_served
                (conf_zone_plain "example.com." "/z/ex.zone" (Some "/z/ex.db"%string))
                "example.com."%string 1%positive
                (dnslib_zone_set_version (zone_of_soa "example.com." soa_test) 1000)
                eq_refl) as Hc.
  assert ((∅ : dnslib_zonedb_t) !! "example.com."%string = Some 1%positive) as Habs.
  { apply Hc; [right; left; reflexivity | reflexivity.. |].
    unfold zone_stale. cbn. lia. }
  discriminate Habs.
Qed.

(** The same failure without any name refused: the second entry for
    "example.com." is a carry-over, but the first entry has already put a
    freshly loaded object under the name, so the insertion of the old object
    fails and the new database keeps the fresh one. *)
Example carry_over_twice_run :
  (zones_insert_zones ext_demo conf_zones_twice db_served ∅ 0 world_served) ≫=
    (fun '(inserted, db_new, _) => Some (inserted, db_new !! "example.com."%string))
  = Some (1, Some 2%positive).
Proof. vm_compute. reflexivity. Qed.

Section CarryOver.

Context (E : externals).

Lemma zones_reload_decision_spec (db_old : dnslib_zonedb_t)
    (zone_name : dnslib_dname_t) (z : conf_zone_t) (w : world) :
  (forall p, db_old !! zone_name = Some p -> is_Some (zones w !! p)) ->
  exists reload,
    zones_reload_decision E db_old zone_name z w
      = Some (db_old !! zone_name, reload) /\
    (reload = true <->
       db_old !! zone_name = None \/
       exists p zo, db_old !! zone_name = Some p /\ zones w !! p = Some zo /\
                    zone_stale E z zo).
Proof.
  intros Hvalid. unfold zones_reload_decision, dnslib_zonedb_find_zone.
  destruct (db_old !! zone_name) as [p|] eqn:Hold.
  - destruct (Hvalid p eq_refl) as [zo Hzo]. rewrite Hzo. bind_step.
    eexists. split; [reflexivity|]. rewrite bool_decide_eq_true. split.
    + intros Hst. right. exists p, zo. auto.
    + intros [Hn | (p' & zo' & Hp' & Hzo' & Hst)]; [discriminate|].
      injection Hp' as <-. rewrite Hzo in Hzo'. injection Hzo' as <-. exact Hst.
  - exists true. split; [reflexivity|]. split; auto.
Qed.

Lemma zones_obtain_zone_carry_over (z : conf_zone_t) (zone_name : dnslib_dname_t)
    (p : zone_ptr) (zo : dnslib_zone_t) (db_new : dnslib_zonedb_t)
    (inserted : Z) (w : world) :
  zones w !! p = Some zo ->
  zones_obtain_zone E z zone_name (Some p) false db_new inserted w =
    match db_new !! owner (apex zo) with
    | Some _ => Some (Some p, inserted, db_new, w)
    | None => Some (Some p, inserted + 1, <[owner (apex zo) := p]> db_new, w)
    end.
Proof.
  intros Hzo. unfold zones_obtain_zone. bind_step.
  rewrite Hzo. bind_step.
  unfold dnslib_zonedb_add_zone, dnslib_node_owner, dnslib_zone_apex.
  destruct (db_new !! owner (apex zo)); reflexivity.
Qed.

(** C5, amended: when the loop reaches a configured zone z whose name
    converts, it marks z for reload exactly when the name is absent from the
    old database or the old zone's version is less than the mtime of z's
    source file.  Otherwise it hands the old object itself, by its pointer,
    to the insertion into the new database, allocating nothing; the
    insertion is refused when the new database already holds the name, and
    when it is not, the new database maps the name to the object of the old
    database, up to the end of the loop, the object still being in place. *)
Theorem zones_insert_zones_carry_over (z : conf_zone_t) (rest : list conf_zone_t)
    (zone_name : dnslib_dname_t) (db_old db_new : dnslib_zonedb_t)
    (inserted : Z) (w : world) :
  dnslib_dname_new_from_str E (name z) = Some zone_name ->
  (forall p, db_old !! zone_name = Some p -> is_Some (zones w !! p)) ->
  exists reload,
    zones_reload_decision E db_old zone_name z w
      = Some (db_old !! zone_name, reload) /\
    (reload = true <->
       db_old !! zone_name = None \/
       exists p zo, db_old !! zone_name = Some p /\ zones w !! p = Some zo /\
                    zone_stale E z zo) /\
    (reload = false ->
       exists p zo,
         db_old !! zone_name = Some p /\ zones w !! p = Some zo /\
         zones_obtain_zone E z zone_name (Some p) false db_new inserted w =
           match db_new !! owner (apex zo) with
           | Some _ => Some (Some p, inserted, db_new, w)
           | None => Some (Some p, inserted + 1, <[owner (apex zo) := p]> db_new, w)
           end /\
         (owner (apex zo) = zone_name -> db_new !! zone_name = None ->
          (p < zone_next w)%positive ->
          forall inserted' db_new' w',
            zones_insert_zones E (z :: rest) db_old db_new inserted w
              = Some (inserted', db_new', w') ->
            db_new' !! zone_name = Some p /\
            exists zo', zones w' !! p = Some zo' /\
                        apex zo' = apex zo /\ version zo' = version zo)).
Proof.
  intros Hconv Hvalid.
  destruct (zones_reload_decision_spec db_old zone_name z w Hvalid)
    as (reload & Hdec & Hiff).
  exists reload. split; [exact Hdec|]. split; [exact Hiff|].
  intros ->.
  destruct (db_old !! zone_name) as [p|] eqn:Hold;
    [|exfalso; assert (false = true) by (apply Hiff; auto); discriminate].
  destruct (Hvalid p eq_refl) as [zo Hzo].
  exists p, zo. split; [reflexivity|]. split; [exact Hzo|].
  pose proof (zones_obtain_zone_carry_over z zone_name p zo db_new inserted w Hzo)
    as Hobt.
  split; [exact Hobt|].
  intros Hname Hfree Hp inserted' db_new' w'.
  rewrite Hname, Hfree in Hobt.
  cbn [zones_insert_zones]. rewrite Hconv.
  unfold zones_insert_zone. rewrite Hdec. bind_step.
  rewrite Hobt. bind_step.
  destruct (zones_update_zone E p z w) as [w1|] eqn:Hup;
    bind_step; [|discriminate].
  intros Hrest.
  apply zones_update_zone_extends in Hup as Hext1.
  apply zones_insert_zones_extends in Hrest as [Hsub Hext2].
  split.
  - eapply lookup_weaken; [|exact Hsub]. apply lookup_insert_eq.
  - destruct (store_extends_trans _ _ _ Hext1 Hext2) as [_ Hkeep].
    exact (Hkeep p zo Hp Hzo).
Qed.

End CarryOver.

(** A reload of an unchanged "example.com.": the new database is the old
    one, pointer for pointer, and the object keeps version 1000. *)
Lemma zones_insert_zones_carry_over_witness :
  exists inserted' w',
    zones_insert_zones ext_demo [conf_zone_master] db_served ∅ 0 world_served
      = Some (inserted', db_served, w') /\
    exists zo', zones w' !! 1%positive = Some zo' /\ version zo' = 1000.
Proof.
  destruct (zones_insert_zones_carry_over ext_demo conf_zone_master []
              "example.com."%string db_served ∅ 0 world_served)
    as (reload & Hdec & _ & Hcarry).
  - reflexivity.
  - intros p Hp. vm_compute in Hp. injection Hp as <-. vm_compute. eauto.
  - vm_compute in Hdec. injection Hdec as <-.
    destruct (Hcarry eq_refl) as (p & zo & Hp & Hzo & _ & Hloop).
    vm_compute in Hp. injection Hp as <-.
    vm_compute in Hzo. injection Hzo as <-.
    destruct (zones_insert_zones ext_demo [conf_zone_master] db_served ∅ 0
                world_served) as [[[i' d'] w']|] eqn:Hrun;
      [|vm_compute in Hrun; discriminate Hrun].
    destruct (Hloop eq_refl eq_refl ltac:(reflexivity) i' d' w' eq_refl)
      as (Hd & zo' & Hzo' & _ & Hv).
    exists i', w'. split.
    + f_equal. f_equal. f_equal.
      vm_compute in Hrun. injection Hrun as _ <- _. reflexivity.
    + exists zo'. split; [exact Hzo' | exact Hv].
Defined.

(** ** Timers across reloads *)

Section TimersUpdate.

Context (p : zone_ptr) (w : world) (zo : dnslib_zone_t) (rd : dnslib_rdata_t).
Hypothesis Hz : zones w !! p = Some zo.
Hypothesis Hsoa : zone_soa zo = Some rd.
Hypothesis Hmaster : is_Some (sa_ptr (master (xfr_in zo))).
(** Scheduled events were handed out before [ev_next], and the EXPIRE
    reference of the zone is such an event and not a POLL event of it. *)
Hypothesis Hfresh :
  forall x, In x (ev_queue (sched w)) -> (fst x < ev_next (sched w))%positive.
Hypothesis Hexp :
  forall x, expire (xfr_in zo) = Some x ->
    (x < ev_next (sched w))%positive /\
    ev_records (sched w) !! x <> Some (mk_event CB_AXFRIN_POLL p).

Lemma live_polls_after_cancel (x : event_ptr) (q : list (event_ptr * Z)) :
  (x < ev_next (sched w))%positive ->
  ev_records (sched w) !! x <> Some (mk_event CB_AXFRIN_POLL p) ->
  (forall y, In y q -> (fst y < ev_next (sched w))%positive) ->
  List.filter
    (fun y => bool_decide
       (delete x (<[ev_next (sched w) := mk_event CB_AXFRIN_POLL p]>
                    (ev_records (sched w))) !! fst y
        = Some (mk_event CB_AXFRIN_POLL p)))
    (List.filter (fun y => negb (Pos.eqb (fst y) x)) q)
  = List.filter
      (fun y => bool_decide
         (ev_records (sched w) !! fst y = Some (mk_event CB_AXFRIN_POLL p))) q.
Proof.
  intros Hx Hnp. induction q as [|y q IH]; intros Hq; [reflexivity|].
  cbn [List.filter].
  assert (fst y < ev_next (sched w))%positive as Hy by (apply Hq; left; reflexivity).
  assert (forall y', In y' q -> (fst y' < ev_next (sched w))%positive) as Hq'
    by (intros y' Hin; apply Hq; right; exact Hin).
  destruct (Pos.eqb_spec (fst y) x) as [Heq|Hne]; cbn [negb].
  - rewrite Heq. rewrite bool_decide_eq_false_2 by exact Hnp. apply IH, Hq'.
  - cbn [List.filter].
    rewrite lookup_delete_ne, lookup_insert_ne by lia.
    rewrite (IH Hq'). reflexivity.
Qed.

Lemma live_polls_after_schedule (q : list (event_ptr * Z)) :
  (forall y, In y q -> (fst y < ev_next (sched w))%positive) ->
  List.filter
    (fun y => bool_decide
       (<[ev_next (sched w) := mk_event CB_AXFRIN_POLL p]> (ev_records (sched w))
          !! fst y = Some (mk_event CB_AXFRIN_POLL p))) q
  = List.filter
      (fun y => bool_decide
         (ev_records (sched w) !! fst y = Some (mk_event CB_AXFRIN_POLL p))) q.
Proof.
  intros Hq. apply filter_ext_in. intros y Hin.
  rewrite lookup_insert_ne; [reflexivity|]. specialize (Hq y Hin). lia.
Qed.

(** Whatever POLL events the zone has, zones_timers_update on a zone with a
    master leaves them all live and adds one. *)
Lemma zones_timers_update_adds_poll :
  exists w' refresh_tmr,
    zones_timers_update p w = Some w' /\
    zones_soa_refresh zo = Some refresh_tmr /\
    live_timers (sched w') CB_AXFRIN_POLL p =
      live_timers (sched w) CB_AXFRIN_POLL p
        ++ [(ev_next (sched w), refresh_tmr)].
Proof.
  destruct Hmaster as [a Ha].
  unfold zones_timers_update, zones_soa_refresh. rewrite Hz.
  bind_step. rewrite Ha.
  rewrite (zones_soa_timer_eq zo rd) by exact Hsoa.
  bind_step; cbn [evsched_schedule_cb].
  eexists _, _. split; [reflexivity|]. split; [reflexivity|].
  unfold live_timers, cancel_and_free.
  destruct (expire (xfr_in zo)) as [x|] eqn:Hx; cbn.
  - destruct (Hexp x eq_refl) as [Hlt Hnp].
    rewrite !List.filter_app. cbn [List.filter fst].
    replace (ev_next (sched w) =? x)%positive with false
      by (symmetry; apply Pos.eqb_neq; lia).
    cbn [negb List.filter fst].
    rewrite lookup_delete_ne, lookup_insert_eq by lia.
    rewrite bool_decide_eq_true_2 by reflexivity.
    rewrite (live_polls_after_cancel x _ Hlt Hnp Hfresh). reflexivity.
  - rewrite List.filter_app. cbn [List.filter fst].
    rewrite lookup_insert_eq. rewrite bool_decide_eq_true_2 by reflexivity.
    rewrite (live_polls_after_schedule _ Hfresh). reflexivity.
Qed.

End TimersUpdate.

(** On the reconciled "example.com.", whose POLL event 1 is live, a timer
    update leaves events 1 and 2 live. *)
Example zones_timers_update_adds_poll_run :
  exists w',
    zones_timers_update 1%positive world_reconciled = Some w' /\
    live_timers (sched w') CB_AXFRIN_POLL 1%positive
      = [(1%positive, 86400000); (2%positive, 86400000)].
Proof.
  destruct (zones_timers_update_adds_poll 1%positive world_reconciled
              zone_reconciled soa_test)
    as (w' & tmr & Hrun & Htmr & Hlive).
  - reflexivity.
  - reflexivity.
  - eexists. reflexivity.
  - intros x [<- | []]. reflexivity.
  - intros x Hx. discriminate Hx.
  - exists w'. split; [exact Hrun|]. rewrite Hlive.
    injection Htmr as <-. reflexivity.
Qed.


(** What a server shows for "example.com.": the published zone object, the
    live POLL and EXPIRE timers of zone object 1 and whether its master is
    set. *)
Example reload_once_run :
  reload ext_demo conf_master server_start ≫=
    (fun srv => Some (published srv "example.com.",
                      live_timers (sched (snd srv)) CB_AXFRIN_POLL 1%positive,
                      live_timers (sched (snd srv)) CB_AXFRIN_EXPIRE 1%positive))
  = Some (Some 1%positive, [(1%positive, 86400000)], []).
Proof. vm_compute. reflexivity. Qed.

(** C2, at the failing input: "example.com." is loaded with a master, which
    arms POLL event 1, and the same configuration is reloaded; the zone
    object is carried over, zones_timers_update arms POLL event 2 without
    cancelling event 1, and two POLL events are live for the one zone. *)
Lemma reload_twice_two_polls :
  (reload ext_demo conf_master server_start ≫= reload ext_demo conf_master) ≫=
    (fun srv => Some (published srv "example.com.",
                      live_timers (sched (snd srv)) CB_AXFRIN_POLL 1%positive,
                      timer <$> (xfr_in <$> zones (snd srv) !! 1%positive)))
  = Some (Some 1%positive,
          [(1%positive, 86400000); (2%positive, 86400000)],
          Some (Some 2%positive)).
Proof. vm_compute. reflexivity. Qed.

(** C3, at the failing input: "example.com." is loaded with a master, its
    POLL event fires once, which arms EXPIRE event 2, and the configuration
    is reloaded with an empty xfr_in list; the zone object is carried over,
    its master is unset, zones_timers_update returns at once, and the POLL
    and the EXPIRE event are both still live. *)
Lemma reload_without_master_keeps_timers :
  ((reload ext_demo conf_master server_start ≫= fire ext_demo 1%positive)
     ≫= reload ext_demo conf_no_master) ≫=
    (fun srv => Some (published srv "example.com.",
                      sa_ptr <$> (master <$> (xfr_in <$> zones (snd srv) !! 1%positive)),
                      live_timers (sched (snd srv)) CB_AXFRIN_POLL 1%positive,
                      live_timers (sched (snd srv)) CB_AXFRIN_EXPIRE 1%positive))
  = Some (Some 1%positive, Some None,
          [(1%positive, 7200000)], [(2%positive, 691200000)]).
Proof. vm_compute. reflexivity. Qed.
(** * Further properties of zones.c *)

(** ** AXFR-IN expire event handler *)

Section Expire.

Context (e : event_ptr) (w : world) (ev : event_t) (z : dnslib_zone_t).
Hypothesis Hev : ev_records (sched w) !! e = Some ev.
Hypothesis Hz : zones w !! data ev = Some z.

(** X1: the EXPIRE handler returns 0 and leaves the zone without timers:
    both timer references are null and [next_id] is -1, the record of the
    fired event and the record of the POLL event the zone referred to are
    released, and that POLL event is off the queue; master, interfaces,
    apex, version and ACLs of the zone, the other zones, the other event
    records and the other queue entries are as before. *)
Theorem zones_axfrin_expire_effect :
  exists w' z',
    zones_axfrin_expire e w = Some (0, w') /\
    zones w' !! data ev = Some z' /\
    timer (xfr_in z') = None /\ expire (xfr_in z') = None /\
    next_id (xfr_in z') = -1 /\
    master (xfr_in z') = master (xfr_in z) /\
    ifaces (xfr_in z') = ifaces (xfr_in z) /\
    apex z' = apex z /\ version z' = version z /\ acl z' = acl z /\
    (forall q, q <> data ev -> zones w' !! q = zones w !! q) /\
    ev_records (sched w') !! e = None /\
    (forall t, timer (xfr_in z) = Some t ->
       ev_records (sched w') !! t = None /\
       forall x, In x (ev_queue (sched w')) -> fst x <> t) /\
    (forall e', e' <> e -> timer (xfr_in z) <> Some e' ->
       ev_records (sched w') !! e' = ev_records (sched w) !! e') /\
    (forall x, timer (xfr_in z) <> Some (fst x) ->
       In x (ev_queue (sched w')) <-> In x (ev_queue (sched w))) /\
    (forall x, In x (ev_queue (sched w')) -> In x (ev_queue (sched w))).
Proof.
  unfold zones_axfrin_expire. rewrite Hev. bind_step. rewrite Hz. bind_step.
  eexists _, _. split; [reflexivity|]. cbn.
  rewrite lookup_insert_eq. split; [reflexivity|].
  split_and!; try reflexivity.
  - intros q Hq. apply lookup_insert_ne. congruence.
  - apply lookup_delete_eq.
  - intros t ->. cbn. split.
    + destruct (decide (e = t)) as [->|Hne].
      * apply lookup_delete_eq.
      * rewrite lookup_delete_ne, lookup_delete_eq by congruence. reflexivity.
    + intros x Hin. apply filter_In in Hin as [_ Hx].
      apply negb_true_iff, Pos.eqb_neq in Hx. exact Hx.
  - intros e' He' Ht. rewrite lookup_delete_ne by congruence.
    destruct (timer (xfr_in z)) as [t|]; cbn; [|reflexivity].
    apply lookup_delete_ne. congruence.
  - intros x Ht. destruct (timer (xfr_in z)) as [t|]; cbn; [|reflexivity].
    rewrite filter_In. split; [tauto|]. intros Hin. split; [exact Hin|].
    apply negb_true_iff, Pos.eqb_neq. congruence.
  - intros x. destruct (timer (xfr_in z)) as [t|]; cbn; [|tauto].
    rewrite filter_In. tauto.
Qed.

End Expire.

(** The EXPIRE event 2 of "example.com." fires after it was taken off the
    queue: the queue is empty afterwards and no event record is left. *)
Lemma zones_axfrin_expire_effect_witness :
  exists w' z',
    zones_axfrin_expire 2%positive
      (set_sched world_poll_retry
         {| ev_records := ev_records (sched world_poll_retry);
            ev_queue := [(1%positive, 7200000)]; ev_next := 3%positive |})
      = Some (0, w') /\
    zones w' !! 1%positive = Some z' /\
    next_id (xfr_in z') = -1 /\
    ev_queue (sched w') = [] /\
    ev_records (sched w') = ∅.
Proof.
  destruct (zones_axfrin_expire_effect 2%positive
              (set_sched world_poll_retry
                 {| ev_records := ev_records (sched world_poll_retry);
                    ev_queue := [(1%positive, 7200000)]; ev_next := 3%positive |})
              (mk_event CB_AXFRIN_EXPIRE 1%positive)
              (zone_polling (Some 2%positive) 4660))
    as (w' & z' & Hrun & Hz' & _ & _ & Hid & _);
    [reflexivity | reflexivity |].
  exists w', z'. split; [exact Hrun|]. split; [exact Hz'|]. split; [exact Hid|].
  vm_compute in Hrun. injection Hrun as <-. split; reflexivity.
Defined.

(** ** Timer update *)

Section TimersUpdateEffect.

Context (p : zone_ptr) (w : world) (zo : dnslib_zone_t) (rd : dnslib_rdata_t).
Hypothesis Hz : zones w !! p = Some zo.
Hypothesis Hsoa : zone_soa zo = Some rd.
Hypothesis Hmaster : is_Some (sa_ptr (master (xfr_in zo))).
Hypothesis Hexp : expire (xfr_in zo) <> Some (ev_next (sched w)).

(** X2: on a zone with a master, zones_timers_update arms a new POLL event
    for REFRESH-from-SOA milliseconds, makes it the zone's timer and clears
    the zone's EXPIRE reference; the EXPIRE event the zone referred to is off
    the queue and its record is released.  Every other entry stays on the
    queue, and master, interfaces and next_id of the zone are as before. *)
Theorem zones_timers_update_effect :
  exists w' zo' refresh_tmr,
    zones_timers_update p w = Some w' /\
    zones w' !! p = Some zo' /\
    zones_soa_refresh zo = Some refresh_tmr /\
    timer (xfr_in zo') = Some (ev_next (sched w)) /\
    expire (xfr_in zo') = None /\
    next_id (xfr_in zo') = next_id (xfr_in zo) /\
    master (xfr_in zo') = master (xfr_in zo) /\
    ifaces (xfr_in zo') = ifaces (xfr_in zo) /\
    ev_records (sched w') !! ev_next (sched w)
      = Some (mk_event CB_AXFRIN_POLL p) /\
    In (ev_next (sched w), refresh_tmr) (ev_queue (sched w')) /\
    (forall x, expire (xfr_in zo) = Some x ->
       ev_records (sched w') !! x = None /\
       forall y, In y (ev_queue (sched w')) -> fst y <> x) /\
    (forall y, In y (ev_queue (sched w)) -> expire (xfr_in zo) <> Some (fst y) ->
       In y (ev_queue (sched w'))).
Proof.
  destruct Hmaster as [a Ha].
  unfold zones_timers_update, zones_soa_refresh. rewrite Hz. bind_step.
  rewrite Ha. rewrite (zones_soa_timer_eq zo rd) by exact Hsoa.
  bind_step; cbn [evsched_schedule_cb].
  eexists _, _, _. split; [reflexivity|]. cbn.
  rewrite lookup_insert_eq. split; [reflexivity|]. split; [reflexivity|].
  split_and!; try reflexivity.
  - destruct (expire (xfr_in zo)) as [x|]; cbn.
    + rewrite lookup_delete_ne by congruence. apply lookup_insert_eq.
    + apply lookup_insert_eq.
  - destruct (expire (xfr_in zo)) as [x|]; cbn.
    + apply filter_In. split; [apply in_or_app; right; left; reflexivity|].
      apply negb_true_iff, Pos.eqb_neq. cbn. congruence.
    + apply in_or_app. right. left. reflexivity.
  - intros x ->. cbn. split; [apply lookup_delete_eq|].
    intros y Hin. apply filter_In in Hin as [_ Hy].
    apply negb_true_iff, Pos.eqb_neq in Hy. exact Hy.
  - intros y Hin Hy. destruct (expire (xfr_in zo)) as [x|]; cbn.
    + apply filter_In. split; [apply in_or_app; left; exact Hin|].
      apply negb_true_iff, Pos.eqb_neq. congruence.
    + apply in_or_app. left. exact Hin.
Qed.

End TimersUpdateEffect.

(** A timer update on "example.com." in its retry chain: EXPIRE event 2 is
    cancelled and released, POLL event 3 is armed for 86400000 ms. *)
Lemma zones_timers_update_effect_witness :
  exists w' zo',
    zones_timers_update 1%positive world_poll_retry = Some w' /\
    zones w' !! 1%positive = Some zo' /\
    expire (xfr_in zo') = None /\
    ev_queue (sched w') = [(3%positive, 86400000)] /\
    ev_records (sched w') !! 2%positive = None.
Proof.
  destruct (zones_timers_update_effect 1%positive world_poll_retry
              (zone_polling (Some 2%positive) 4660) soa_test)
    as (w' & zo' & tmr & Hrun & Hzo' & _ & _ & Hexp & _ & _ & _ & _ & _ & Hold & _);
    [reflexivity | reflexivity | eexists; reflexivity | discriminate |].
  exists w', zo'. split; [exact Hrun|]. split; [exact Hzo'|].
  split; [exact Hexp|]. split.
  - vm_compute in Hrun. injection Hrun as <-. reflexivity.
  - apply (Hold 2%positive). reflexivity.
Defined.

(** ** Reconciler loop *)

Section ReconcilerMore.

Context (E : externals).

Lemma db_wf_extends (w w' : world) (zdb : dnslib_zonedb_t) :
  store_extends w w' -> db_wf w zdb -> db_wf w' zdb.
Proof.
  intros [Hn Hkeep] Hwf k p Hk.
  destruct (Hwf k p Hk) as (Hp & z & Hz & Ho).
  destruct (Hkeep p z Hp Hz) as (z' & Hz' & Ha & _).
  split; [lia|]. exists z'. split; [exact Hz'|].
  unfold dnslib_node_owner, dnslib_zone_apex in *. rewrite Ha. exact Ho.
Qed.

Lemma zones_load_zone_wf (zonedb : dnslib_zonedb_t) (zone_name source : string)
    (filename : option string) (w : world) :
  db_wf w zonedb ->
  let '(_, zonedb', w') := zones_load_zone E zonedb zone_name source filename w in
  db_wf w' zonedb'.
Proof.
  intros Hwf. unfold zones_load_zone.
  destruct filename as [f|]; [|exact Hwf].
  destruct (dnslib_zload_open E f) as [zl|]; [|exact Hwf].
  destruct (zl_zone zl) as [z0|]; [|exact Hwf].
  unfold dnslib_zonedb_add_zone.
  destruct (zonedb !! _) as [q|] eqn:Hkey; cbn -[dnslib_zone_set_version].
  - intros k p Hk. destruct (Hwf k p Hk) as (Hp & z & Hz & Ho).
    cbn -[dnslib_zone_set_version].
    split; [lia|]. exists z. split; [|exact Ho].
    rewrite lookup_delete_ne, lookup_insert_ne by lia. exact Hz.
  - intros k p Hk. cbn -[dnslib_zone_set_version].
    apply lookup_insert_Some in Hk as [[<- <-] | [Hne Hk]].
    + split; [lia|]. eexists. split; [apply lookup_insert_eq | reflexivity].
    + destruct (Hwf k p Hk) as (Hp & z & Hz & Ho).
      split; [lia|]. exists z. split; [|exact Ho].
      rewrite lookup_insert_ne by lia. exact Hz.
Qed.

Lemma zones_obtain_zone_wf (z : conf_zone_t) (zone_name : dnslib_dname_t)
    (db_old : dnslib_zonedb_t) (reload : bool) (db_new : dnslib_zonedb_t)
    (inserted : Z) (w : world) (zone : option zone_ptr) (inserted' : Z)
    (db_new' : dnslib_zonedb_t) (w' : world) :
  db_wf w db_old -> db_wf w db_new ->
  zones_obtain_zone E z zone_name (db_old !! zone_name) reload db_new inserted w
    = Some (zone, inserted', db_new', w') ->
  db_wf w' db_new' /\ inserted <= inserted' <= inserted + 1.
Proof.
  intros Hold Hnew. unfold zones_obtain_zone. destruct reload.
  - pose proof (zones_load_zone_wf db_new (name z) (file z) (db z) w Hnew) as Hl.
    destruct (zones_load_zone E db_new (name z) (file z) (db z) w)
      as [[ret d1] w1].
    destruct (bool_decide (ret = KNOT_EOK)); intros [= <- <- <- <-];
      (split; [exact Hl | lia]).
  - destruct (db_old !! zone_name) as [p|] eqn:Hp; bind_step; [|discriminate].
    destruct (Hold zone_name p Hp) as (Hlt & zo' & Hzo' & Ho).
    rewrite Hzo'. bind_step. unfold dnslib_zonedb_add_zone.
    destruct (db_new !! _) as [q|] eqn:Hkey; cbn; intros [= <- <- <- <-].
    + split; [exact Hnew | lia].
    + split; [|lia]. intros k p' Hk.
      apply lookup_insert_Some in Hk as [[<- <-] | [Hne Hk]].
      * split; [exact Hlt|]. exists zo'. auto.
      * exact (Hnew k p' Hk).
Qed.

Lemma zones_reload_decision_zone (db_old : dnslib_zonedb_t)
    (zone_name : dnslib_dname_t) (z : conf_zone_t) (w : world)
    (zone0 : option zone_ptr) (reload : bool) :
  zones_reload_decision E db_old zone_name z w = Some (zone0, reload) ->
  zone0 = db_old !! zone_name.
Proof.
  unfold zones_reload_decision, dnslib_zonedb_find_zone.
  destruct (db_old !! zone_name) as [p|].
  - destruct (zones w !! p); bind_step; [|discriminate]. intros [= <- _]. reflexivity.
  - intros [= <- _]. reflexivity.
Qed.

Lemma zones_insert_zone_wf (z : conf_zone_t) (zone_name : dnslib_dname_t)
    (db_old db_new : dnslib_zonedb_t) (inserted : Z) (w : world) (inserted' : Z)
    (db_new' : dnslib_zonedb_t) (w' : world) :
  db_wf w db_old -> db_wf w db_new ->
  zones_insert_zone E z zone_name db_old db_new inserted w
    = Some (inserted', db_new', w') ->
  db_wf w' db_old /\ db_wf w' db_new' /\ inserted <= inserted' <= inserted + 1.
Proof.
  intros Hold Hnew Hrun.
  pose proof (zones_insert_zone_extends E _ _ _ _ _ _ _ _ _ Hrun) as [_ Hext].
  split; [exact (db_wf_extends _ _ _ Hext Hold)|].
  revert Hrun. unfold zones_insert_zone.
  destruct (zones_reload_decision E db_old zone_name z w) as [[zone0 reload]|] eqn:Hdec;
    bind_step; [|discriminate].
  apply zones_reload_decision_zone in Hdec as ->.
  destruct (zones_obtain_zone E z zone_name (db_old !! zone_name) reload db_new
              inserted w) as [[[[zone i1] d1] w1]|] eqn:Hobt; bind_step;
    [|discriminate].
  apply zones_obtain_zone_wf in Hobt as [Hwf1 Hi]; [|assumption..].
  destruct zone as [p|].
  - destruct (zones_update_zone E p z w1) as [w2|] eqn:Hup; bind_step;
      [|discriminate].
    intros [= <- <- <-]. split; [|exact Hi].
    apply zones_update_zone_extends in Hup.
    exact (db_wf_extends _ _ _ Hup Hwf1).
  - intros [= <- <- <-]. auto.
Qed.

Lemma zones_insert_zones_wf (zone_conf : list conf_zone_t)
    (db_old db_new : dnslib_zonedb_t) (inserted : Z) (w : world) (inserted' : Z)
    (db_new' : dnslib_zonedb_t) (w' : world) :
  db_wf w db_old -> db_wf w db_new ->
  zones_insert_zones E zone_conf db_old db_new inserted w
    = Some (inserted', db_new', w') ->
  db_wf w' db_old /\ db_wf w' db_new' /\
  inserted <= inserted' <= inserted + Z.of_nat (length zone_conf).
Proof.
  revert db_new inserted w.
  induction zone_conf as [|z rest IH]; intros db_new inserted w Hold Hnew;
    cbn [zones_insert_zones length].
  - intros [= <- <- <-]. split_and!; [assumption.. | lia | lia].
  - destruct (dnslib_dname_new_from_str E (name z)) as [zone_name|].
    + destruct (zones_insert_zone E z zone_name db_old db_new inserted w)
        as [[[i1 d1] w1]|] eqn:Hone; bind_step; [|discriminate].
      intros Hrest.
      apply zones_insert_zone_wf in Hone as (Hold1 & Hnew1 & Hi1); [|assumption..].
      apply IH in Hrest as (Hold2 & Hnew2 & Hi2); [|assumption..].
      split_and!; [assumption.. | lia | lia].
    + intros [= <- <- <-]. split_and!; [assumption.. | lia | lia].
Qed.

Lemma dnslib_zonedb_add_zone_size (zdb : dnslib_zonedb_t) (p : zone_ptr)
    (zo : dnslib_zone_t) :
  let '(ret, zdb') := dnslib_zonedb_add_zone zdb p zo in
  Z.of_nat (size zdb') = Z.of_nat (size zdb) + (if ret =? 0 then 1 else 0).
Proof.
  unfold dnslib_zonedb_add_zone.
  destruct (zdb !! _) as [q|] eqn:Hkey; cbn.
  - lia.
  - rewrite map_size_insert_None by exact Hkey. lia.
Qed.

Lemma zones_obtain_zone_size (z : conf_zone_t) (zone_name : dnslib_dname_t)
    (zone0 : option zone_ptr) (reload : bool) (db_new : dnslib_zonedb_t)
    (inserted : Z) (w : world) (zone : option zone_ptr) (inserted' : Z)
    (db_new' : dnslib_zonedb_t) (w' : world) :
  zones_obtain_zone E z zone_name zone0 reload db_new inserted w
    = Some (zone, inserted', db_new', w') ->
  inserted' - inserted = Z.of_nat (size db_new') - Z.of_nat (size db_new) /\
  inserted <= inserted' <= inserted + 1.
Proof.
  unfold zones_obtain_zone. destruct reload.
  - unfold zones_load_zone.
    destruct (db z) as [f|]; [|intros [= <- <- <- <-]; lia].
    destruct (dnslib_zload_open E f) as [zl|]; [|intros [= <- <- <- <-]; lia].
    destruct (zl_zone zl) as [z0|]; [|intros [= <- <- <- <-]; lia].
    pose proof (dnslib_zonedb_add_zone_size db_new (zone_next w)
                  (dnslib_zone_set_version z0 (stat_mtime E f))) as Hs.
    destruct (dnslib_zonedb_add_zone _ _ _) as [ret d1].
    destruct (ret =? 0); cbn; intros [= <- <- <- <-]; lia.
  - destruct zone0 as [p|]; bind_step; [|discriminate].
    destruct (zones w !! p) as [zo|]; bind_step; [|discriminate].
    pose proof (dnslib_zonedb_add_zone_size db_new p zo) as Hs.
    destruct (dnslib_zonedb_add_zone db_new p zo) as [ret d1].
    destruct (ret =? 0); intros [= <- <- <- <-]; lia.
Qed.

(** X3: the number zones_insert_zones returns grows by exactly the number of
    names the loop has added to the new database; it never exceeds the number
    of configured zones. *)
Theorem zones_insert_zones_count (zone_conf : list conf_zone_t)
    (db_old db_new : dnslib_zonedb_t) (inserted : Z) (w : world) (inserted' : Z)
    (db_new' : dnslib_zonedb_t) (w' : world) :
  zones_insert_zones E zone_conf db_old db_new inserted w
    = Some (inserted', db_new', w') ->
  inserted' - inserted = Z.of_nat (size db_new') - Z.of_nat (size db_new) /\
  inserted <= inserted' <= inserted + Z.of_nat (length zone_conf).
Proof.
  revert db_new inserted w.
  induction zone_conf as [|z rest IH]; intros db_new inserted w;
    cbn [zones_insert_zones length].
  - intros [= <- <- <-]. lia.
  - destruct (dnslib_dname_new_from_str E (name z)) as [zone_name|];
      [|intros [= <- <- <-]; lia].
    unfold zones_insert_zone.
    destruct (zones_reload_decision E db_old zone_name z w) as [[zone0 reload]|];
      bind_step; [|discriminate].
    destruct (zones_obtain_zone E z zone_name zone0 reload db_new inserted w)
      as [[[[zone i1] d1] w1]|] eqn:Hobt; bind_step; [|discriminate].
    apply zones_obtain_zone_size in Hobt as [Hs Hone].
    destruct zone as [p|].
    + destruct (zones_update_zone E p z w1) as [w2|]; bind_step; [|discriminate].
      intros Hrest. apply IH in Hrest. lia.
    + bind_step. intros Hrest. apply IH in Hrest. lia.
Qed.

(** X4: a configured name that does not convert ends the walk of the
    reconciler and of the pruning alike: the entries after it are ignored,
    and the pruning reports ERROR. *)
Theorem zones_walks_stop_at_bad_name (pre rest : list conf_zone_t)
    (z : conf_zone_t) (db_old db_new : dnslib_zonedb_t) (inserted : Z)
    (w : world) :
  dnslib_dname_new_from_str E (name z) = None ->
  zones_insert_zones E (pre ++ z :: rest) db_old db_new inserted w
    = zones_insert_zones E pre db_old db_new inserted w /\
  zones_remove_zones E (pre ++ z :: rest) db_old
    = (KNOT_ERROR, snd (zones_remove_zones E pre db_old)).
Proof.
  intros Hbad. split.
  - revert db_new inserted w. induction pre as [|y pre IH]; intros db_new inserted w;
      cbn [app zones_insert_zones].
    + rewrite Hbad. reflexivity.
    + destruct (dnslib_dname_new_from_str E (name y)) as [k|]; [|reflexivity].
      destruct (zones_insert_zone E y k db_old db_new inserted w)
        as [[[i1 d1] w1]|]; bind_step; [apply IH | reflexivity].
  - revert db_old. induction pre as [|y pre IH]; intros db_old;
      cbn [app zones_remove_zones].
    + rewrite Hbad. reflexivity.
    + destruct (dnslib_dname_new_from_str E (name y)) as [k|]; [apply IH | reflexivity].
Qed.

End ReconcilerMore.

Section ReconcilerBranches.

Context (E : externals).

Lemma updates_zone_at_trans (p : zone_ptr) (w w1 w2 : world)
    (zo z1 z2 : dnslib_zone_t) :
  updates_zone_at p w w1 zo z1 -> updates_zone_at p w1 w2 z1 z2 ->
  updates_zone_at p w w2 zo z2.
Proof.
  intros (Hz & Hz1 & Ha1 & Hv1 & Hf1 & Hn1) (_ & Hz2 & Ha2 & Hv2 & Hf2 & Hn2).
  unfold updates_zone_at. split_and!; try congruence.
  intros q Hq. rewrite Hf2, Hf1 by exact Hq. reflexivity.
Qed.

(** The block under [if (zone)] returns on a zone with apex SOA, and only
    changes the object of that zone. *)
Lemma zones_update_zone_total (p : zone_ptr) (z : conf_zone_t) (w : world)
    (zo : dnslib_zone_t) :
  zones w !! p = Some zo -> is_Some (zone_soa zo) ->
  exists w' zf,
    zones_update_zone E p z w = Some w' /\ updates_zone_at p w w' zo zf.
Proof.
  intros Hz Hsoa.
  destruct (zones_update_acls_spec E p z w zo Hz)
    as (wa & za & ? & ? & ? & ? & ? & Hacls & Hua & _).
  pose proof Hua as (_ & Hza & Haa & _).
  destruct (zones_update_master_spec E p z wa za Hza)
    as (wm & zm & Hmaster & Hum & _).
  pose proof Hum as (_ & Hzm & Ham & _).
  assert (is_Some (zone_soa zm)) as Hsoa_m.
  { unfold zone_soa, dnslib_zone_apex in *. rewrite Ham, Haa. exact Hsoa. }
  destruct (zones_timers_update_spec p wm zm Hzm Hsoa_m)
    as (w' & zf & Htimers & Hut & _).
  exists w', zf. split.
  - unfold zones_update_zone. rewrite Hacls. bind_step. rewrite Hmaster.
    bind_step. exact Htimers.
  - eapply updates_zone_at_trans; [|exact Hut].
    eapply updates_zone_at_trans; eassumption.
Qed.

(** X5: when the loop reaches a configured zone marked for reload whose
    compiled file opens and decodes to a zone with apex SOA that bears the
    configured name, not yet in the new database, the iteration counts one
    more zone and publishes a new object under the name, with the version
    stamped from the compiled file's mtime; the objects already in the store
    are not touched by the load, and the entry and the object's version
    last to the end of the loop. *)
Theorem zones_insert_zones_reload (z : conf_zone_t) (rest : list conf_zone_t)
    (zone_name : dnslib_dname_t) (db_old db_new : dnslib_zonedb_t)
    (inserted : Z) (w : world) (zone0 : option zone_ptr) (f : string)
    (zl : zloader_t) (z0 : dnslib_zone_t) :
  dnslib_dname_new_from_str E (name z) = Some zone_name ->
  zones_reload_decision E db_old zone_name z w = Some (zone0, true) ->
  db z = Some f ->
  dnslib_zload_open E f = Some zl ->
  zl_zone zl = Some z0 ->
  dnslib_node_owner (dnslib_zone_apex z0) = zone_name ->
  db_new !! zone_name = None ->
  is_Some (zone_soa z0) ->
  exists w1 zf,
    zones_insert_zone E z zone_name db_old db_new inserted w
      = Some (inserted + 1, <[zone_name := zone_next w]> db_new, w1) /\
    zones w1 !! zone_next w = Some zf /\
    version zf = stat_mtime E f /\ apex zf = apex z0 /\
    zone_next w1 = Pos.succ (zone_next w) /\
    (forall q, q <> zone_next w -> zones w1 !! q = zones w !! q) /\
    (forall inserted' db_new' w',
       zones_insert_zones E (z :: rest) db_old db_new inserted w
         = Some (inserted', db_new', w') ->
       db_new' !! zone_name = Some (zone_next w) /\
       exists zf', zones w' !! zone_next w = Some zf' /\
                   version zf' = stat_mtime E f /\ apex zf' = apex z0).
Proof.
  intros Hconv Hdec Hdb Hopen Hload Hname Hfree Hsoa.
  set (zv := dnslib_zone_set_version z0 (stat_mtime E f)).
  set (wl := {| zones := <[zone_next w := zv]> (zones w);
                zone_next := Pos.succ (zone_next w);
                sched := sched w; srv_ifaces := srv_ifaces w;
                acl_new_fails := acl_new_fails w |}).
  assert (zones_obtain_zone E z zone_name zone0 true db_new inserted w
          = Some (Some (zone_next w), inserted + 1,
                  <[zone_name := zone_next w]> db_new, wl)) as Hobt.
  { unfold zones_obtain_zone, zones_load_zone. rewrite Hdb, Hopen, Hload.
    unfold dnslib_zonedb_add_zone.
    change (dnslib_zone_apex (dnslib_zone_set_version z0 (stat_mtime E f)))
      with (dnslib_zone_apex z0).
    rewrite Hname, Hfree. cbn -[dnslib_zone_set_version].
    unfold dnslib_zonedb_find_zone. rewrite lookup_insert_eq. reflexivity. }
  destruct (zones_update_zone_total (zone_next w) z wl zv)
    as (w1 & zf & Hup & Hat); [apply lookup_insert_eq | exact Hsoa |].
  destruct Hat as (_ & Hzf & Ha & Hv & Hframe & Hn).
  assert (zones_insert_zone E z zone_name db_old db_new inserted w
          = Some (inserted + 1, <[zone_name := zone_next w]> db_new, w1)) as Hone.
  { unfold zones_insert_zone. rewrite Hdec. bind_step. rewrite Hobt. bind_step.
    rewrite Hup. reflexivity. }
  exists w1, zf. split_and!; try assumption.
  - intros q Hq. rewrite Hframe by exact Hq. apply lookup_insert_ne. congruence.
  - intros inserted' db_new' w'. cbn [zones_insert_zones]. rewrite Hconv, Hone.
    bind_step. intros Hrest.
    apply zones_insert_zones_extends in Hrest as [Hsub [_ Hkeep]]. split.
    + eapply lookup_weaken; [|exact Hsub]. apply lookup_insert_eq.
    + destruct (Hkeep (zone_next w) zf) as (zf' & Hzf' & Ha' & Hv');
        [rewrite Hn; cbn; lia | exact Hzf |].
      exists zf'. split; [exact Hzf'|].
      rewrite Hv', Hv, Ha', Ha. split; reflexivity.
Qed.

End ReconcilerBranches.

(** The first load of "example.com.": object 1 is published with version
    1000, the mtime of "/z/ex.db". *)
Lemma zones_insert_zones_reload_witness :
  exists w1 zf,
    zones_insert_zone ext_demo conf_zone_master "example.com." ∅ ∅ 0 world_empty
      = Some (1, db_served, w1) /\
    zones w1 !! 1%positive = Some zf /\ version zf = 1000.
Proof.
  destruct (zones_insert_zones_reload ext_demo conf_zone_master []
              "example.com."%string ∅ ∅ 0 world_empty None "/z/ex.db"%string
              {| zl_source := "/z/ex.zone"; zl_needs_update := false;
                 zl_zone := Some (zone_of_soa "example.com." soa_test) |}
              (zone_of_soa "example.com." soa_test))
    as (w1 & zf & Hrun & Hzf & Hv & _);
    [reflexivity.. | exists soa_test; reflexivity |].
  exists w1, zf. split; [exact Hrun|]. split; [exact Hzf | exact Hv].
Defined.

Section UnchangedReload.

Context (E : externals).

Lemma carried_over_extends (db_old : dnslib_zonedb_t) (w w' : world)
    (z : conf_zone_t) :
  db_wf w db_old -> store_extends w w' ->
  carried_over E db_old w z -> carried_over E db_old w' z.
Proof.
  intros Hwf [_ Hkeep] (k & p & zo & Hconv & Hold & Hzo & Hfresh & Hsoa).
  destruct (Hwf k p Hold) as (Hp & _).
  destruct (Hkeep p zo Hp Hzo) as (zo' & Hzo' & Ha & Hv).
  exists k, p, zo'. split_and!; try assumption.
  - unfold zone_stale, dnslib_zone_version in *. rewrite Hv. exact Hfresh.
  - unfold zone_soa, dnslib_zone_apex in *. rewrite Ha. exact Hsoa.
Qed.

Lemma zones_insert_zones_unchanged (zone_conf : list conf_zone_t)
    (db_old db_new : dnslib_zonedb_t) (inserted : Z) (w : world) :
  db_wf w db_old ->
  Forall (carried_over E db_old w) zone_conf ->
  NoDup (converted_prefix E zone_conf) ->
  (forall k, k ∈ converted_prefix E zone_conf -> db_new !! k = None) ->
  exists db_new' w',
    zones_insert_zones E zone_conf db_old db_new inserted w
      = Some (inserted + Z.of_nat (length zone_conf), db_new', w') /\
    (forall k, db_new' !! k =
       if decide (k ∈ converted_prefix E zone_conf)
       then db_old !! k else db_new !! k) /\
    zone_next w' = zone_next w /\ store_extends w w'.
Proof.
  revert db_new inserted w.
  induction zone_conf as [|z rest IH]; intros db_new inserted w Hwf Hall Hnd Hfree.
  - exists db_new, w. cbn. split; [f_equal; f_equal; f_equal; lia|].
    split; [|split; [reflexivity | apply store_extends_refl]].
    intros k. rewrite decide_False by (intros H; inversion H). reflexivity.
  - inversion Hall as [|? ? Hz Hrest]; subst.
    destruct Hz as (k & p & zo & Hconv & Hold & Hzo & Hfresh & Hsoa).
    cbn [converted_prefix zones_insert_zones] in *. rewrite Hconv in *.
    apply NoDup_cons in Hnd as [Hk Hnd].
    destruct (Hwf k p Hold) as (Hp & zo' & Hzo' & Howner).
    rewrite Hzo in Hzo'. injection Hzo' as <-.
    assert (zones_reload_decision E db_old k z w = Some (Some p, false)) as Hdec.
    { unfold zones_reload_decision, dnslib_zonedb_find_zone. rewrite Hold, Hzo.
      bind_step. rewrite bool_decide_eq_false_2 by exact Hfresh. reflexivity. }
    pose proof (zones_obtain_zone_carry_over E z k p zo db_new inserted w Hzo)
      as Hobt.
    unfold dnslib_node_owner, dnslib_zone_apex in Howner.
    rewrite Howner, (Hfree k) in Hobt by (apply elem_of_cons; auto).
    destruct (zones_update_zone_total E p z w zo Hzo Hsoa) as (w1 & zf & Hup & Hat).
    pose proof (updates_zone_at_extends _ _ _ _ _ Hat) as Hext.
    destruct Hat as (_ & _ & _ & _ & _ & Hn1).
    destruct (IH (<[k := p]> db_new) (inserted + 1) w1) as (d' & w' & Hrun & Hd' & Hn & Hext');
      [ exact (db_wf_extends _ _ _ Hext Hwf)
      | eapply Forall_impl; [exact Hrest|];
        intros y; apply carried_over_extends; assumption
      | exact Hnd
      | intros k' Hk'; rewrite lookup_insert_ne by (intros ->; exact (Hk Hk'));
        apply Hfree, elem_of_cons; auto |].
    exists d', w'. split; [|split; [|split]].
    + unfold zones_insert_zone. rewrite Hdec. bind_step. rewrite Hobt.
      bind_step. rewrite Hup. bind_step. rewrite Hrun.
      f_equal. f_equal. f_equal. cbn [length]. lia.
    + intros k0. rewrite Hd'. destruct (decide (k0 = k)) as [->|Hne].
      * rewrite decide_False by exact Hk.
        rewrite decide_True by (apply elem_of_cons; auto).
        rewrite lookup_insert_eq. symmetry. exact Hold.
      * rewrite lookup_insert_ne by congruence.
        destruct (decide (k0 ∈ converted_prefix E rest)) as [Hin|Hin].
        -- rewrite decide_True by (apply elem_of_cons; auto). reflexivity.
        -- rewrite decide_False; [reflexivity|].
           rewrite elem_of_cons. tauto.
    + congruence.
    + eapply store_extends_trans; eassumption.
Qed.

(** X6: a reload in which every configured zone is in the old database, not
    stale, under distinct names, returns: it allocates no zone object, counts
    every configured zone, and the new database is the old one restricted to
    the configured names, pointer for pointer, each object keeping its apex
    and version. *)
Theorem zones_insert_zones_all_carried (zone_conf : list conf_zone_t)
    (db_old : dnslib_zonedb_t) (w : world) :
  db_wf w db_old ->
  Forall (carried_over E db_old w) zone_conf ->
  NoDup (converted_prefix E zone_conf) ->
  exists db_new w',
    zones_insert_zones E zone_conf db_old ∅ 0 w
      = Some (Z.of_nat (length zone_conf), db_new, w') /\
    (forall k, db_new !! k =
       if decide (k ∈ converted_prefix E zone_conf) then db_old !! k else None) /\
    zone_next w' = zone_next w /\
    (forall k p, db_new !! k = Some p ->
       exists zo zo', zones w !! p = Some zo /\ zones w' !! p = Some zo' /\
                      apex zo' = apex zo /\ version zo' = version zo).
Proof.
  intros Hwf Hall Hnd.
  destruct (zones_insert_zones_unchanged zone_conf db_old ∅ 0 w Hwf Hall Hnd)
    as (d' & w' & Hrun & Hd' & Hn & [_ Hkeep]); [intros; apply lookup_empty|].
  exists d', w'. split; [exact Hrun|]. split; [|split; [exact Hn|]].
  - intros k. rewrite Hd'. destruct (decide _); [reflexivity | apply lookup_empty].
  - intros k p Hk. rewrite Hd' in Hk.
    destruct (decide _); [|rewrite lookup_empty in Hk; discriminate].
    destruct (Hwf k p Hk) as (Hp & zo & Hzo & _).
    destruct (Hkeep p zo Hp Hzo) as (zo' & Hzo' & Ha & Hv).
    exists zo, zo'. auto.
Qed.

End UnchangedReload.

(** The reload of an unchanged "example.com.": one zone counted, the new
    database is the old one and no object was allocated. *)
Lemma zones_insert_zones_all_carried_witness :
  exists w',
    zones_insert_zones ext_demo [conf_zone_master] db_served ∅ 0 world_served
      = Some (1, db_served, w') /\
    zone_next w' = 2%positive.
Proof.
  destruct (zones_insert_zones_all_carried ext_demo [conf_zone_master]
              db_served world_served)
    as (d' & w' & Hrun & Hd' & Hn & _).
  - intros k p Hk. unfold db_served in Hk.
    apply lookup_singleton_Some in Hk as [<- <-].
    split; [reflexivity|]. eexists. split; reflexivity.
  - constructor; [|constructor].
    exists "example.com."%string, 1%positive,
      (dnslib_zone_set_version (zone_of_soa "example.com." soa_test) 1000).
    split_and!; try reflexivity.
    + unfold zone_stale. cbn. lia.
    + exists soa_test. reflexivity.
  - cbn. apply NoDup_cons. split; [apply not_elem_of_nil | apply NoDup_nil_2].
  - exists w'. split; [|exact Hn].
    rewrite Hrun. f_equal. f_equal. f_equal.
    apply map_eq. intros k. rewrite Hd'. cbn.
    destruct (decide (k ∈ ["example.com."%string])) as [Hin|Hin].
    + reflexivity.
    + apply not_elem_of_cons in Hin as [Hne _].
      unfold db_served. rewrite lookup_singleton_ne by congruence. reflexivity.
Defined.

(** ** The database swap *)

Section Swap.

Context (E : externals).

Lemma zones_remove_zones_subseteq (zone_conf : list conf_zone_t)
    (db_old : dnslib_zonedb_t) :
  snd (zones_remove_zones E zone_conf db_old) ⊆ db_old.
Proof.
  apply map_subseteq_spec. intros k p. rewrite zones_remove_zones_lookup.
  destruct (decide _); [discriminate | auto].
Qed.

Lemma db_wf_subseteq (w : world) (d d' : dnslib_zonedb_t) :
  d' ⊆ d -> db_wf w d -> db_wf w d'.
Proof.
  intros Hsub Hwf k p Hk. apply (Hwf k p). eapply lookup_weaken; eassumption.
Qed.



Context (c : conf_t) (ns : ns_nameserver_t) (db_old_arg : option dnslib_zonedb_t)
        (w : world) (old : dnslib_zonedb_t).
Context (ret : knot_error) (ns' : ns_nameserver_t) (old' : dnslib_zonedb_t)
        (w' : world).
Hypothesis Hdb : zone_db ns = Some old.
Hypothesis Hwf : db_wf w old.
Hypothesis Hrun :
  zones_update_db_from_config E (Some c) (Some ns) db_old_arg w
    = Some (ret, Some ns', Some old', w').

Lemma zones_update_db_parts :
  exists inserted new,
    zones_insert_zones E (conf_zones c) old ∅ 0 w = Some (inserted, new, w') /\
    zone_db ns' = Some new /\
    zones_remove_zones E (conf_zones c) old = (ret, old').
Proof.
  revert Hrun. unfold zones_update_db_from_config. rewrite Hdb.
  destruct (zones_insert_zones E (conf_zones c) old ∅ 0 w)
    as [[[inserted new] w1]|]; bind_step; [|discriminate].
  destruct (zones_remove_zones E (conf_zones c) old) as [r o].
  intros [= <- <- <- <-]. exists inserted, new. auto.
Qed.

(** X7: a reload of a well-formed database publishes a well-formed
    database: every published name points to a zone object of the store
    whose apex bears that name; the database handed back is a part of the
    old one and is well-formed as well. *)
Theorem zones_update_db_from_config_wf :
  exists new,
    zone_db ns' = Some new /\ db_wf w' new /\ db_wf w' old' /\ old' ⊆ old.
Proof.
  destruct zones_update_db_parts as (inserted & new & Hins & Hns & Hrem).
  exists new. split; [exact Hns|].
  destruct (zones_insert_zones_wf E _ _ _ _ _ _ _ _ Hwf
              ltac:(intros k p Hk; rewrite lookup_empty in Hk; discriminate) Hins)
    as (Hwf_old & Hwf_new & _).
  assert (old' ⊆ old) as Hsub.
  { replace old' with (snd (zones_remove_zones E (conf_zones c) old))
      by (rewrite Hrem; reflexivity).
    apply zones_remove_zones_subseteq. }
  split; [exact Hwf_new|]. split; [|exact Hsub].
  exact (db_wf_subseteq _ _ _ Hsub Hwf_old).
Qed.

End Swap.


Lemma db_two_wf : db_wf world_two db_two.
Proof.
  intros k p Hk. unfold db_two, db_served in Hk.
  apply lookup_insert_Some in Hk as [[<- <-] | [_ Hk]].
  - split; [reflexivity|]. eexists. split; reflexivity.
  - apply lookup_singleton_Some in Hk as [<- <-].
    split; [reflexivity|]. eexists. split; reflexivity.
Qed.

(** A reload of "example.com." alone on the server of both zones: the zone
    stays published as object 1, "old.org." is handed back as object 2 and is
    not published under any name. *)
Lemma zones_update_db_from_config_wf_witness :
  exists ret ns' old' w' new,
    zones_update_db_from_config ext_demo (Some conf_master)
        (Some {| zone_db := Some db_two |}) None world_two
      = Some (ret, Some ns', Some old', w') /\
    zone_db ns' = Some new /\ db_wf w' new /\
    new !! "example.com."%string = Some 1%positive.
Proof.
  destruct (zones_update_db_from_config ext_demo (Some conf_master)
              (Some {| zone_db := Some db_two |}) None world_two)
    as [[[[r [n|]] [o|]] w']|] eqn:Hrun;
    try (vm_compute in Hrun; discriminate Hrun).
  destruct (zones_update_db_from_config_wf ext_demo conf_master
              {| zone_db := Some db_two |} None world_two db_two r n o w'
              eq_refl db_two_wf Hrun) as (new & Hns & Hwf & _).
  exists r, n, o, w', new. split; [reflexivity|]. split; [exact Hns|].
  split; [exact Hwf|].
  vm_compute in Hrun. injection Hrun as <- <- <- <-.
  injection Hns as <-. reflexivity.
Defined.


(** The configuration that names "example.com." twice: one zone counted,
    one name in the new database. *)
Lemma zones_insert_zones_count_witness :
  exists inserted db_new w',
    zones_insert_zones ext_demo conf_zones_twice db_served ∅ 0 world_served
      = Some (inserted, db_new, w') /\
    inserted = Z.of_nat (size db_new) /\ inserted <= 2.
Proof.
  destruct (zones_insert_zones ext_demo conf_zones_twice db_served ∅ 0 world_served)
    as [[[i d] w']|] eqn:Hrun; [|vm_compute in Hrun; discriminate Hrun].
  destruct (zones_insert_zones_count ext_demo conf_zones_twice db_served ∅ 0
              world_served i d w' Hrun) as [Hsize Hle].
  exists i, d, w'. split; [reflexivity|].
  rewrite map_size_empty in Hsize. cbn in Hle. split; lia.
Defined.

(** The configuration whose first name is empty: nothing is inserted and
    nothing is pruned. *)
Lemma zones_walks_stop_at_bad_name_witness :
  zones_insert_zones ext_demo conf_zones_bad_first db_served ∅ 0 world_served
    = Some (0, ∅, world_served) /\
  zones_remove_zones ext_demo conf_zones_bad_first db_served
    = (KNOT_ERROR, db_served).
Proof.
  exact (zones_walks_stop_at_bad_name ext_demo []
           [conf_zone_plain "example.com." "/z/ex.zone" (Some "/z/ex.db"%string)]
           (conf_zone_plain "" "/z/x.zone" None) db_served ∅ 0 world_served
           eq_refl).
Defined.

Section SwapReturn.

Context (E : externals).

Lemma zones_remove_zones_ret_db (zone_conf : list conf_zone_t)
    (d1 d2 : dnslib_zonedb_t) :
  fst (zones_remove_zones E zone_conf d1) = fst (zones_remove_zones E zone_conf d2).
Proof.
  revert d1 d2. induction zone_conf as [|z rest IH]; intros d1 d2; cbn;
    [reflexivity|].
  destruct (dnslib_dname_new_from_str E (name z)); [apply IH | reflexivity].
Qed.

(** X9: pruning is idempotent and only removes: a second walk over the same
    configuration changes nothing more and returns the same value, and what
    is left is a part of the database the walk started from. *)
Theorem zones_remove_zones_idempotent (zone_conf : list conf_zone_t)
    (db_old : dnslib_zonedb_t) :
  zones_remove_zones E zone_conf (snd (zones_remove_zones E zone_conf db_old))
    = zones_remove_zones E zone_conf db_old /\
  snd (zones_remove_zones E zone_conf db_old) ⊆ db_old.
Proof.
  split; [|apply zones_remove_zones_subseteq].
  apply injective_projections.
  - apply zones_remove_zones_ret_db.
  - apply map_eq. intros k. rewrite !zones_remove_zones_lookup.
    destruct (decide _); reflexivity.
Qed.


End SwapReturn.


(** ** Runs of the scheduler *)

Lemma queue_take_fresh (q r : list (event_ptr * Z)) (e : event_ptr) (t : Z) :
  (forall x, In x q -> fst x <> e) ->
  queue_take (q ++ (e, t) :: r) e = q ++ r.
Proof.
  intros Hq. induction q as [|y q IH]; cbn.
  - rewrite Pos.eqb_refl. reflexivity.
  - destruct (Pos.eqb_spec (fst y) e) as [Heq|_].
    + exfalso. apply (Hq y); [left; reflexivity | exact Heq].
    + f_equal. apply IH. intros x Hx. apply Hq. right. exact Hx.
Qed.

Lemma queue_cancel_fresh (q : list (event_ptr * Z)) (e : event_ptr) :
  (forall x, In x q -> fst x <> e) ->
  List.filter (fun x => negb (Pos.eqb (fst x) e)) q = q.
Proof.
  intros Hq. induction q as [|y q IH]; cbn; [reflexivity|].
  destruct (Pos.eqb_spec (fst y) e) as [Heq|_]; cbn.
  - exfalso. apply (Hq y); [left; reflexivity | exact Heq].
  - f_equal. apply IH. intros x Hx. apply Hq. right. exact Hx.
Qed.

Lemma queue_scheduled (q : list (event_ptr * Z)) (e : event_ptr) :
  (exists t, In (e, t) q) ->
  existsb (fun x => Pos.eqb (fst x) e) q = true.
Proof.
  intros [t Hin]. apply existsb_exists. exists (e, t).
  split; [exact Hin | apply Pos.eqb_refl].
Qed.

Section Cycle.

Context (E : externals).
Context (p : zone_ptr) (w : world) (zo : dnslib_zone_t) (rd : dnslib_rdata_t).
Hypothesis Hz : zones w !! p = Some zo.
Hypothesis Hsoa : zone_soa zo = Some rd.
Hypothesis Hmaster : is_Some (sa_ptr (master (xfr_in zo))).
Hypothesis Hexp : expire (xfr_in zo) = None.
Hypothesis Hfresh : sched_fresh (sched w).

(** X11: on a zone with a master and no EXPIRE timer, a full cycle (timer
    update, firing of the POLL event it arms, firing of the EXPIRE event
    that firing arms) returns and leaves the queue and the event records of
    the scheduler exactly as they were: both events of the cycle are gone.
    The zone ends without timers and with next_id -1, its master kept. *)
Theorem refresh_cycle_restores_scheduler :
  exists w3 z3,
    refresh_cycle E p w = Some w3 /\
    ev_queue (sched w3) = ev_queue (sched w) /\
    ev_records (sched w3) = ev_records (sched w) /\
    zones w3 !! p = Some z3 /\
    timer (xfr_in z3) = None /\ expire (xfr_in z3) = None /\
    next_id (xfr_in z3) = -1 /\
    master (xfr_in z3) = master (xfr_in zo) /\
    (forall q, q <> p -> zones w3 !! q = zones w !! q).
Proof.
  destruct Hmaster as [a Ha]. destruct Hfresh as [Hq Hr].
  set (n := ev_next (sched w)).
  assert (forall x, In x (ev_queue (sched w)) -> fst x <> n) as Hqn
    by (intros x Hx; specialize (Hq x Hx); fold n in Hq; lia).
  assert (forall x, In x (ev_queue (sched w)) -> fst x <> Pos.succ n) as Hqs
    by (intros x Hx; specialize (Hq x Hx); fold n in Hq; lia).
  assert (ev_records (sched w) !! n = None) as Hrn.
  { destruct (ev_records (sched w) !! n) as [ev|] eqn:Hn; [|reflexivity].
    specialize (Hr n ev Hn). fold n in Hr. lia. }
  assert (ev_records (sched w) !! Pos.succ n = None) as Hrs.
  { destruct (ev_records (sched w) !! Pos.succ n) as [ev|] eqn:Hn; [|reflexivity].
    specialize (Hr _ ev Hn). fold n in Hr. lia. }
  (* the timer update *)
  pose (z1 := set_xfr_in zo
                {| master := master (xfr_in zo); ifaces := ifaces (xfr_in zo);
                   timer := Some n; expire := None;
                   next_id := next_id (xfr_in zo) |}).
  pose (R1 := <[n := mk_event CB_AXFRIN_POLL p]> (ev_records (sched w))).
  pose (w1 := set_sched (store_zone w p z1)
                {| ev_records := R1;
                   ev_queue := ev_queue (sched w)
                                 ++ [(n, uint32 (dnslib_rdata_soa_refresh rd * 1000))];
                   ev_next := Pos.succ n |}).
  assert (zones_timers_update p w = Some w1) as Hstep1.
  { unfold zones_timers_update, zones_soa_refresh. rewrite Hz. bind_step.
    rewrite Ha. rewrite (zones_soa_timer_eq zo rd) by exact Hsoa.
    bind_step; cbn [evsched_schedule_cb]. rewrite Hexp. reflexivity. }
  (* the POLL event fires *)
  pose (w1d := set_sched w1 {| ev_records := R1; ev_queue := ev_queue (sched w);
                               ev_next := Pos.succ n |}).
  assert (event_fire E n w1 = zones_axfrin_poll E n w1d) as Hfire1.
  { unfold event_fire. cbn [w1 sched set_sched ev_queue ev_records].
    rewrite queue_scheduled
      by (eexists; apply in_or_app; right; left; reflexivity).
    assert (R1 !! n = Some (mk_event CB_AXFRIN_POLL p)) as -> by apply lookup_insert_eq.
    bind_step. cbn [cb].
    unfold evsched_dequeue. cbn [ev_queue ev_records ev_next].
    rewrite (queue_take_fresh _ [] n) by exact Hqn. rewrite app_nil_r.
    reflexivity. }
  assert (ev_records (sched w1d) !! n = Some (mk_event CB_AXFRIN_POLL p)) as Hev1
    by apply lookup_insert_eq.
  assert (zones w1d !! p = Some z1) as Hz1 by apply lookup_insert_eq.
  pose proof (zones_axfrin_poll_eq E n w1d (mk_event CB_AXFRIN_POLL p) z1 rd
                Hev1 Hz1 Hsoa) as Hpoll.
  unfold poll_expire in Hpoll. cbn [z1 set_xfr_in xfr_in expire data fst snd] in Hpoll.
  cbn [w1d sched set_sched evsched_schedule_cb evsched_schedule ev_next ev_records
       ev_queue fst snd] in Hpoll.
  set (nid := snd (poll_ret_nid E w1d z1)) in Hpoll.
  set (ret1 := fst (poll_ret_nid E w1d z1)) in Hpoll.
  set (z2 := set_xfr_in _ _) in Hpoll.
  set (R2 := <[Pos.succ n := mk_event CB_AXFRIN_EXPIRE p]> R1) in Hpoll.
  set (w2 := set_sched _ _) in Hpoll.
  (* the EXPIRE event fires *)
  assert (ev_queue (sched w2) =
            ev_queue (sched w)
              ++ (Pos.succ n, uint32 (dnslib_rdata_soa_expire rd * 1000))
              :: [(n, uint32 (dnslib_rdata_soa_retry rd * 1000))]) as Hq2
    by (cbn; rewrite <- app_assoc; reflexivity).
  assert (zones w2 !! p = Some z2) as Hz2 by apply lookup_insert_eq.
  pose (w2d := set_sched w2
                 {| ev_records := R2;
                    ev_queue := ev_queue (sched w)
                                  ++ [(n, uint32 (dnslib_rdata_soa_retry rd * 1000))];
                    ev_next := Pos.succ (Pos.succ n) |}).
  assert (event_fire E (Pos.succ n) w2 = zones_axfrin_expire (Pos.succ n) w2d)
    as Hfire2.
  { unfold event_fire. rewrite Hq2.
    rewrite queue_scheduled
      by (eexists; apply in_or_app; right; left; reflexivity).
    change (ev_records (sched w2)) with R2.
    assert (R2 !! Pos.succ n = Some (mk_event CB_AXFRIN_EXPIRE p)) as ->
      by apply lookup_insert_eq.
    bind_step. cbn [cb].
    unfold evsched_dequeue. rewrite Hq2.
    rewrite (queue_take_fresh _ _ (Pos.succ n)) by exact Hqs. reflexivity. }
  unfold refresh_cycle. rewrite Hstep1. bind_step. fold n.
  rewrite Hfire1, Hpoll. bind_step. rewrite Hfire2.
  unfold zones_axfrin_expire.
  change (ev_records (sched w2d)) with R2.
  assert (R2 !! Pos.succ n = Some (mk_event CB_AXFRIN_EXPIRE p)) as ->
    by apply lookup_insert_eq.
  bind_step. cbn [data].
  change (zones w2d) with (zones w2). rewrite Hz2. bind_step.
  eexists _, _. split; [reflexivity|].
  cbn [sched set_sched store_zone set_zones zones ev_queue ev_records
       evsched_event_free cancel_and_free evsched_cancel z2 set_xfr_in xfr_in
       timer z1 w2d master expire next_id].
  rewrite lookup_insert_eq.
  split_and!; try reflexivity.
  - rewrite List.filter_app. cbn. rewrite Pos.eqb_refl. cbn.
    rewrite app_nil_r. apply queue_cancel_fresh. exact Hqn.
  - apply map_eq. intros e. unfold R2, R1.
    destruct (decide (e = Pos.succ n)) as [->|Hs];
      [rewrite lookup_delete_eq; symmetry; exact Hrs|].
    rewrite lookup_delete_ne by congruence.
    destruct (decide (e = n)) as [->|Hn];
      [rewrite lookup_delete_eq; symmetry; exact Hrn|].
    rewrite lookup_delete_ne, !lookup_insert_ne by congruence. reflexivity.
  - intros q Hne. cbn. rewrite !lookup_insert_ne by congruence. reflexivity.
Qed.

End Cycle.


(** ** The timer bookkeeping *)

Lemma queue_cancel_ids (q : list (event_ptr * Z)) (e x : event_ptr) :
  x ∈ List.map fst (List.filter (fun y => negb (Pos.eqb (fst y) e)) q) <->
  x ∈ List.map fst q /\ x <> e.
Proof.
  induction q as [|y q IH]; cbn.
  - split; [intros H; inversion H | intros [H _]; inversion H].
  - destruct (Pos.eqb_spec (fst y) e) as [Heq|Hne]; cbn;
      rewrite ?elem_of_cons, IH, ?elem_of_cons.
    + split; [tauto|]. intros [[->|Hin] Hx]; [congruence | tauto].
    + split; [|tauto]. intros [->|[Hin Hx]]; tauto.
Qed.

Lemma queue_cancel_NoDup (q : list (event_ptr * Z)) (e : event_ptr) :
  NoDup (List.map fst q) ->
  NoDup (List.map fst (List.filter (fun y => negb (Pos.eqb (fst y) e)) q)).
Proof.
  induction q as [|y q IH]; cbn; [auto|].
  intros Hnd. apply NoDup_cons in Hnd as [Hy Hnd].
  destruct (Pos.eqb_spec (fst y) e) as [Heq|Hne]; cbn; [auto|].
  apply NoDup_cons. split; [|auto].
  rewrite queue_cancel_ids. tauto.
Qed.

Lemma queue_take_ids (q : list (event_ptr * Z)) (e x : event_ptr) :
  NoDup (List.map fst q) ->
  x ∈ List.map fst (queue_take q e) <-> x ∈ List.map fst q /\ x <> e.
Proof.
  induction q as [|y q IH]; cbn.
  - intros _. split; [intros H; inversion H | intros [H _]; inversion H].
  - intros Hnd. apply NoDup_cons in Hnd as [Hy Hnd].
    destruct (Pos.eqb_spec (fst y) e) as [Heq|Hne]; cbn.
    + subst e. rewrite elem_of_cons. split.
      * intros Hin. split; [tauto|]. intros ->. exact (Hy Hin).
      * intros [[->|Hin] Hx]; [congruence | exact Hin].
    + rewrite !elem_of_cons, (IH Hnd). split; [|tauto].
      intros [->|[Hin Hx]]; tauto.
Qed.

Lemma queue_take_NoDup (q : list (event_ptr * Z)) (e : event_ptr) :
  NoDup (List.map fst q) -> NoDup (List.map fst (queue_take q e)).
Proof.
  induction q as [|y q IH]; cbn; [auto|].
  intros Hnd. apply NoDup_cons in Hnd as Hc. destruct Hc as [Hy Hnd'].
  destruct (Pos.eqb_spec (fst y) e) as [Heq|Hne]; cbn; [exact Hnd'|].
  apply NoDup_cons. split; [|auto].
  rewrite (queue_take_ids q e (fst y) Hnd'). tauto.
Qed.

Lemma queue_take_In (q : list (event_ptr * Z)) (e : event_ptr) (y : event_ptr * Z) :
  In y (queue_take q e) -> In y q.
Proof.
  induction q as [|y0 q IH]; cbn; [auto|].
  destruct (Pos.eqb (fst y0) e); cbn; tauto.
Qed.

Lemma queue_ids_snoc_NoDup (l : list event_ptr) (x : event_ptr) :
  NoDup l -> x ∉ l -> NoDup (l ++ [x]).
Proof.
  intros Hnd Hx. apply NoDup_app. split; [exact Hnd|]. split.
  - intros y Hy Hyx. apply list_elem_of_singleton in Hyx as ->. exact (Hx Hy).
  - apply NoDup_singleton.
Qed.

Lemma filter_one_key (f : event_ptr * Z -> bool) (q : list (event_ptr * Z))
    (x : event_ptr) :
  NoDup (List.map fst q) ->
  (forall y, In y q -> f y = true -> fst y = x) ->
  (length (List.filter f q) <= 1)%nat.
Proof.
  induction q as [|y q IH]; cbn [List.filter List.map]; intros Hnd Hall;
    [cbn; lia|].
  apply NoDup_cons in Hnd as [Hy Hnd].
  assert (forall y', In y' q -> f y' = true -> fst y' = x) as Hall'
    by (intros y' Hin; apply Hall; right; exact Hin).
  destruct (f y) eqn:Hf; [|exact (IH Hnd Hall')].
  destruct (List.filter f q) as [|y' l] eqn:Hq; cbn; [lia|]. exfalso.
  assert (In y' (List.filter f q)) as Hy' by (rewrite Hq; left; reflexivity).
  apply filter_In in Hy' as [Hin Hfy']. apply Hy.
  rewrite (Hall y (or_introl eq_refl) Hf), <- (Hall' y' Hin Hfy').
  apply list_elem_of_In, in_map. exact Hin.
Qed.

(** Under the bookkeeping, the live EXPIRE timers of a zone are at most one,
    and they are the event the zone refers to. *)
Lemma live_expire_unique (w : world) (p : zone_ptr) (z : dnslib_zone_t) :
  timers_inv w -> zones w !! p = Some z ->
  (length (live_timers (sched w) CB_AXFRIN_EXPIRE p) <= 1)%nat /\
  (forall y, In y (live_timers (sched w) CB_AXFRIN_EXPIRE p) ->
     expire (xfr_in z) = Some (fst y)) /\
  (forall x, expire (xfr_in z) = Some x ->
     exists t, live_timers (sched w) CB_AXFRIN_EXPIRE p = [(x, t)]).
Proof.
  intros (_ & Hnd & _ & Hz1 & Hz2 & _) Hz.
  assert (forall y, In y (live_timers (sched w) CB_AXFRIN_EXPIRE p) ->
            expire (xfr_in z) = Some (fst y)) as Hlive.
  { intros y Hy. apply filter_In in Hy as [_ Hy].
    apply bool_decide_eq_true in Hy.
    destruct (Hz2 _ _ Hy) as (z' & Hz' & He). congruence. }
  assert (forall x, (forall y, In y (live_timers (sched w) CB_AXFRIN_EXPIRE p) ->
                       fst y = x) ->
            (length (live_timers (sched w) CB_AXFRIN_EXPIRE p) <= 1)%nat) as Hlen.
  { intros x Hx. apply (filter_one_key _ _ x Hnd).
    intros y Hin Hf. apply Hx. apply filter_In. auto. }
  split; [|split; [exact Hlive|]].
  - destruct (live_timers (sched w) CB_AXFRIN_EXPIRE p) as [|y l];
      [cbn; lia|].
    apply (Hlen (fst y)). intros y' Hy'.
    pose proof (Hlive y' Hy') as H1.
    pose proof (Hlive y (or_introl eq_refl)) as H2. congruence.
  - intros x He. destruct (Hz1 p z x Hz He) as [Hrec Hin].
    apply list_elem_of_In, in_map_iff in Hin as ([x' t] & Hx' & Hin).
    cbn in Hx'. subst x'.
    assert (In (x, t) (live_timers (sched w) CB_AXFRIN_EXPIRE p)) as Hl.
    { apply filter_In. split; [exact Hin|].
      apply bool_decide_eq_true. exact Hrec. }
    assert (length (live_timers (sched w) CB_AXFRIN_EXPIRE p) <= 1)%nat as Hone.
    { apply (Hlen x). intros y Hy. specialize (Hlive y Hy). congruence. }
    destruct (live_timers (sched w) CB_AXFRIN_EXPIRE p) as [|y [|y' l]].
    + destruct Hl.
    + destruct Hl as [->|[]]. exists t. reflexivity.
    + cbn in Hone. lia.
Qed.


Lemma zones_soa_timer_has_soa (z : dnslib_zone_t) (f : dnslib_rdata_t -> Z) (t : Z) :
  zones_soa_timer z f = Some t -> exists rd, zone_soa z = Some rd.
Proof.
  unfold zones_soa_timer, zone_soa.
  destruct (dnslib_node_rrset _ _) as [rrs|]; bind_step; [|discriminate].
  destruct (dnslib_rrset_rdata rrs) as [rd|]; bind_step; [|discriminate].
  eauto.
Qed.

Lemma existsb_queue_ids (q : list (event_ptr * Z)) (e : event_ptr) :
  existsb (fun x => Pos.eqb (fst x) e) q = true -> e ∈ List.map fst q.
Proof.
  intros H. apply existsb_exists in H as (x & Hin & Hx).
  apply Pos.eqb_eq in Hx as <-. apply list_elem_of_In, in_map. exact Hin.
Qed.

Lemma sched_fresh_ids (s : evsched_t) (x : event_ptr) :
  sched_fresh s -> x ∈ queue_ids s -> (x < ev_next s)%positive.
Proof.
  intros [Hq _] Hx. apply list_elem_of_In, in_map_iff in Hx as (y & <- & Hy).
  exact (Hq y Hy).
Qed.

Section FirePreserves.

Context (E : externals).

(** A POLL firing keeps the timer bookkeeping. *)
Lemma timers_inv_poll (e : event_ptr) (w : world) (p : zone_ptr)
    (ret : Z) (w' : world) :
  timers_inv w ->
  e ∈ queue_ids (sched w) ->
  ev_records (sched w) !! e = Some (mk_event CB_AXFRIN_POLL p) ->
  zones_axfrin_poll E e (set_sched w (evsched_dequeue (sched w) e)) = Some (ret, w') ->
  timers_inv w'.
Proof.
  intros (Hfr & Hnd & HF & Hz1 & Hz2 & Ht1) Hin Hev Hrun.
  pose proof Hfr as [Hq Hr].
  set (w1 := set_sched w (evsched_dequeue (sched w) e)) in *.
  destruct (zones w !! p) as [z|] eqn:Hz;
    [|unfold zones_axfrin_poll in Hrun; cbn in Hrun; rewrite Hev in Hrun;
      cbn in Hrun; rewrite Hz in Hrun; discriminate].
  assert (exists rd, zone_soa z = Some rd) as [rd Hsoa].
  { destruct (zone_soa z) as [rd|] eqn:Hsoa; [eauto|]. exfalso.
    assert (forall f, zones_soa_timer z f = None) as Hnone.
    { intros f. destruct (zones_soa_timer z f) as [t|] eqn:Ht; [|reflexivity].
      apply zones_soa_timer_has_soa in Ht as [rd Hrd]. congruence. }
    revert Hrun. unfold zones_axfrin_poll, zones_soa_expire, zones_soa_retry.
    cbn [w1 sched set_sched evsched_dequeue ev_records zones].
    rewrite Hev. bind_step. cbn [data]. rewrite Hz. bind_step.
    destruct (xfrin_create_soa_query E _ _) as [ret0 qbuf].
    destruct (if (ret0 =? 0) && ifaces (xfr_in z) then _ else _) as [r nid].
    rewrite !Hnone. destruct (expire (xfr_in z)); cbn; discriminate. }
  rewrite (zones_axfrin_poll_eq E e w1 (mk_event CB_AXFRIN_POLL p) z rd Hev Hz Hsoa)
    in Hrun.
  injection Hrun as _ <-.
  assert (e < ev_next (sched w))%positive as He by exact (Hr _ _ Hev).
  assert (forall x, x ∈ List.map fst (queue_take (ev_queue (sched w)) e) ->
            (x < ev_next (sched w))%positive) as Htake_lt.
  { intros x Hx. apply queue_take_ids in Hx as [Hx _]; [|exact Hnd].
    exact (sched_fresh_ids _ _ Hfr Hx). }
  unfold poll_expire. cbn [data].
  destruct (expire (xfr_in z)) as [x|] eqn:Hexp.
  - (* EXPIRE already armed *)
    unfold timers_inv, sched_fresh, queue_ids.
    cbn [fst snd w1 sched set_sched store_zone set_zones evsched_schedule
         evsched_dequeue ev_queue ev_records ev_next zones zone_next].
    rewrite map_app. cbn [List.map fst].
    split_and!.
    + intros y Hy. apply in_app_iff in Hy as [Hy|[<-|[]]]; [|exact He].
      apply Hq. eapply queue_take_In. exact Hy.
    + exact Hr.
    + apply queue_ids_snoc_NoDup; [apply queue_take_NoDup; exact Hnd|].
      intros Hc. apply queue_take_ids in Hc as [_ Hc]; [congruence | exact Hnd].
    + intros q zq Hzq. apply lookup_insert_Some in Hzq as [[<- _]|[_ Hzq]];
        [exact (HF _ _ Hz) | exact (HF _ _ Hzq)].
    + intros q zq y Hzq Hy.
      assert (exists zq0, zones w !! q = Some zq0 /\ expire (xfr_in zq0) = Some y)
        as (zq0 & Hzq0 & Hy0).
      { apply lookup_insert_Some in Hzq as [[<- <-]|[_ Hzq]]; [|eauto].
        exists z. split; [exact Hz|]. cbn in Hy. congruence. }
      destruct (Hz1 q zq0 y Hzq0 Hy0) as [Hrec Hyin]. split; [exact Hrec|].
      apply elem_of_app. left. apply queue_take_ids; [exact Hnd|].
      split; [exact Hyin|]. intros ->. congruence.
    + intros e' p' He'. destruct (Hz2 e' p' He') as (zp & Hzp & Hep).
      destruct (decide (p' = p)) as [->|Hne].
      * rewrite lookup_insert_eq. eexists. split; [reflexivity|]. cbn. congruence.
      * rewrite lookup_insert_ne by congruence. eauto.
    + intros q zq t Hzq Ht.
      apply lookup_insert_Some in Hzq as [[<- <-]|[_ Hzq]];
        [exact (Ht1 _ _ _ Hz Ht) | exact (Ht1 _ _ _ Hzq Ht)].
  - (* first attempt: a new EXPIRE event *)
    set (n := ev_next (sched w)) in *.
    assert (ev_records (sched w) !! n = None) as Hrn.
    { destruct (ev_records (sched w) !! n) as [ev|] eqn:Hn; [|reflexivity].
      specialize (Hr n ev Hn). lia. }
    unfold timers_inv, sched_fresh, queue_ids.
    cbn [fst snd w1 sched set_sched store_zone set_zones evsched_schedule
         evsched_schedule_cb evsched_dequeue ev_queue ev_records ev_next zones
         zone_next].
    fold n. rewrite !map_app. cbn [List.map fst].
    split_and!.
    + intros y Hy. apply in_app_iff in Hy as [Hy|[<-|[]]]; [|cbn; lia].
      apply in_app_iff in Hy as [Hy|[<-|[]]]; [|cbn; lia].
      apply queue_take_In, Hq in Hy. fold n in Hy. lia.
    + intros e' ev' He'. apply lookup_insert_Some in He' as [[<- _]|[_ He']];
        [lia|]. specialize (Hr _ _ He'). fold n in Hr. lia.
    + apply queue_ids_snoc_NoDup; [apply queue_ids_snoc_NoDup|].
      * apply queue_take_NoDup. exact Hnd.
      * intros Hc. apply Htake_lt in Hc. lia.
      * intros Hc. apply elem_of_app in Hc as [Hc|Hc].
        -- apply queue_take_ids in Hc as [_ Hc]; [congruence | exact Hnd].
        -- apply list_elem_of_singleton in Hc. lia.
    + intros q zq Hzq. apply lookup_insert_Some in Hzq as [[<- _]|[_ Hzq]];
        [exact (HF _ _ Hz) | exact (HF _ _ Hzq)].
    + intros q zq y Hzq Hy.
      apply lookup_insert_Some in Hzq as [[<- <-]|[Hne Hzq]].
      * cbn in Hy. injection Hy as <-. rewrite lookup_insert_eq.
        split; [reflexivity|].
        apply elem_of_app. left. apply elem_of_app. right.
        apply list_elem_of_singleton. reflexivity.
      * destruct (Hz1 q zq y Hzq Hy) as [Hrec Hyin].
        assert (y <> n) by (intros ->; congruence).
        rewrite lookup_insert_ne by congruence. split; [exact Hrec|].
        apply elem_of_app. left. apply elem_of_app. left.
        apply queue_take_ids; [exact Hnd|].
        split; [exact Hyin|]. intros ->. congruence.
    + intros e' p' He'. apply lookup_insert_Some in He' as [[<- Heq]|[Hne He']].
      * injection Heq as <-. rewrite lookup_insert_eq. eexists.
        split; reflexivity.
      * destruct (Hz2 e' p' He') as (zp & Hzp & Hep).
        assert (p' <> p) by (intros ->; congruence).
        rewrite lookup_insert_ne by congruence. eauto.
    + intros q zq t Hzq Ht.
      assert (ev_records (sched w) !! t = Some (mk_event CB_AXFRIN_POLL q)) as Hrec.
      { apply lookup_insert_Some in Hzq as [[<- <-]|[_ Hzq]];
          [exact (Ht1 _ _ _ Hz Ht) | exact (Ht1 _ _ _ Hzq Ht)]. }
      rewrite lookup_insert_ne by (intros <-; congruence). exact Hrec.
Qed.

End FirePreserves.


(** An EXPIRE firing keeps the timer bookkeeping. *)
Lemma timers_inv_expire (e : event_ptr) (w : world) (p : zone_ptr)
    (ret : Z) (w' : world) :
  timers_inv w ->
  ev_records (sched w) !! e = Some (mk_event CB_AXFRIN_EXPIRE p) ->
  zones_axfrin_expire e (set_sched w (evsched_dequeue (sched w) e)) = Some (ret, w') ->
  timers_inv w'.
Proof.
  intros (Hfr & Hnd & HF & Hz1 & Hz2 & Ht1) Hev Hrun.
  pose proof Hfr as [Hq Hr].
  destruct (Hz2 e p Hev) as (z & Hz & Hexp).
  revert Hrun. unfold zones_axfrin_expire.
  cbn [sched set_sched evsched_dequeue ev_records zones]. rewrite Hev.
  bind_step. cbn [data]. rewrite Hz. bind_step. intros [= _ <-].
  assert (forall x, x ∈ List.map fst (queue_take (ev_queue (sched w)) e) ->
            x ∈ queue_ids (sched w) /\ x <> e) as Htake
    by (intros x Hx; apply queue_take_ids in Hx; [exact Hx | exact Hnd]).
  unfold timers_inv, sched_fresh, queue_ids.
  destruct (timer (xfr_in z)) as [t|] eqn:Ht.
  - pose proof (Ht1 p z t Hz Ht) as Hrec_t.
    cbn [sched set_sched store_zone set_zones cancel_and_free evsched_event_free
         evsched_cancel ev_queue ev_records ev_next zones zone_next].
    split_and!.
    + intros y Hy. apply filter_In in Hy as [Hy _].
      apply Hq. eapply queue_take_In. exact Hy.
    + intros e' ev' He'. apply lookup_delete_Some in He' as [_ He'].
      apply lookup_delete_Some in He' as [_ He']. exact (Hr _ _ He').
    + apply queue_cancel_NoDup, queue_take_NoDup. exact Hnd.
    + intros q zq Hzq. apply lookup_insert_Some in Hzq as [[<- _]|[_ Hzq]];
        [exact (HF _ _ Hz) | exact (HF _ _ Hzq)].
    + intros q zq y Hzq Hy.
      apply lookup_insert_Some in Hzq as [[<- <-]|[Hne Hzq]]; [discriminate Hy|].
      destruct (Hz1 q zq y Hzq Hy) as [Hrec Hyin].
      assert (y <> e) by (intros ->; congruence).
      assert (y <> t) by (intros ->; congruence).
      rewrite !lookup_delete_ne by congruence. split; [exact Hrec|].
      apply queue_cancel_ids. split; [|assumption].
      apply queue_take_ids; [exact Hnd | auto].
    + intros e' p' He'. apply lookup_delete_Some in He' as [Hne He'].
      apply lookup_delete_Some in He' as [_ He'].
      destruct (Hz2 e' p' He') as (zp & Hzp & Hep).
      assert (p' <> p) by (intros ->; congruence).
      rewrite lookup_insert_ne by congruence. eauto.
    + intros q zq t' Hzq Ht'.
      apply lookup_insert_Some in Hzq as [[<- <-]|[Hne Hzq]]; [discriminate Ht'|].
      pose proof (Ht1 q zq t' Hzq Ht') as Hrec.
      assert (t' <> e) by (intros ->; congruence).
      assert (t' <> t) by (intros ->; congruence).
      rewrite !lookup_delete_ne by congruence. exact Hrec.
  - cbn [sched set_sched store_zone set_zones cancel_and_free evsched_event_free
         evsched_dequeue ev_queue ev_records ev_next zones zone_next].
    split_and!.
    + intros y Hy. apply Hq. eapply queue_take_In. exact Hy.
    + intros e' ev' He'. apply lookup_delete_Some in He' as [_ He'].
      exact (Hr _ _ He').
    + apply queue_take_NoDup. exact Hnd.
    + intros q zq Hzq. apply lookup_insert_Some in Hzq as [[<- _]|[_ Hzq]];
        [exact (HF _ _ Hz) | exact (HF _ _ Hzq)].
    + intros q zq y Hzq Hy.
      apply lookup_insert_Some in Hzq as [[<- <-]|[Hne Hzq]]; [discriminate Hy|].
      destruct (Hz1 q zq y Hzq Hy) as [Hrec Hyin].
      assert (y <> e) by (intros ->; congruence).
      rewrite lookup_delete_ne by congruence. split; [exact Hrec|].
      apply queue_take_ids; [exact Hnd | auto].
    + intros e' p' He'. apply lookup_delete_Some in He' as [Hne He'].
      destruct (Hz2 e' p' He') as (zp & Hzp & Hep).
      assert (p' <> p) by (intros ->; congruence).
      rewrite lookup_insert_ne by congruence. eauto.
    + intros q zq t' Hzq Ht'.
      apply lookup_insert_Some in Hzq as [[<- <-]|[Hne Hzq]]; [discriminate Ht'|].
      pose proof (Ht1 q zq t' Hzq Ht') as Hrec.
      assert (t' <> e) by (intros ->; congruence).
      rewrite lookup_delete_ne by congruence. exact Hrec.
Qed.

(** The firing of any scheduled event keeps the timer bookkeeping. *)
Lemma timers_inv_fire (E : externals) (e : event_ptr) (w : world) (ret : Z)
    (w' : world) :
  timers_inv w -> event_fire E e w = Some (ret, w') -> timers_inv w'.
Proof.
  intros Hinv. unfold event_fire.
  destruct (existsb _ _) eqn:Hex; [|discriminate].
  apply existsb_queue_ids in Hex.
  destruct (ev_records (sched w) !! e) as [[fn p]|] eqn:Hev; bind_step;
    [|discriminate].
  destruct fn; cbn [cb].
  - apply (timers_inv_poll E e w p); assumption.
  - apply (timers_inv_expire e w p); assumption.
Qed.


(** A store to a zone that keeps its timer references keeps the bookkeeping. *)
Lemma timers_inv_store (w : world) (p : zone_ptr) (z z' : dnslib_zone_t) :
  zones w !! p = Some z ->
  timer (xfr_in z') = timer (xfr_in z) ->
  expire (xfr_in z') = expire (xfr_in z) ->
  timers_inv w -> timers_inv (store_zone w p z').
Proof.
  intros Hz Ht He (Hfr & Hnd & HF & Hz1 & Hz2 & Ht1).
  unfold timers_inv. cbn [store_zone set_zones sched zones zone_next].
  split_and!; try assumption.
  - intros q zq Hzq. apply lookup_insert_Some in Hzq as [[<- _]|[_ Hzq]];
      [exact (HF _ _ Hz) | exact (HF _ _ Hzq)].
  - intros q zq y Hzq Hy. apply lookup_insert_Some in Hzq as [[<- <-]|[_ Hzq]].
    + apply (Hz1 p z y Hz). congruence.
    + exact (Hz1 q zq y Hzq Hy).
  - intros e' p' He'. destruct (Hz2 e' p' He') as (zp & Hzp & Hep).
    destruct (decide (p' = p)) as [->|Hne].
    + rewrite lookup_insert_eq. exists z'. split; [reflexivity|]. congruence.
    + rewrite lookup_insert_ne by congruence. eauto.
  - intros q zq t Hzq Htq. apply lookup_insert_Some in Hzq as [[<- <-]|[_ Hzq]].
    + apply (Ht1 p z t Hz). congruence.
    + exact (Ht1 q zq t Hzq Htq).
Qed.

Lemma timers_inv_acl_new_fails (w : world) (l : list bool) :
  timers_inv w -> timers_inv (set_acl_new_fails w l).
Proof. intros H. exact H. Qed.

(** The timer update keeps the timer bookkeeping. *)
Lemma timers_inv_timers_update (p : zone_ptr) (w w' : world) :
  timers_inv w -> zones_timers_update p w = Some w' -> timers_inv w'.
Proof.
  intros Hinv. pose proof Hinv as (Hfr & Hnd & HF & Hz1 & Hz2 & Ht1).
  pose proof Hfr as [Hq Hr].
  unfold zones_timers_update.
  destruct (zones w !! p) as [z|] eqn:Hz; bind_step; [|discriminate].
  destruct (sa_ptr (master (xfr_in z))); [|intros [= <-]; exact Hinv].
  destruct (zones_soa_refresh z) as [tmr|]; bind_step; [|discriminate].
  cbn [evsched_schedule_cb]. intros [= <-].
  set (n := ev_next (sched w)).
  assert (ev_records (sched w) !! n = None) as Hrn.
  { destruct (ev_records (sched w) !! n) as [ev|] eqn:Hn; [|reflexivity].
    specialize (Hr n ev Hn). fold n in Hr. lia. }
  assert (n ∉ queue_ids (sched w)) as Hqn.
  { intros Hc. apply (sched_fresh_ids _ _ Hfr) in Hc. fold n in Hc. lia. }
  unfold timers_inv, sched_fresh, queue_ids.
  destruct (expire (xfr_in z)) as [x|] eqn:Hexp.
  - destruct (Hz1 p z x Hz Hexp) as [Hrec_x Hx_in].
    assert (x <> n) as Hxn by (intros ->; congruence).
    cbn [sched set_sched store_zone set_zones cancel_and_free evsched_event_free
         evsched_cancel evsched_schedule ev_queue ev_records ev_next zones zone_next].
    fold n. split_and!.
    + intros y Hy. apply filter_In in Hy as [Hy _].
      apply in_app_iff in Hy as [Hy|[<-|[]]]; [|cbn; lia].
      apply Hq in Hy. fold n in Hy. lia.
    + intros e' ev' He'. apply lookup_delete_Some in He' as [_ He'].
      apply lookup_insert_Some in He' as [[<- _]|[_ He']]; [lia|].
      specialize (Hr _ _ He'). fold n in Hr. lia.
    + apply queue_cancel_NoDup. rewrite map_app. cbn [List.map fst].
      apply queue_ids_snoc_NoDup; assumption.
    + intros q zq Hzq. apply lookup_insert_Some in Hzq as [[<- _]|[_ Hzq]];
        [exact (HF _ _ Hz) | exact (HF _ _ Hzq)].
    + intros q zq y Hzq Hy.
      apply lookup_insert_Some in Hzq as [[<- <-]|[Hne Hzq]]; [discriminate Hy|].
      destruct (Hz1 q zq y Hzq Hy) as [Hrec Hyin].
      assert (y <> x) by (intros ->; congruence).
      assert (y <> n) by (intros ->; congruence).
      rewrite lookup_delete_ne, lookup_insert_ne by congruence.
      split; [exact Hrec|].
      apply queue_cancel_ids. split; [|assumption].
      rewrite map_app. apply elem_of_app. left. exact Hyin.
    + intros e' p' He'. apply lookup_delete_Some in He' as [Hne He'].
      apply lookup_insert_Some in He' as [[_ Heq]|[_ He']]; [discriminate Heq|].
      destruct (Hz2 e' p' He') as (zp & Hzp & Hep).
      assert (p' <> p) by (intros ->; congruence).
      rewrite lookup_insert_ne by congruence. eauto.
    + intros q zq t Hzq Ht.
      apply lookup_insert_Some in Hzq as [[<- <-]|[Hne Hzq]].
      * cbn in Ht. injection Ht as <-.
        rewrite lookup_delete_ne by congruence. apply lookup_insert_eq.
      * pose proof (Ht1 q zq t Hzq Ht) as Hrec.
        assert (t <> x) by (intros ->; congruence).
        assert (t <> n) by (intros ->; congruence).
        rewrite lookup_delete_ne, lookup_insert_ne by congruence. exact Hrec.
  - cbn [sched set_sched store_zone set_zones cancel_and_free
         evsched_schedule ev_queue ev_records ev_next zones zone_next].
    fold n. split_and!.
    + intros y Hy. apply in_app_iff in Hy as [Hy|[<-|[]]]; [|cbn; lia].
      apply Hq in Hy. fold n in Hy. lia.
    + intros e' ev' He'.
      apply lookup_insert_Some in He' as [[<- _]|[_ He']]; [lia|].
      specialize (Hr _ _ He'). fold n in Hr. lia.
    + rewrite map_app. cbn [List.map fst].
      apply queue_ids_snoc_NoDup; assumption.
    + intros q zq Hzq. apply lookup_insert_Some in Hzq as [[<- _]|[_ Hzq]];
        [exact (HF _ _ Hz) | exact (HF _ _ Hzq)].
    + intros q zq y Hzq Hy.
      apply lookup_insert_Some in Hzq as [[<- <-]|[Hne Hzq]]; [discriminate Hy|].
      destruct (Hz1 q zq y Hzq Hy) as [Hrec Hyin].
      assert (y <> n) by (intros ->; congruence).
      rewrite lookup_insert_ne by congruence. split; [exact Hrec|].
      rewrite map_app. apply elem_of_app. left. exact Hyin.
    + intros e' p' He'.
      apply lookup_insert_Some in He' as [[_ Heq]|[_ He']]; [discriminate Heq|].
      destruct (Hz2 e' p' He') as (zp & Hzp & Hep).
      assert (p' <> p) by (intros ->; congruence).
      rewrite lookup_insert_ne by congruence. eauto.
    + intros q zq t Hzq Ht.
      apply lookup_insert_Some in Hzq as [[<- <-]|[Hne Hzq]].
      * cbn in Ht. injection Ht as <-. apply lookup_insert_eq.
      * pose proof (Ht1 q zq t Hzq Ht) as Hrec.
        assert (t <> n) by (intros ->; congruence).
        rewrite lookup_insert_ne by congruence. exact Hrec.
Qed.

Section ReloadPreserves.

Context (E : externals).
Hypothesis Hloader : loader_fresh E.

Lemma timers_inv_update_zone (p : zone_ptr) (z : conf_zone_t) (w w' : world) :
  timers_inv w -> zones_update_zone E p z w = Some w' -> timers_inv w'.
Proof.
  intros Hinv. unfold zones_update_zone.
  destruct (zones_update_acls E p z w) as [wa|] eqn:Ha; bind_step; [|discriminate].
  destruct (zones_update_master E p z wa) as [wm|] eqn:Hm; bind_step;
    [|discriminate].
  apply timers_inv_timers_update.
  assert (timers_inv wa) as Hinv_a.
  { revert Ha. unfold zones_update_acls.
    destruct (zones w !! p) as [zo|] eqn:Hz; bind_step; [|discriminate].
    destruct (rebuild_slot E _ _ _) as [xo f1].
    destruct (rebuild_slot E _ _ _) as [ni f2].
    destruct (rebuild_slot E _ _ _) as [no f3].
    intros [= <-]. apply timers_inv_acl_new_fails.
    apply (timers_inv_store w p zo); [exact Hz | reflexivity.. | exact Hinv]. }
  revert Hm. unfold zones_update_master.
  destruct (zones wa !! p) as [zo|] eqn:Hz; bind_step; [|discriminate].
  intros [= <-].
  apply (timers_inv_store wa p zo); [exact Hz | reflexivity.. | exact Hinv_a].
Qed.

Lemma timers_inv_load_zone (zonedb : dnslib_zonedb_t) (zone_name source : string)
    (filename : option string) (w : world) :
  timers_inv w ->
  timers_inv (snd (zones_load_zone E zonedb zone_name source filename w)).
Proof.
  intros Hinv. pose proof Hinv as (Hfr & Hnd & HF & Hz1 & Hz2 & Ht1).
  unfold zones_load_zone.
  destruct filename as [f|]; [|exact Hinv].
  destruct (dnslib_zload_open E f) as [zl|] eqn:Hopen; [|exact Hinv].
  destruct (zl_zone zl) as [z0|] eqn:Hload; [|exact Hinv].
  destruct (Hloader f zl z0 Hopen Hload) as [Ht0 He0].
  assert (zones w !! zone_next w = None) as Hnew.
  { destruct (zones w !! zone_next w) as [zq|] eqn:Hq; [|reflexivity].
    specialize (HF _ _ Hq). lia. }
  destruct (dnslib_zonedb_add_zone _ _ _) as [ret zonedb'].
  destruct (ret =? 0); cbn -[dnslib_zone_set_version];
    unfold timers_inv; cbn -[dnslib_zone_set_version]; split_and!; try assumption.
  - intros q zq Hzq. apply lookup_insert_Some in Hzq as [[<- _]|[_ Hzq]]; [lia|].
    specialize (HF _ _ Hzq). lia.
  - intros q zq y Hzq Hy. apply lookup_insert_Some in Hzq as [[<- <-]|[_ Hzq]].
    + cbn in Hy. congruence.
    + exact (Hz1 q zq y Hzq Hy).
  - intros e' p' He'. destruct (Hz2 e' p' He') as (zp & Hzp & Hep).
    rewrite lookup_insert_ne by (intros <-; congruence). eauto.
  - intros q zq t Hzq Ht. apply lookup_insert_Some in Hzq as [[<- <-]|[_ Hzq]].
    + cbn in Ht. congruence.
    + exact (Ht1 q zq t Hzq Ht).
  - intros q zq Hzq. apply lookup_delete_Some in Hzq as [_ Hzq].
    apply lookup_insert_Some in Hzq as [[<- _]|[_ Hzq]]; [lia|].
    specialize (HF _ _ Hzq). lia.
  - intros q zq y Hzq Hy. apply lookup_delete_Some in Hzq as [_ Hzq].
    apply lookup_insert_Some in Hzq as [[<- <-]|[_ Hzq]].
    + cbn in Hy. congruence.
    + exact (Hz1 q zq y Hzq Hy).
  - intros e' p' He'. destruct (Hz2 e' p' He') as (zp & Hzp & Hep).
    rewrite lookup_delete_ne, lookup_insert_ne by (intros <-; congruence). eauto.
  - intros q zq t Hzq Ht. apply lookup_delete_Some in Hzq as [_ Hzq].
    apply lookup_insert_Some in Hzq as [[<- <-]|[_ Hzq]].
    + cbn in Ht. congruence.
    + exact (Ht1 q zq t Hzq Ht).
Qed.

Lemma timers_inv_insert_zone (z : conf_zone_t) (zone_name : dnslib_dname_t)
    (db_old db_new : dnslib_zonedb_t) (inserted : Z) (w : world) (inserted' : Z)
    (db_new' : dnslib_zonedb_t) (w' : world) :
  timers_inv w ->
  zones_insert_zone E z zone_name db_old db_new inserted w
    = Some (inserted', db_new', w') ->
  timers_inv w'.
Proof.
  intros Hinv. unfold zones_insert_zone.
  destruct (zones_reload_decision E db_old zone_name z w) as [[zone0 reload]|];
    bind_step; [|discriminate].
  destruct (zones_obtain_zone E z zone_name zone0 reload db_new inserted w)
    as [[[[zone i1] d1] w1]|] eqn:Hobt; bind_step; [|discriminate].
  assert (timers_inv w1) as Hinv1.
  { revert Hobt. unfold zones_obtain_zone. destruct reload.
    - pose proof (timers_inv_load_zone db_new (name z) (file z) (db z) w Hinv) as Hl.
      destruct (zones_load_zone E db_new (name z) (file z) (db z) w)
        as [[ret d2] w2].
      destruct (bool_decide (ret = KNOT_EOK)); intros [= <- <- <- <-]; exact Hl.
    - destruct zone0 as [p|]; bind_step; [|discriminate].
      destruct (zones w !! p) as [zo|]; bind_step; [|discriminate].
      destruct (dnslib_zonedb_add_zone db_new p zo) as [ret d2].
      destruct (ret =? 0); intros [= <- <- <- <-]; exact Hinv. }
  destruct zone as [p|].
  - destruct (zones_update_zone E p z w1) as [w2|] eqn:Hup; bind_step;
      [|discriminate].
    intros [= <- <- <-]. exact (timers_inv_update_zone p z w1 w2 Hinv1 Hup).
  - intros [= <- <- <-]. exact Hinv1.
Qed.

Lemma timers_inv_insert_zones (zone_conf : list conf_zone_t)
    (db_old db_new : dnslib_zonedb_t) (inserted : Z) (w : world) (inserted' : Z)
    (db_new' : dnslib_zonedb_t) (w' : world) :
  timers_inv w ->
  zones_insert_zones E zone_conf db_old db_new inserted w
    = Some (inserted', db_new', w') ->
  timers_inv w'.
Proof.
  revert db_new inserted w.
  induction zone_conf as [|z rest IH]; intros db_new inserted w Hinv;
    cbn [zones_insert_zones].
  - intros [= <- <- <-]. exact Hinv.
  - destruct (dnslib_dname_new_from_str E (name z)) as [zone_name|];
      [|intros [= <- <- <-]; exact Hinv].
    destruct (zones_insert_zone E z zone_name db_old db_new inserted w)
      as [[[i1 d1] w1]|] eqn:Hone; bind_step; [|discriminate].
    apply IH. exact (timers_inv_insert_zone _ _ _ _ _ _ _ _ _ Hinv Hone).
Qed.

(** zones_update_db_from_config keeps the timer bookkeeping, whatever the
    configuration. *)
Lemma timers_inv_update_db (conf : option conf_t)
    (ns : option ns_nameserver_t) (db_old : option dnslib_zonedb_t) (w : world)
    (ret : knot_error) (ns' : option ns_nameserver_t)
    (db_old' : option dnslib_zonedb_t) (w' : world) :
  timers_inv w ->
  zones_update_db_from_config E conf ns db_old w = Some (ret, ns', db_old', w') ->
  timers_inv w'.
Proof.
  intros Hinv. unfold zones_update_db_from_config.
  destruct conf as [c|]; [|intros [= <- <- <- <-]; exact Hinv].
  destruct ns as [n|]; [|intros [= <- <- <- <-]; exact Hinv].
  destruct (zone_db n) as [old|]; [|intros [= <- <- <- <-]; exact Hinv].
  destruct (zones_insert_zones E (conf_zones c) old ∅ 0 w)
    as [[[inserted new] w1]|] eqn:Hins; bind_step; [|discriminate].
  destruct (zones_remove_zones E (conf_zones c) old) as [r o].
  intros [= <- <- <- <-].
  exact (timers_inv_insert_zones _ _ _ _ _ _ _ _ Hinv Hins).
Qed.

(** Reloads and firings keep the timer bookkeeping. *)
Lemma server_reaches_inv (srv srv' : server) :
  timers_inv (snd srv) -> server_reaches E srv srv' -> timers_inv (snd srv').
Proof.
  intros Hinv Hreach.
  induction Hreach as [|srv1 srv2 _ IH Hstep]; [exact Hinv|].
  destruct Hstep as [conf srv1 srv2 Hrel | e srv1 srv2 Hfire].
  - revert Hrel. unfold reload.
    destruct (zones_update_db_from_config E (Some conf) (Some (fst srv1)) None
                (snd srv1)) as [[[[r n] o] w1]|] eqn:Hrun; bind_step;
      [|discriminate].
    destruct n as [n|]; bind_step; [|discriminate].
    intros [= <-]. cbn.
    exact (timers_inv_update_db _ _ _ _ _ _ _ _ IH Hrun).
  - revert Hfire. unfold fire.
    destruct (event_fire E e (snd srv1)) as [[r w1]|] eqn:Hrun; bind_step;
      [|discriminate].
    intros [= <-]. cbn. exact (timers_inv_fire E e _ r w1 IH Hrun).
Qed.

(** X12: on every server reached from one that keeps the timer bookkeeping,
    by any sequence of reloads and firings, each zone has at most one live
    EXPIRE timer, and it has one exactly when its EXPIRE reference is set:
    that reference is then the one live EXPIRE event of the zone.  The
    compiled-zone reader is to hand over zones without timers. *)
Theorem server_one_expire_timer (srv srv' : server) (p : zone_ptr)
    (z : dnslib_zone_t) :
  timers_inv (snd srv) ->
  server_reaches E srv srv' ->
  zones (snd srv') !! p = Some z ->
  (length (live_timers (sched (snd srv')) CB_AXFRIN_EXPIRE p) <= 1)%nat /\
  (forall y, In y (live_timers (sched (snd srv')) CB_AXFRIN_EXPIRE p) ->
     expire (xfr_in z) = Some (fst y)) /\
  (forall x, expire (xfr_in z) = Some x ->
     exists t, live_timers (sched (snd srv')) CB_AXFRIN_EXPIRE p = [(x, t)]).
Proof.
  intros Hinv Hreach. apply live_expire_unique.
  exact (server_reaches_inv srv srv' Hinv Hreach).
Qed.

(** X13: on every server reached by reloads and firings from one that keeps
    the timer bookkeeping, the timer references of a zone never dangle:
    the POLL reference is the record of a POLL event of that zone, the
    EXPIRE reference is the record of a queued EXPIRE event of that zone, and
    no event is queued twice. *)
Theorem server_timer_refs_valid (srv srv' : server) (p : zone_ptr)
    (z : dnslib_zone_t) :
  timers_inv (snd srv) ->
  server_reaches E srv srv' ->
  zones (snd srv') !! p = Some z ->
  (forall t, timer (xfr_in z) = Some t ->
     ev_records (sched (snd srv')) !! t = Some (mk_event CB_AXFRIN_POLL p)) /\
  (forall x, expire (xfr_in z) = Some x ->
     ev_records (sched (snd srv')) !! x = Some (mk_event CB_AXFRIN_EXPIRE p) /\
     x ∈ queue_ids (sched (snd srv'))) /\
  NoDup (queue_ids (sched (snd srv'))).
Proof.
  intros Hinv Hreach Hz.
  destruct (server_reaches_inv srv srv' Hinv Hreach)
    as (_ & Hnd & _ & Hz1 & _ & Ht1).
  split; [|split; [|exact Hnd]].
  - intros t Ht. exact (Ht1 p z t Hz Ht).
  - intros x Hx. exact (Hz1 p z x Hz Hx).
Qed.

End ReloadPreserves.

Lemma ext_demo_loader_fresh : loader_fresh ext_demo.
Proof.
  intros path zl z0 Hopen Hload. cbn in Hopen.
  destruct (String.eqb path "/z/ex.db").
  - injection Hopen as <-. cbn in Hload. injection Hload as <-.
    split; reflexivity.
  - destruct (String.eqb path "/z/bad.db"); [|discriminate Hopen].
    injection Hopen as <-. discriminate Hload.
Qed.

Lemma world_empty_timers_inv : timers_inv world_empty.
Proof.
  unfold timers_inv, sched_fresh, queue_ids. cbn. split_and!.
  - intros x [].
  - intros e ev H. rewrite lookup_empty in H. discriminate H.
  - apply NoDup_nil_2.
  - intros p z H. rewrite lookup_empty in H. discriminate H.
  - intros p z x H. rewrite lookup_empty in H. discriminate H.
  - intros e p H. rewrite lookup_empty in H. discriminate H.
  - intros p z t H. rewrite lookup_empty in H. discriminate H.
Qed.

(** The server after a load of "example.com." with a master and one firing
    of its POLL event. *)
Lemma server_polled_reached :
  exists srv', server_reaches ext_demo server_start srv' /\
    (reload ext_demo conf_master server_start ≫= fire ext_demo 1%positive)
      = Some srv'.
Proof.
  destruct (reload ext_demo conf_master server_start) as [s1|] eqn:H1;
    [|vm_compute in H1; discriminate H1].
  destruct (fire ext_demo 1%positive s1) as [s2|] eqn:H2.
  - exists s2. split; [|exact H2].
    eapply reaches_step; [eapply reaches_step; [apply reaches_here|]|].
    + eapply step_reload. exact H1.
    + eapply step_fire. exact H2.
  - exfalso. vm_compute in H1. injection H1 as <-. vm_compute in H2.
    discriminate H2.
Qed.

(** After the load and one POLL firing, "example.com." has exactly the live
    EXPIRE timer 2. *)
Lemma server_one_expire_timer_witness :
  exists srv' z,
    server_reaches ext_demo server_start srv' /\
    zones (snd srv') !! 1%positive = Some z /\
    expire (xfr_in z) = Some 2%positive /\
    exists t, live_timers (sched (snd srv')) CB_AXFRIN_EXPIRE 1%positive
                = [(2%positive, t)].
Proof.
  destruct server_polled_reached as (srv' & Hreach & Hrun).
  destruct (zones (snd srv') !! 1%positive) as [z|] eqn:Hz;
    [|exfalso; vm_compute in Hrun; injection Hrun as <-; vm_compute in Hz;
      discriminate Hz].
  assert (expire (xfr_in z) = Some 2%positive) as He.
  { vm_compute in Hrun. injection Hrun as <-. vm_compute in Hz.
    injection Hz as <-. reflexivity. }
  exists srv', z. split; [exact Hreach|]. split; [exact Hz|]. split; [exact He|].
  exact (proj2 (proj2 (server_one_expire_timer ext_demo ext_demo_loader_fresh
                         server_start srv' 1%positive z world_empty_timers_inv
                         Hreach Hz)) 2%positive He).
Defined.

Lemma server_timer_refs_valid_witness :
  exists srv' z,
    server_reaches ext_demo server_start srv' /\
    zones (snd srv') !! 1%positive = Some z /\
    timer (xfr_in z) = Some 1%positive /\
    ev_records (sched (snd srv')) !! 1%positive
      = Some (mk_event CB_AXFRIN_POLL 1%positive).
Proof.
  destruct server_polled_reached as (srv' & Hreach & Hrun).
  destruct (zones (snd srv') !! 1%positive) as [z|] eqn:Hz;
    [|exfalso; vm_compute in Hrun; injection Hrun as <-; vm_compute in Hz;
      discriminate Hz].
  assert (timer (xfr_in z) = Some 1%positive) as Ht.
  { vm_compute in Hrun. injection Hrun as <-. vm_compute in Hz.
    injection Hz as <-. reflexivity. }
  exists srv', z. split; [exact Hreach|]. split; [exact Hz|]. split; [exact Ht|].
  exact (proj1 (server_timer_refs_valid ext_demo ext_demo_loader_fresh
                  server_start srv' 1%positive z world_empty_timers_inv
                  Hreach Hz) 1%positive Ht).
Defined.

(** A cycle on the reconciled "example.com.": POLL event 2 and EXPIRE event
    3 come and go, the queue is again the one entry of event 1. *)
Lemma refresh_cycle_restores_scheduler_witness :
  exists w3,
    refresh_cycle ext_demo 1%positive world_reconciled = Some w3 /\
    ev_queue (sched w3) = [(1%positive, 86400000)].
Proof.
  destruct (refresh_cycle_restores_scheduler ext_demo 1%positive world_reconciled
              zone_reconciled soa_test)
    as (w3 & z3 & Hrun & Hq & _).
  - reflexivity.
  - reflexivity.
  - eexists. reflexivity.
  - reflexivity.
  - split.
    + intros x [<-|[]]. reflexivity.
    + intros e ev H. cbn in H. apply lookup_singleton_Some in H as [<- _].
      reflexivity.
  - exists w3. split; [exact Hrun | exact Hq].
Defined.
